(** * Recurrence projection of the calendar components

    A shallow embedding of the scheduling code of the frontend:
    [projectRecurringDates] and [calendarItems] of
    [src/components/EventCalendar.tsx] and [getEventsForDay] of
    [src/components/RealTimeCalendar.tsx], with the properties the
    specification states about them.

    JavaScript numbers that the code handles are integers (identifiers,
    day indices, millisecond time values) and are modelled in [Z]. *)

From Stdlib Require Import ZArith List String Ascii Bool Lia Sorted Permutation.
From Stdlib Require Import DecimalString.
From stdpp Require Import base list.
Import ListNotations.

Local Open Scope string_scope.
Local Open Scope list_scope.
Local Open Scope Z_scope.

(** ** The JavaScript runtime *)

(** A [Date] object holds a time value: a number of milliseconds, or [NaN]
    (an invalid date).  Time values are kept on the local time line (the
    milliseconds elapsed since local midnight of 1 January 1970) and the zone
    has a constant offset, so that a local day is 86400000 ms long.  The
    range of time values is not bounded.  On this line every local time
    exists; where daylight saving skips a local time the platform moves it
    forward, which changes the time of day of a date but not its calendar
    day.  Module [Zoned] below runs the projection on instants, in a zone
    whose offset changes and with the range of time values. *)
Inductive JSDate : Type :=
| Time (t : Z)
| InvalidDate.

Definition msPerMinute : Z := 60000.
Definition msPerHour : Z := 3600000.
Definition msPerDay : Z := 86400000.

(** Number of the local day a time value falls on. *)
Definition dayOf (t : Z) : Z := t / msPerDay.

(** Weekday of a time value, 0 = Sunday ... 6 = Saturday; day 0 was a
    Thursday. *)
Definition weekDay (t : Z) : Z := (dayOf t + 4) mod 7.

Definition hourOf (t : Z) : Z := (t mod msPerDay) / msPerHour.
Definition minuteOf (t : Z) : Z := ((t mod msPerDay) / msPerMinute) mod 60.

(** [date.getDay()], [date.getTime()]: [None] stands for [NaN]. *)
Definition getDay (d : JSDate) : option Z :=
  match d with Time t => Some (weekDay t) | InvalidDate => None end.

Definition getTime (d : JSDate) : option Z :=
  match d with Time t => Some t | InvalidDate => None end.

(** [date.toDateString()] prints the local calendar day, or "Invalid Date":
    two results are equal strings exactly when both dates are invalid or both
    fall on the same local day, so the day number stands for the string. *)
Definition toDateString (d : JSDate) : option Z :=
  match d with Time t => Some (dayOf t) | InvalidDate => None end.

(** [date.setDate(date.getDate() + n)]: the day of the month overflows into
    the next months, the time within the day is kept (on this time line; see
    [Zoned.addDays] for a zone with daylight saving). *)
Definition addDays (d : JSDate) (n : Z) : JSDate :=
  match d with
  | Time t => Time (t + n * msPerDay)
  | InvalidDate => InvalidDate
  end.

(** [date.setHours(h, m, 0, 0)]: same local day, the given hours and minutes
    (which may overflow the day); [NaN] for either makes the date invalid
    (on this time line; see [Zoned.setHours] for a zone with daylight saving
    and for the range of time values). *)
Definition setHours (d : JSDate) (h m : option Z) : JSDate :=
  match d, h, m with
  | Time t, Some h, Some m =>
      Time (dayOf t * msPerDay + h * msPerHour + m * msPerMinute)
  | _, _, _ => InvalidDate
  end.

(** What the code takes from the platform and from date-fns.
    [jsNumber s] is [Number(s)] as [setHours] then uses it (truncated to an
    integer; [None] for [NaN] and the infinities); [dateParse s] is the time
    value of [new Date(s)], [None] for an invalid date; [parseISO] is the
    function of date-fns, with the same convention. *)
Class JSRuntime : Type := {
  jsNumber : string -> option Z;
  dateParse : string -> option Z;
  parseISO : string -> option Z
}.

Definition newDateOfString `{JSRuntime} (s : string) : JSDate :=
  match dateParse s with Some t => Time t | None => InvalidDate end.

(** ** Day of the week of a SPECIFIC_DAY rule *)

(** [const frontendDay = dayOfWeek === 6 ? 0 : dayOfWeek + 1], written at
    [EventCalendar.tsx:84] and [RealTimeCalendar.tsx:88,122]. *)
Definition frontendDay (dayOfWeek : Z) : Z :=
  if dayOfWeek =? 6 then 0 else dayOfWeek + 1.


(** ** Strings

    A string is a sequence of characters of one code unit each (ASCII text),
    so that its length is the [length] of JavaScript. *)

(** A string is truthy when it is not empty; [null] and [undefined] are
    [None] and are falsy. *)
Definition truthy (v : option string) : bool :=
  match v with Some s => negb (s =? EmptyString)%string | None => false end.

(** The string of a value that is known to be truthy. *)
Definition stringOf (v : option string) : string :=
  match v with Some s => s | None => EmptyString end.

(** No search query: the empty string. *)
Definition noSearch : string := EmptyString.

(** [a || b] on nullable strings. *)
Definition orElse (a b : option string) : option string :=
  if truthy a then a else b.

(** [hay.includes(needle)]. *)
Fixpoint includes (needle hay : string) : bool :=
  String.prefix needle hay
  || match hay with
     | EmptyString => false
     | String _ rest => includes needle rest
     end.

(** [s.split(sep)] for a separator of one character. *)
Fixpoint split (sep : ascii) (s : string) : list string :=
  match s with
  | EmptyString => [EmptyString]
  | String c rest =>
      if Ascii.eqb c sep then EmptyString :: split sep rest
      else match split sep rest with
           | [] => [String c EmptyString]
           | part :: parts => String c part :: parts
           end
  end.

(** [s.toLowerCase()] on ASCII text. *)
Definition lowerChar (c : ascii) : ascii :=
  let n := nat_of_ascii c in
  if (65 <=? n)%nat && (n <=? 90)%nat then ascii_of_nat (n + 32) else c.

Fixpoint toLowerCase (s : string) : string :=
  match s with
  | EmptyString => EmptyString
  | String c rest => String (lowerChar c) (toLowerCase rest)
  end.

(** ** Records of the API and of the calendar *)

Module Creator.
Record t : Type := { id : Z; username : string }.
End Creator.

(** [Show] of [lib/api.ts], with the fields the calendars read. *)
Module Show.
Record t : Type := {
    id : Z;
    slug : string;
    title : string;
    thumbnail : option string;
    scheduled_time : option string;
    day_of_week : option Z;
    is_recurring : bool;
    recurrence_type : option string;
    status : string;
    creator : Creator.t
  }.
End Show.

(** [Event] of the API, with the fields the calendars read. *)
Module Event.
Record t : Type := {
    id : Z;
    title : string;
    banner_image : option string;
    thumbnail : option string;
    start_date : option string;
    end_date : option string;
    start_datetime : option string;
    end_datetime : option string;
    venue_name : option string;
    location : option string;
    is_virtual : bool;
    is_recurring : bool;
    recurrence_type : option string;
    day_of_week : option Z;
    scheduled_time : option string;
    status : string;
    organizer : Creator.t
  }.
End Event.

Inductive ItemType : Type := show | event.

Definition ItemType_eqb (a b : ItemType) : bool :=
  match a, b with
  | show, show | event, event => true
  | _, _ => false
  end.

(** [CalendarItem] of [EventCalendar.tsx]; [D] is what a [Date] field holds:
    a date value, or the address of a [Date] object in a store. *)
Module CalendarItem.
Record t (D : Type) : Type := {
    id : Z;
    title : string;
    type : ItemType;
    date : D;
    endDate : option D;
    thumbnail : option string;
    creator : string;
    creatorId : Z;
    slug : option string;
    isVirtual : option bool;
    location : option string;
    status : option string
  }.
Arguments id {D} _.
Arguments title {D} _.
Arguments type {D} _.
Arguments date {D} _.
Arguments endDate {D} _.
Arguments thumbnail {D} _.
Arguments creator {D} _.
Arguments creatorId {D} _.
Arguments slug {D} _.
Arguments isVirtual {D} _.
Arguments location {D} _.
Arguments status {D} _.
End CalendarItem.

Inductive ContentFilter : Type := all | shows | events.

(** The object literal pushed for a show, at [EventCalendar.tsx:113-118] and
    [124-128]. *)
Definition showItem {D : Type} (s : Show.t) (d : D) : CalendarItem.t D :=
  {| CalendarItem.id := Show.id s;
     CalendarItem.title := Show.title s;
     CalendarItem.type := show;
     CalendarItem.date := d;
     CalendarItem.endDate := None;
     CalendarItem.thumbnail := Show.thumbnail s;
     CalendarItem.creator := Creator.username (Show.creator s);
     CalendarItem.creatorId := Creator.id (Show.creator s);
     CalendarItem.slug := Some (Show.slug s);
     CalendarItem.isVirtual := None;
     CalendarItem.location := None;
     CalendarItem.status := Some (Show.status s) |}.

(** [event.venue_name || event.location || undefined]. *)
Definition eventLocation (e : Event.t) : option string :=
  let v := orElse (Event.venue_name e) (Event.location e) in
  if truthy v then v else None.

(** The object literal pushed for an event, at [EventCalendar.tsx:141-150]
    and [157-164]. *)
Definition eventItem {D : Type} (e : Event.t) (d : D) (endD : option D)
  : CalendarItem.t D :=
  {| CalendarItem.id := Event.id e;
     CalendarItem.title := Event.title e;
     CalendarItem.type := event;
     CalendarItem.date := d;
     CalendarItem.endDate := endD;
     CalendarItem.thumbnail :=
       orElse (Event.banner_image e) (Event.thumbnail e);
     CalendarItem.creator := Creator.username (Event.organizer e);
     CalendarItem.creatorId := Creator.id (Event.organizer e);
     CalendarItem.slug := None;
     CalendarItem.isVirtual := Some (Event.is_virtual e);
     CalendarItem.location := eventLocation e;
     CalendarItem.status := Some (Event.status e) |}.

(** Comparisons of a possibly-[NaN] number: any comparison with [NaN] is
    false. *)
Definition numEq (a : option Z) (b : Z) : bool :=
  match a with Some x => x =? b | None => false end.
Definition numGe (a : option Z) (b : Z) : bool :=
  match a with Some x => b <=? x | None => false end.
Definition numLe (a : option Z) (b : Z) : bool :=
  match a with Some x => x <=? b | None => false end.

Definition strEq (a : option string) (b : string) : bool :=
  match a with Some x => (x =? b)%string | None => false end.

(** [a.toDateString() === b.toDateString()]. *)
Definition sameDateString (a b : JSDate) : bool :=
  match toDateString a, toDateString b with
  | Some x, Some y => x =? y
  | None, None => true
  | _, _ => false
  end.

Abbreviation Item := (CalendarItem.t JSDate).

(** [Array.prototype.sort] is stable and reads a [NaN] result of the
    comparator as 0: [a] stays before [b] unless the comparator is positive
    ([before a b] below).  For a consistent comparator (here: when every date
    is valid) the result of a stable sort is unique, and insertion from the
    right computes it. *)
Fixpoint insertBy {A : Type} (before : A -> A -> bool) (a : A) (l : list A)
  : list A :=
  match l with
  | [] => [a]
  | b :: rest => if before a b then a :: b :: rest
                 else b :: insertBy before a rest
  end.

Definition sortBy {A : Type} (before : A -> A -> bool) (l : list A) : list A :=
  fold_right (insertBy before) [] l.

(** The predicate of the search, [EventCalendar.tsx:172-175]. *)
Definition matchesSearch {D : Type} (searchQuery : string)
    (i : CalendarItem.t D) : bool :=
  includes (toLowerCase searchQuery) (toLowerCase (CalendarItem.title i))
  || includes (toLowerCase searchQuery) (toLowerCase (CalendarItem.creator i)).

(** ** [projectRecurringDates] of [EventCalendar.tsx] *)

Section Projection.
Context `{JSRuntime}.

(** The test of the recurrence rule against the weekday [dow] of a day,
    [EventCalendar.tsx:78-86]. *)
Definition shouldAdd (recurrenceType : option string) (dayOfWeek : option Z)
    (dow : option Z) : bool :=
  if strEq recurrenceType "DAILY" then true
  else if strEq recurrenceType "WEEKDAYS" then numGe dow 1 && numLe dow 5
  else if strEq recurrenceType "WEEKENDS" then numEq dow 0 || numEq dow 6
  else if strEq recurrenceType "SPECIFIC_DAY" then
    match dayOfWeek with
    | Some k => numEq dow (frontendDay k)
    | None => false
    end
  else false.

(** [const [hours, minutes] = scheduledTime.split(':').map(Number)]. *)
Definition clockParts (scheduledTime : string) : option Z * option Z :=
  let parts := map jsNumber (split ":" scheduledTime) in
  (mjoin (parts !! 0%nat), mjoin (parts !! 1%nat)).

(** The time of day given to a matching day, [EventCalendar.tsx:88-99]:
    nothing is done for a falsy [scheduledTime], nor for a longer string that
    is not a date. *)
Definition stampTime (scheduledTime : option string) (date : JSDate) : JSDate :=
  match scheduledTime with
  | Some s =>
      if truthy (Some s) then
        if includes ":" s && (String.length s <=? 8)%nat then
          let '(hours, minutes) := clockParts s in
          setHours date hours minutes
        else
          match newDateOfString s with
          | Time t => setHours date (Some (hourOf t)) (Some (minuteOf t))
          | InvalidDate => date
          end
      else date
  | None => date
  end.

(** The body of the loop for one value of [d], [EventCalendar.tsx:75-101]:
    the dates it pushes. *)
Definition projectDay (now : JSDate) (recurrenceType : option string)
    (dayOfWeek : option Z) (scheduledTime : option string) (d : nat)
  : list JSDate :=
  let date := addDays now (Z.of_nat d) in
  let dow := getDay date in
  if shouldAdd recurrenceType dayOfWeek dow
  then [stampTime scheduledTime date]
  else [].

(** [projectRecurringDates], where [now] is what [new Date()] returned. *)
Definition projectRecurringDates (now : Z) (recurrenceType : option string)
    (dayOfWeek : option Z) (scheduledTime : option string) : list JSDate :=
  flat_map (projectDay (Time now) recurrenceType dayOfWeek scheduledTime)
    (seq 0 28).

(** ** [calendarItems] of [EventCalendar.tsx] *)

(** The system clock: [clock k] is the time value of the [k]-th [new Date()]
    of a run.  The state threaded through [calendarItems] is the array
    [items] and the number of clock readings made so far. *)
Variable clock : nat -> Z.

(** [items.find(i => i.id === id && i.type === type &&
    i.date.toDateString() === d.toDateString())] finds something. *)
Definition found (items : list Item) (id : Z) (ty : ItemType) (d : JSDate)
  : bool :=
  existsb (fun i => (CalendarItem.id i =? id)
                    && ItemType_eqb (CalendarItem.type i) ty
                    && sameDateString (CalendarItem.date i) d) items.

(** The callback of [.forEach(d => ...)] at [EventCalendar.tsx:122-130] and
    [155-166]: push unless an item of the same entity is on that day. *)
Definition pushOccurrence (id : Z) (ty : ItemType) (mk : JSDate -> Item)
    (items : list Item) (d : JSDate) : list Item :=
  if found items id ty d then items else items ++ [mk d].

(** The callback of [shows.forEach], [EventCalendar.tsx:111-132]. *)
Definition showStep (st : list Item * nat) (s : Show.t) : list Item * nat :=
  let '(items, reads) := st in
  let items :=
    if negb (Show.is_recurring s) && truthy (Show.scheduled_time s)
    then items ++ [showItem s (newDateOfString
                                 (stringOf (Show.scheduled_time s)))]
    else items in
  if Show.is_recurring s && truthy (Show.recurrence_type s) then
    (fold_left (pushOccurrence (Show.id s) show (showItem s))
       (projectRecurringDates (clock reads) (Show.recurrence_type s)
          (Show.day_of_week s) (Show.scheduled_time s))
       items,
     S reads)
  else (items, reads).

(** [endDate ? new Date(endDate) : undefined]. *)
Definition eventEnd (endDate : option string) : option JSDate :=
  if truthy endDate then Some (newDateOfString (stringOf endDate))
  else None.

(** The callback of [events.forEach], [EventCalendar.tsx:136-168]. *)
Definition eventStep (st : list Item * nat) (e : Event.t) : list Item * nat :=
  let '(items, reads) := st in
  let items :=
    if negb (Event.is_recurring e) then
      let startDate := orElse (Event.start_datetime e) (Event.start_date e) in
      let endDate := orElse (Event.end_datetime e) (Event.end_date e) in
      if truthy startDate
      then items ++ [eventItem e (newDateOfString (stringOf startDate))
                       (eventEnd endDate)]
      else items
    else items in
  if Event.is_recurring e && truthy (Event.recurrence_type e) then
    (fold_left (pushOccurrence (Event.id e) event (fun d => eventItem e d None))
       (projectRecurringDates (clock reads) (Event.recurrence_type e)
          (Event.day_of_week e)
          (orElse (Event.scheduled_time e)
             (orElse (Event.start_datetime e) (Event.start_date e))))
       items,
     S reads)
  else (items, reads).

(** The comparator [(a, b) => a.date.getTime() - b.date.getTime()]. *)
Definition compareFn (a b : Item) : option Z :=
  match getTime (CalendarItem.date a), getTime (CalendarItem.date b) with
  | Some x, Some y => Some (x - y)
  | _, _ => None
  end.

Definition staysBefore (a b : Item) : bool :=
  match compareFn a b with Some v => v <=? 0 | None => true end.

Definition sort (l : list Item) : list Item := sortBy staysBefore l.

(** The array [items] before the search and the sort, with the number of
    clock readings made. *)
Definition collectItems (filter : ContentFilter) (showList : list Show.t)
    (eventList : list Event.t) : list Item * nat :=
  let st := ([], 0%nat) in
  let st :=
    match filter with
    | all | shows => fold_left showStep showList st
    | events => st
    end in
  match filter with
  | all | events => fold_left eventStep eventList st
  | shows => st
  end.

(** The value of [calendarItems], [EventCalendar.tsx:107-179]. *)
Definition calendarItems (filter : ContentFilter) (searchQuery : string)
    (showList : list Show.t) (eventList : list Event.t) : list Item :=
  let items := fst (collectItems filter showList eventList) in
  if truthy (Some searchQuery)
  then List.filter (matchesSearch searchQuery) items
  else sort items.

End Projection.

(** ** [getEventsForDay] of [RealTimeCalendar.tsx] *)

Section MonthGrid.
Context `{JSRuntime}.

(** [isSameDay] of date-fns compares the starts of the two days as numbers,
    so an invalid date is on no day. *)
Definition isSameDay (a b : JSDate) : bool :=
  match a, b with
  | Time x, Time y => dayOf x =? dayOf y
  | _, _ => false
  end.

Definition parseISODate (s : string) : JSDate :=
  match parseISO s with Some t => Time t | None => InvalidDate end.

(** The [switch] on the recurrence type, [RealTimeCalendar.tsx:70-93] for a
    show and [110-127] for an event. *)
Definition recursOn (recurrence_type : option string) (day_of_week : option Z)
    (dayOfWeek : option Z) : bool :=
  if strEq recurrence_type "DAILY" then true
  else if strEq recurrence_type "WEEKDAYS" then
    numGe dayOfWeek 1 && numLe dayOfWeek 5
  else if strEq recurrence_type "WEEKENDS" then
    numEq dayOfWeek 0 || numEq dayOfWeek 6
  else if strEq recurrence_type "SPECIFIC_DAY" then
    match day_of_week with
    | None => false
    | Some k => numEq dayOfWeek (frontendDay k)
    end
  else false.

(** The predicate of [shows.filter], [RealTimeCalendar.tsx:58-95]. *)
Definition showOnDay (date : JSDate) (s : Show.t) : bool :=
  if negb (Show.is_recurring s) then
    if negb (truthy (Show.scheduled_time s)) then false
    else isSameDay (parseISODate (stringOf (Show.scheduled_time s))) date
  else recursOn (Show.recurrence_type s) (Show.day_of_week s) (getDay date).

(** The predicate of [events.filter], [RealTimeCalendar.tsx:97-129]. *)
Definition eventOnDay (date : JSDate) (e : Event.t) : bool :=
  if negb (Event.is_recurring e) then
    let startDt := orElse (Event.start_datetime e) (Event.start_date e) in
    if negb (truthy startDt) then false
    else isSameDay (parseISODate (stringOf startDt)) date
  else recursOn (Event.recurrence_type e) (Event.day_of_week e) (getDay date).

Definition getEventsForDay (date : JSDate) (showList : list Show.t)
    (eventList : list Event.t) : list Show.t * list Event.t :=
  (List.filter (showOnDay date) showList,
   List.filter (eventOnDay date) eventList).

End MonthGrid.

(** ** Concrete dates and a reference runtime

    Used to evaluate the code on examples.  The general statements below
    hold for every runtime. *)

(** Day number of a civil date of the Gregorian calendar. *)
Definition daysFromCivil (y m d : Z) : Z :=
  let y' := if m <=? 2 then y - 1 else y in
  let era := y' / 400 in
  let yoe := y' - era * 400 in
  let doy := (153 * (if 2 <? m then m - 3 else m + 9) + 2) / 5 + d - 1 in
  let doe := yoe * 365 + yoe / 4 - yoe / 100 + doy in
  era * 146097 + doe - 719468.

(** Time value of the local time [y-m-d h:mi]. *)
Definition localTime (y m d h mi : Z) : Z :=
  daysFromCivil y m d * msPerDay + h * msPerHour + mi * msPerMinute.

Definition digitOf (c : ascii) : option Z :=
  let n := nat_of_ascii c in
  if (48 <=? n)%nat && (n <=? 57)%nat then Some (Z.of_nat n - 48) else None.

Fixpoint digitsValue (acc : Z) (s : string) : option Z :=
  match s with
  | EmptyString => Some acc
  | String c rest =>
      match digitOf c with
      | Some k => digitsValue (10 * acc + k) rest
      | None => None
      end
  end.

(** [Number] on strings of decimal digits (and on the empty string, which
    is 0). *)
Definition refNumber (s : string) : option Z := digitsValue 0 s.

(** Date-times written [YYYY-MM-DDTHH:MM], which are read as local time;
    the days of the month are taken up to 28, which every month has. *)
Definition refDateParse (s : string) : option Z :=
  if (String.length s =? 16)%nat
     && (substring 4 1 s =? "-")%string && (substring 7 1 s =? "-")%string
     && (substring 10 1 s =? "T")%string && (substring 13 1 s =? ":")%string
  then
    match refNumber (substring 0 4 s), refNumber (substring 5 2 s),
          refNumber (substring 8 2 s), refNumber (substring 11 2 s),
          refNumber (substring 14 2 s) with
    | Some y, Some m, Some d, Some h, Some mi =>
        if (1 <=? m) && (m <=? 12) && (1 <=? d) && (d <=? 28)
           && (h <=? 23) && (mi <=? 59)
        then Some (localTime y m d h mi) else None
    | _, _, _, _, _ => None
    end
  else None.

Definition refRuntime : JSRuntime :=
  {| jsNumber := refNumber;
     dateParse := refDateParse;
     parseISO := refDateParse |}.

(** A clock that shows the same millisecond at every reading. *)
Definition stoppedClock (t : Z) : nat -> Z := fun _ => t.

(** ** The projection in a zone with daylight saving

    Above, time values are kept on a local time line without changes of
    offset.  Here a time value is an instant, a number of milliseconds since
    the epoch, and the zone of the user is a parameter, in the terms of
    ECMAScript: the methods of [Date] that work on local time pass through
    [LocalTime] and [UTC], and every time value they store through
    [TimeClip]. *)

Module Zoned.

(** [LocalTime t] is the local time value at the instant [t].  [UTC l] is
    the instant the platform takes for the local time value [l]: when
    daylight saving skips [l], the instant found with the offset in force
    before the change, whose local time is later than [l] by the length of
    the gap; when [l] occurs twice, the earlier of the two instants. *)
Class TimeZone : Type := {
  LocalTime : Z -> Z;
  UTC : Z -> Z
}.

(** The range of time values, 100 000 000 days around the epoch. *)
Definition maxTime : Z := 8640000000000000.

(** [TimeClip]: a time value out of range makes an invalid date. *)
Definition TimeClip (v : Z) : JSDate :=
  if Z.abs v <=? maxTime then Time v else InvalidDate.

Section Dates.
Context `{JSRuntime} `{TimeZone}.

(** The date made of a local time value, the last step of [setDate] and of
    [setHours]. *)
Definition resolve (l : Z) : JSDate := TimeClip (UTC l).

Definition getDay (d : JSDate) : option Z :=
  match d with
  | Time t => Some (weekDay (LocalTime t))
  | InvalidDate => None
  end.

(** [time.getHours()], [time.getMinutes()] of a valid date. *)
Definition getHours (t : Z) : Z := hourOf (LocalTime t).
Definition getMinutes (t : Z) : Z := minuteOf (LocalTime t).

(** [date.setDate(date.getDate() + n)]: the local day moves by [n], the
    local time within the day is asked for again. *)
Definition addDays (d : JSDate) (n : Z) : JSDate :=
  match d with
  | Time t => resolve (LocalTime t + n * msPerDay)
  | InvalidDate => InvalidDate
  end.

(** [date.setHours(h, m, 0, 0)]: the local day of the date with the hours
    and minutes given.  The platform computes the time within the day in
    floating point, which is exact for the numbers that [stampTime] passes:
    those of a string of at most 8 characters, or hours and minutes of a
    date. *)
Definition setHours (d : JSDate) (h m : option Z) : JSDate :=
  match d, h, m with
  | Time t, Some h, Some m =>
      resolve (dayOf (LocalTime t) * msPerDay
               + h * msPerHour + m * msPerMinute)
  | _, _, _ => InvalidDate
  end.

(** [EventCalendar.tsx:88-99]. *)
Definition stampTime (scheduledTime : option string) (date : JSDate) : JSDate :=
  match scheduledTime with
  | Some s =>
      if truthy (Some s) then
        if includes ":" s && (String.length s <=? 8)%nat then
          let '(hours, minutes) := clockParts s in
          setHours date hours minutes
        else
          match newDateOfString s with
          | Time t => setHours date (Some (getHours t)) (Some (getMinutes t))
          | InvalidDate => date
          end
      else date
  | None => date
  end.

(** [EventCalendar.tsx:75-101]. *)
Definition projectDay (now : JSDate) (recurrenceType : option string)
    (dayOfWeek : option Z) (scheduledTime : option string) (d : nat)
  : list JSDate :=
  let date := addDays now (Z.of_nat d) in
  let dow := getDay date in
  if shouldAdd recurrenceType dayOfWeek dow
  then [stampTime scheduledTime date]
  else [].

(** [projectRecurringDates], where [now] is the instant that [new Date()]
    returned. *)
Definition projectRecurringDates (now : Z) (recurrenceType : option string)
    (dayOfWeek : option Z) (scheduledTime : option string) : list JSDate :=
  flat_map (projectDay (Time now) recurrenceType dayOfWeek scheduledTime)
    (seq 0 28).

End Dates.

(** A zone without changes of offset, with the instants counted from local
    midnight: the local time line of the other sections. *)
Definition fixedZone : TimeZone :=
  {| LocalTime := fun t => t; UTC := fun l => l |}.


End Zoned.

(** ** The same code over a store of objects

    [Date] objects are mutable and are held by reference, and so are the
    records of the arrays [shows] and [events].  Here the code runs on a store
    in which every object has an address; the items it builds hold the
    addresses of their [Date] objects. *)

Module Heap.

Inductive Obj : Type :=
| OShow (s : Show.t)
| OEvent (e : Event.t)
| ODate (d : JSDate).

Abbreviation loc := nat.

(** The objects by address, and the number of clock readings made. *)
Record Store : Type := { objs : list Obj; reads : nat }.

Abbreviation Item := (CalendarItem.t loc).

(** Computations on the store. *)
Definition M (A : Type) : Type := Store -> A * Store.

Definition ret {A : Type} (a : A) : M A := fun st => (a, st).

Definition bind {A B : Type} (m : M A) (k : A -> M B) : M B :=
  fun st => let r := m st in k (fst r) (snd r).

Notation "x <- m ;; k" := (bind m (fun x => k))
  (at level 100, m at next level, right associativity).
Notation "m ;;; k" := (bind m (fun _ => k))
  (at level 100, right associativity).

(** A loop that carries an accumulator, for [for] and [forEach]. *)
Fixpoint foldM {A B : Type} (f : B -> A -> M B) (l : list A) (b : B) : M B :=
  match l with
  | [] => ret b
  | a :: rest => b' <- f b a ;; foldM f rest b'
  end.

(** What an address holds, read as a date, a show or an event. *)
Definition deref (st : Store) (l : loc) : JSDate :=
  match objs st !! l with Some (ODate d) => d | _ => InvalidDate end.

Definition showAt (st : Store) (l : loc) : option Show.t :=
  match objs st !! l with Some (OShow s) => Some s | _ => None end.

Definition eventAt (st : Store) (l : loc) : option Event.t :=
  match objs st !! l with Some (OEvent e) => Some e | _ => None end.

Definition gets {A : Type} (f : Store -> A) : M A := fun st => (f st, st).

Definition readDate (l : loc) : M JSDate := gets (fun st => deref st l).

Definition writeDate (l : loc) (d : JSDate) : M unit :=
  fun st => (tt, {| objs := <[l := ODate d]> (objs st); reads := reads st |}).

Definition allocDate (d : JSDate) : M loc :=
  fun st => (length (objs st),
             {| objs := objs st ++ [ODate d]; reads := reads st |}).

Section Run.
Context `{JSRuntime}.
Variable clock : nat -> Z.

Definition readClock : M Z :=
  fun st => (clock (reads st), {| objs := objs st; reads := S (reads st) |}).

(** [new Date()], [new Date(other)], [new Date(string)]. *)
Definition newDate : M loc := t <- readClock ;; allocDate (Time t).
Definition copyDate (other : loc) : M loc := d <- readDate other ;; allocDate d.
Definition parseDate (s : string) : M loc := allocDate (newDateOfString s).

(** [date.setDate(date.getDate() + n)] and [date.setHours(h, m, 0, 0)]. *)
Definition setDatePlus (date : loc) (n : Z) : M unit :=
  d <- readDate date ;; writeDate date (addDays d n).
Definition setHoursOf (date : loc) (h m : option Z) : M unit :=
  d <- readDate date ;; writeDate date (setHours d h m).

(** [EventCalendar.tsx:88-99]. *)
Definition stampTime (scheduledTime : option string) (date : loc) : M unit :=
  match scheduledTime with
  | Some s =>
      if truthy (Some s) then
        if includes ":" s && (String.length s <=? 8)%nat then
          let '(hours, minutes) := clockParts s in
          setHoursOf date hours minutes
        else
          time <- parseDate s ;;
          t <- readDate time ;;
          match t with
          | Time u => setHoursOf date (Some (hourOf u)) (Some (minuteOf u))
          | InvalidDate => ret tt
          end
      else ret tt
  | None => ret tt
  end.

(** The body of the loop, [EventCalendar.tsx:75-101]. *)
Definition projectDay (now : loc) (recurrenceType : option string)
    (dayOfWeek : option Z) (scheduledTime : option string)
    (dates : list loc) (d : nat) : M (list loc) :=
  date <- copyDate now ;;
  setDatePlus date (Z.of_nat d) ;;;
  t <- readDate date ;;
  if shouldAdd recurrenceType dayOfWeek (getDay t) then
    stampTime scheduledTime date ;;;
    pushed <- copyDate date ;;
    ret (dates ++ [pushed])
  else ret dates.

Definition projectRecurringDates (recurrenceType : option string)
    (dayOfWeek : option Z) (scheduledTime : option string) : M (list loc) :=
  now <- newDate ;;
  foldM (projectDay now recurrenceType dayOfWeek scheduledTime) (seq 0 28) [].

Definition found (items : list Item) (id : Z) (ty : ItemType) (d : loc)
  : M bool :=
  gets (fun st =>
    existsb (fun i => (CalendarItem.id i =? id)
                      && ItemType_eqb (CalendarItem.type i) ty
                      && sameDateString (deref st (CalendarItem.date i))
                                        (deref st d)) items).

Definition pushOccurrence (id : Z) (ty : ItemType) (mk : loc -> Item)
    (items : list Item) (d : loc) : M (list Item) :=
  present <- found items id ty d ;;
  if present then ret items else ret (items ++ [mk d]).

(** The callback of [shows.forEach], on the address of a show. *)
Definition showStep (items : list Item) (ref : loc) : M (list Item) :=
  shown <- gets (fun st => showAt st ref) ;;
  match shown with
  | None => ret items
  | Some s =>
      items <-
        (if negb (Show.is_recurring s) && truthy (Show.scheduled_time s)
         then d <- parseDate (stringOf (Show.scheduled_time s)) ;;
              ret (items ++ [showItem s d])
         else ret items) ;;
      if Show.is_recurring s && truthy (Show.recurrence_type s) then
        ds <- projectRecurringDates (Show.recurrence_type s)
                (Show.day_of_week s) (Show.scheduled_time s) ;;
        foldM (pushOccurrence (Show.id s) show (showItem s)) ds items
      else ret items
  end.

Definition eventEnd (endDate : option string) : M (option loc) :=
  if truthy endDate
  then d <- parseDate (stringOf endDate) ;; ret (Some d)
  else ret None.

(** The callback of [events.forEach], on the address of an event. *)
Definition eventStep (items : list Item) (ref : loc) : M (list Item) :=
  held <- gets (fun st => eventAt st ref) ;;
  match held with
  | None => ret items
  | Some e =>
      items <-
        (if negb (Event.is_recurring e) then
           let startDate :=
             orElse (Event.start_datetime e) (Event.start_date e) in
           let endDate := orElse (Event.end_datetime e) (Event.end_date e) in
           if truthy startDate
           then d <- parseDate (stringOf startDate) ;;
                endD <- eventEnd endDate ;;
                ret (items ++ [eventItem e d endD])
           else ret items
         else ret items) ;;
      if Event.is_recurring e && truthy (Event.recurrence_type e) then
        ds <- projectRecurringDates (Event.recurrence_type e)
                (Event.day_of_week e)
                (orElse (Event.scheduled_time e)
                   (orElse (Event.start_datetime e) (Event.start_date e))) ;;
        foldM (pushOccurrence (Event.id e) event (fun d => eventItem e d None))
          ds items
      else ret items
  end.

Definition staysBefore (st : Store) (a b : Item) : bool :=
  match getTime (deref st (CalendarItem.date a)),
        getTime (deref st (CalendarItem.date b)) with
  | Some x, Some y => x - y <=? 0
  | _, _ => true
  end.

(** [calendarItems] on the arrays of addresses [showRefs] and [eventRefs]. *)
Definition calendarItems (filter : ContentFilter) (searchQuery : string)
    (showRefs eventRefs : list loc) : M (list Item) :=
  items <-
    match filter with
    | all | shows => foldM showStep showRefs []
    | events => ret []
    end ;;
  items <-
    match filter with
    | all | events => foldM eventStep eventRefs items
    | shows => ret items
    end ;;
  if truthy (Some searchQuery)
  then ret (List.filter (matchesSearch searchQuery) items)
  else gets (fun st => sortBy (staysBefore st) items).

End Run.

(** An item with its dates read from the store. *)
Definition viewItem (st : Store) (i : Item) : CalendarItem.t JSDate :=
  {| CalendarItem.id := CalendarItem.id i;
     CalendarItem.title := CalendarItem.title i;
     CalendarItem.type := CalendarItem.type i;
     CalendarItem.date := deref st (CalendarItem.date i);
     CalendarItem.endDate := deref st <$> CalendarItem.endDate i;
     CalendarItem.thumbnail := CalendarItem.thumbnail i;
     CalendarItem.creator := CalendarItem.creator i;
     CalendarItem.creatorId := CalendarItem.creatorId i;
     CalendarItem.slug := CalendarItem.slug i;
     CalendarItem.isVirtual := CalendarItem.isVirtual i;
     CalendarItem.location := CalendarItem.location i;
     CalendarItem.status := CalendarItem.status i |}.

(** The addresses of [Date] objects an item holds. *)
Definition itemDates (i : Item) : list loc :=
  CalendarItem.date i :: match CalendarItem.endDate i with
                         | Some l => [l]
                         | None => []
                         end.

End Heap.

(** ** The views of [EventCalendar.tsx] *)



(** The calendar of the platform, on valid time values: the year, the month
    (0..11) and the day of the month of a time value, and [monthStart year
    month], the time value of [new Date(year, month, 1)], local midnight of
    the first day of a month ([month] may lie outside 0..11, and then counts
    into the neighbouring years). *)
Class JSCalendar : Type := {
  getFullYear : Z -> Z;
  getMonth : Z -> Z;
  getDate : Z -> Z;
  monthStart : Z -> Z -> Z
}.

(** [new Date(year, month, date)]: the days are counted from the first day
    of the month, also past its last day and before its first one. *)
Definition newDateYMD `{JSCalendar} (year month date : Z) : Z :=
  monthStart year month + (date - 1) * msPerDay.


Module ViewMode.
Inductive t : Type := month | week | day.
End ViewMode.


(** The cells of the month view, [EventCalendar.tsx:182-186] and [366-375],
    for a valid current date: [firstDay] empty cells, then a cell for each
    day of the month with its date. *)
Definition firstDay `{JSCalendar} (currentDate : Z) : Z :=
  weekDay (newDateYMD (getFullYear currentDate) (getMonth currentDate) 1).

Definition daysInMonth `{JSCalendar} (currentDate : Z) : Z :=
  getDate (newDateYMD (getFullYear currentDate) (getMonth currentDate + 1) 0).

Definition monthCells `{JSCalendar} (currentDate : Z) : list (option Z) :=
  repeat None (Z.to_nat (firstDay currentDate))
  ++ map (fun i : nat =>
            Some (newDateYMD (getFullYear currentDate) (getMonth currentDate)
                    (Z.of_nat i + 1)))
       (seq 0 (Z.to_nat (daysInMonth currentDate))).

(** ** The grid of [RealTimeCalendar.tsx] *)

(** The functions of date-fns the grid uses, on valid time values, with the
    week starting on Sunday. *)
Definition startOfMonth `{JSCalendar} (t : Z) : Z :=
  newDateYMD (getFullYear t) (getMonth t) 1.

Definition endOfMonth `{JSCalendar} (t : Z) : Z :=
  newDateYMD (getFullYear t) (getMonth t + 1) 0 + (msPerDay - 1).

Definition startOfWeek (t : Z) : Z := (dayOf t - weekDay t) * msPerDay.

Definition endOfWeek (t : Z) : Z :=
  (dayOf t + (6 - weekDay t)) * msPerDay + (msPerDay - 1).

(** The loop [while (day <= endDate)] of [RealTimeCalendar.tsx:45-52]: each
    turn pushes a row of seven days, one calendar day apart (on this time
    line each at the time of day of the first).  [fuel] bounds the number of
    turns; [None] when it does not suffice. *)
Fixpoint weekRows (fuel : nat) (day endDate : Z) : option (list (list Z)) :=
  if day <=? endDate then
    match fuel with
    | O => None
    | S fuel' =>
        match weekRows fuel' (day + 7 * msPerDay) endDate with
        | Some rows =>
            Some (map (fun i : nat => day + Z.of_nat i * msPerDay) (seq 0 7)
                  :: rows)
        | None => None
        end
    end
  else Some [].

(** The rows of the grid for a current date, [RealTimeCalendar.tsx:34-52]. *)
Definition calendarRows `{JSCalendar} (fuel : nat) (currentDate : Z)
  : option (list (list Z)) :=
  let monthStart := startOfMonth currentDate in
  let monthEnd := endOfMonth monthStart in
  let startDate := startOfWeek monthStart in
  let endDate := endOfWeek monthEnd in
  weekRows fuel startDate endDate.

(** [l.slice(0, n)]: a negative [n] counts from the end. *)
Definition slice0 {A : Type} (n : Z) (l : list A) : list A :=
  if 0 <=? n then firstn (Z.to_nat n) l
  else firstn (Z.to_nat (Z.max (Z.of_nat (length l) + n) 0)) l.

(** What a cell of the grid lists, [RealTimeCalendar.tsx:174-215]: the shows
    [dayShows.slice(0, 2)], the events [dayEvents.slice(0, 2 -
    dayShows.length)], and the number of the indicator "+n more" when it is
    drawn. *)
Definition cellEntries (dayShows : list Show.t) (dayEvents : list Event.t)
  : list Show.t * list Event.t * option Z :=
  let total := Z.of_nat (length dayShows) + Z.of_nat (length dayEvents) in
  (slice0 2 dayShows,
   slice0 (2 - Z.of_nat (length dayShows)) dayEvents,
   if 2 <? total then Some (total - 2) else None).

(** ** A reference calendar *)

(** The civil date of a day number, and the calendar it gives. *)
Definition civilFromDays (z : Z) : Z * Z * Z :=
  let z := z + 719468 in
  let era := z / 146097 in
  let doe := z - era * 146097 in
  let yoe := (doe - doe / 1460 + doe / 36524 - doe / 146096) / 365 in
  let doy := doe - (365 * yoe + yoe / 4 - yoe / 100) in
  let mp := (5 * doy + 2) / 153 in
  let d := doy - (153 * mp + 2) / 5 + 1 in
  let m := if mp <? 10 then mp + 3 else mp - 9 in
  let y := yoe + era * 400 + (if m <=? 2 then 1 else 0) in
  (y, m, d).

Definition refCalendar : JSCalendar :=
  {| getFullYear := fun t => fst (fst (civilFromDays (dayOf t)));
     getMonth := fun t => snd (fst (civilFromDays (dayOf t))) - 1;
     getDate := fun t => snd (civilFromDays (dayOf t));
     monthStart := fun year month =>
       daysFromCivil (year + month / 12) (month mod 12 + 1) 1 * msPerDay |}.

(** ** The edit form of an event, [EditEventModal] of [RealTimeCalendar.tsx] *)

(** White space of ASCII text, as [trim] removes it. *)
Definition isWhiteSpace (c : ascii) : bool :=
  let n := nat_of_ascii c in
  ((9 <=? n)%nat && (n <=? 13)%nat) || (n =? 32)%nat.

Fixpoint trimStart (s : string) : string :=
  match s with
  | EmptyString => EmptyString
  | String c rest => if isWhiteSpace c then trimStart rest else s
  end.

Fixpoint trimEnd (s : string) : string :=
  match s with
  | EmptyString => EmptyString
  | String c rest =>
      match trimEnd rest with
      | EmptyString =>
          if isWhiteSpace c then EmptyString else String c EmptyString
      | kept => String c kept
      end
  end.

(** [s.trim()]. *)
Definition trim (s : string) : string := trimEnd (trimStart s).

(** A number of the form: an integer, or [NaN] as [parseInt] returns it for
    the empty choice of a [select]. *)
Inductive JSNumber : Type := Num (n : Z) | NaN.

Inductive File : Type := mkFile (name : string).

(** The values of the properties of a payload. *)
Inductive JSValue : Type :=
  | VUndefined
  | VNull
  | VString (s : string)
  | VBool (b : bool)
  | VNumber (n : JSNumber)
  | VFile (f : File).

(** [String(value)]. *)
Definition jsString (value : JSValue) : string :=
  match value with
  | VUndefined => "undefined"
  | VNull => "null"
  | VString s => s
  | VBool true => "true"
  | VBool false => "false"
  | VNumber (Num n) => NilZero.string_of_int (Z.to_int n)
  | VNumber NaN => "NaN"
  | VFile _ => "[object File]"
  end.

(** An object: its own properties in the order of their creation. *)
Definition JSObject : Type := list (string * JSValue).

(** [o.key = value]. *)
Definition setProp (key : string) (value : JSValue) (o : JSObject)
  : JSObject :=
  if existsb (fun kv => (fst kv =? key)%string) o
  then map (fun kv => if (fst kv =? key)%string then (key, value) else kv) o
  else o ++ [(key, value)].

(** [s || undefined] and [v] for a string that may be [undefined]. *)
Definition orUndefined (s : string) : JSValue :=
  if truthy (Some s) then VString s else VUndefined.

Definition optString (v : option string) : JSValue :=
  match v with Some s => VString s | None => VUndefined end.

Definition optNumber (v : option JSNumber) : JSValue :=
  match v with Some n => VNumber n | None => VUndefined end.

(** The state [formData] of the modal, [RealTimeCalendar.tsx:269-284]. *)
Module EditForm.
Record t : Type := {
    title : string;
    description : string;
    banner_image : option File;
    venue_name : string;
    address : string;
    is_virtual : bool;
    meeting_link : string;
    is_public : bool;
    is_recurring : bool;
    recurrence_type : option string;
    day_of_week : option JSNumber;
    scheduled_time : string;
    start_datetime : string;
    end_datetime : string
  }.
End EditForm.

(** A [FormData]: its entries in the order of [append]. *)
Inductive FormValue : Type := FText (s : string) | FBlob (f : File).

Definition FormData : Type := list (string * FormValue).

(** The request [fetch] is called with by [updateEvent]. *)
Module Request.
Record t : Type := {
    eventId : Z;
    authorization : string;
    body : FormData
  }.
End Request.

(** [updateEvent] of the API, [AuthContext.tsx:1301-1327], up to the call of
    [fetch]: every property that is neither [undefined] nor [null] is
    appended, a file as it is and anything else as a string. *)
Definition updateEvent (eventId : Z) (payload : JSObject)
    (accessToken : string) : Request.t :=
  let formData :=
    fold_left
      (fun (formData : FormData) (entry : string * JSValue) =>
         let '(key, value) := entry in
         match value with
         | VUndefined | VNull => formData
         | VFile f => formData ++ [(key, FBlob f)]
         | _ => formData ++ [(key, FText (jsString value))]
         end)
      payload [] in
  {| Request.eventId := eventId;
     Request.authorization := "Bearer " ++ accessToken;
     Request.body := formData |}.

(** What a submission of the form does: nothing, an error message set, or a
    request made. *)
Inductive Submission : Type :=
  | Ignored
  | Refused (error : string)
  | Requested (request : Request.t).

(** [handleSubmit], [RealTimeCalendar.tsx:324-398], up to the answer of the
    server. *)
Definition handleSubmit (accessToken : option string) (eventId : Z)
    (formData : EditForm.t) : Submission :=
  if negb (truthy accessToken) then Ignored
  else if negb (truthy (Some (trim (EditForm.title formData))))
          || (String.length (EditForm.title formData) <? 3)%nat
  then Refused "Title must be at least 3 characters"
  else if negb (truthy (Some (trim (EditForm.description formData))))
          || (String.length (EditForm.description formData) <? 10)%nat
  then Refused "Description must be at least 10 characters"
  else
    let invalid :=
      if EditForm.is_recurring formData then
        if negb (truthy (EditForm.recurrence_type formData))
        then Some "Please select a recurrence pattern"
        else if strEq (EditForm.recurrence_type formData) "SPECIFIC_DAY"
                && match EditForm.day_of_week formData with
                   | None => true
                   | Some _ => false
                   end
        then Some "Please select a day of the week for specific day recurrence"
        else if negb (truthy (Some (EditForm.scheduled_time formData)))
        then Some "Please select a time for recurring events"
        else None
      else
        if negb (truthy (Some (EditForm.start_datetime formData)))
        then Some "Start date/time is required for one-off events"
        else None in
    match invalid with
    | Some error => Refused error
    | None =>
        let payload : JSObject :=
          [("title", VString (EditForm.title formData));
           ("description", VString (EditForm.description formData));
           ("venue_name", VString (EditForm.venue_name formData));
           ("address", VString (EditForm.address formData));
           ("is_virtual", VBool (EditForm.is_virtual formData));
           ("meeting_link", orUndefined (EditForm.meeting_link formData));
           ("is_public", VBool (EditForm.is_public formData));
           ("is_recurring", VBool (EditForm.is_recurring formData))] in
        let payload :=
          match EditForm.banner_image formData with
          | Some file => setProp "banner_image" (VFile file) payload
          | None => payload
          end in
        let payload :=
          if EditForm.is_recurring formData then
            let payload :=
              setProp "recurrence_type"
                (optString (EditForm.recurrence_type formData)) payload in
            let payload :=
              if strEq (EditForm.recurrence_type formData) "SPECIFIC_DAY"
              then setProp "day_of_week"
                     (optNumber (EditForm.day_of_week formData)) payload
              else payload in
            setProp "scheduled_time"
              (VString (EditForm.scheduled_time formData)) payload
          else
            let payload :=
              setProp "start_datetime"
                (orUndefined (EditForm.start_datetime formData)) payload in
            setProp "end_datetime"
              (orUndefined (EditForm.end_datetime formData)) payload in
        Requested (updateEvent eventId payload (stringOf accessToken))
    end.

(** ** Notions used in the statements *)

(** The branch of [stampTime] taken for a bare clock time. *)
Definition isBareClock (s : string) : bool :=
  truthy (Some s) && includes ":" s && (String.length s <=? 8)%nat.

(** A scheduled time that, when it is a bare clock time, gives [setHours]
    numbers that stay within the day. *)
Definition clockInDay `{JSRuntime} (scheduledTime : option string) : bool :=
  match scheduledTime with
  | Some s =>
      if isBareClock s then
        match clockParts s with
        | (Some h, Some m) =>
            (0 <=? h * msPerHour + m * msPerMinute)
            && (h * msPerHour + m * msPerMinute <? msPerDay)
        | _ => false
        end
      else true
  | None => true
  end.

(** Moving the clock reading by each of the 28 days gives a time value in
    range, on the local day asked for. *)
Definition daysResolve `{Zoned.TimeZone} (now : Z) : bool :=
  forallb
    (fun d : nat =>
       let l := Zoned.LocalTime now + Z.of_nat d * msPerDay in
       (Z.abs (Zoned.UTC l) <=? Zoned.maxTime)
       && (dayOf (Zoned.LocalTime (Zoned.UTC l)) =? dayOf l))
    (seq 0 28).


(** What an entry that does not recur adds to the items: one item at its
    time, or nothing when it has no time. *)
Definition oneOffShowItems `{JSRuntime} (s : Show.t) : list Item :=
  if truthy (Show.scheduled_time s)
  then [showItem s (newDateOfString (stringOf (Show.scheduled_time s)))]
  else [].

Definition oneOffEventItems `{JSRuntime} (e : Event.t) : list Item :=
  let startDate := orElse (Event.start_datetime e) (Event.start_date e) in
  if truthy startDate
  then [eventItem e (newDateOfString (stringOf startDate))
          (eventEnd (orElse (Event.end_datetime e) (Event.end_date e)))]
  else [].

(** The items [c] are what the entry [s] may add: for an entry that does not
    recur exactly [oneOffShowItems], for one that recurs items of that entry
    only. *)
Definition showAdds `{JSRuntime} (s : Show.t) (c : list Item) : Prop :=
  (Show.is_recurring s = false -> c = oneOffShowItems s)
  /\ (Show.is_recurring s = true ->
      List.Forall (fun i => exists d, i = showItem s d) c).

Definition eventAdds `{JSRuntime} (e : Event.t) (c : list Item) : Prop :=
  (Event.is_recurring e = false -> c = oneOffEventItems e)
  /\ (Event.is_recurring e = true ->
      List.Forall (fun i => exists d, i = eventItem e d None) c).



(** A valid date within [[start, stop)]. *)
Definition inWindow (start stop : Z) (d : JSDate) : bool :=
  match d with
  | Time t => (start <=? t) && (t <? stop)
  | InvalidDate => false
  end.

(** A show that recurs, with the rule and the time given. *)
Definition recurringShow (id : Z) (rule : string) (day : option Z)
    (time : option string) : Show.t :=
  {| Show.id := id; Show.slug := "weekly"; Show.title := "Weekly";
     Show.thumbnail := None; Show.scheduled_time := time;
     Show.day_of_week := day; Show.is_recurring := true;
     Show.recurrence_type := Some rule; Show.status := "published";
     Show.creator := {| Creator.id := 7; Creator.username := "host" |} |}.

(** A show that does not recur, scheduled at [time]. *)
Definition oneOffShow (id : Z) (time : option string) : Show.t :=
  {| Show.id := id; Show.slug := "special"; Show.title := "Special";
     Show.thumbnail := None; Show.scheduled_time := time;
     Show.day_of_week := None; Show.is_recurring := false;
     Show.recurrence_type := None; Show.status := "published";
     Show.creator := {| Creator.id := 7; Creator.username := "host" |} |}.

(** An event that recurs, with the rule and the time given. *)
Definition recurringEvent (id : Z) (rule : string) (day : option Z)
    (time : option string) : Event.t :=
  {| Event.id := id; Event.title := "Meetup"; Event.banner_image := None;
     Event.thumbnail := None; Event.start_date := None;
     Event.end_date := None; Event.start_datetime := None;
     Event.end_datetime := None; Event.venue_name := None;
     Event.location := None; Event.is_virtual := true;
     Event.is_recurring := true; Event.recurrence_type := Some rule;
     Event.day_of_week := day; Event.scheduled_time := time;
     Event.status := "published";
     Event.organizer := {| Creator.id := 7; Creator.username := "host" |} |}.

(** The entity of the scenario of the specification: id 1, a show, every
    backend day 0 at 18:30. *)
Definition mondayShow : Show.t :=
  recurringShow 1 "SPECIFIC_DAY" (Some 0) (Some "18:30").

(** The number of times an entity makes [calendarItems] read the clock:
    once when [projectRecurringDates] is called for it. *)
Definition showReads (s : Show.t) : nat :=
  if Show.is_recurring s && truthy (Show.recurrence_type s) then 1 else 0.

Definition eventReads (e : Event.t) : nat :=
  if Event.is_recurring e && truthy (Event.recurrence_type e) then 1 else 0.

Definition clockReads (filter : ContentFilter) (showList : list Show.t)
    (eventList : list Event.t) : nat :=
  (match filter with
   | all | shows => sum_list_with showReads showList
   | events => 0
   end
   + match filter with
     | all | events => sum_list_with eventReads eventList
     | shows => 0
     end)%nat.

(** The clock as it is seen by a run that does not make reading number
    [r]. *)
Definition skipReading (r : nat) (clock : nat -> Z) : nat -> Z :=
  fun i => if (i <? r)%nat then clock i else clock (S i).

(** Malformed entities: recurring without a rule, or recurring on a
    specific day that is absent or is an integer below -1 or above 6. *)
Definition dayOutOfRange (day_of_week : option Z) : bool :=
  match day_of_week with
  | Some k => (k <? -1) || (6 <? k)
  | None => true
  end.

Definition showWithoutRule (s : Show.t) : bool :=
  Show.is_recurring s && negb (truthy (Show.recurrence_type s)).

Definition showOffRange (s : Show.t) : bool :=
  Show.is_recurring s && strEq (Show.recurrence_type s) "SPECIFIC_DAY"
  && dayOutOfRange (Show.day_of_week s).

Definition eventWithoutRule (e : Event.t) : bool :=
  Event.is_recurring e && negb (truthy (Event.recurrence_type e)).

Definition eventOffRange (e : Event.t) : bool :=
  Event.is_recurring e && strEq (Event.recurrence_type e) "SPECIFIC_DAY"
  && dayOutOfRange (Event.day_of_week e).

(** Entities whose dates come out valid: the time of a one-off entity
    parses as a date, and the scheduled time of a recurring one, when it is
    a bare clock time, has numbers before and after its first colon. *)
Definition resolvable `{JSRuntime} (scheduledTime : option string) : bool :=
  match scheduledTime with
  | Some s =>
      if isBareClock s then
        match clockParts s with
        | (Some _, Some _) => true
        | _ => false
        end
      else true
  | None => true
  end.

Definition parses `{JSRuntime} (v : option string) : bool :=
  if truthy v
  then match dateParse (stringOf v) with Some _ => true | None => false end
  else true.

Definition showDatesValid `{JSRuntime} (s : Show.t) : bool :=
  if Show.is_recurring s then resolvable (Show.scheduled_time s)
  else parses (Show.scheduled_time s).

Definition eventDatesValid `{JSRuntime} (e : Event.t) : bool :=
  let startDate := orElse (Event.start_datetime e) (Event.start_date e) in
  if Event.is_recurring e
  then resolvable (orElse (Event.scheduled_time e) startDate)
  else parses startDate.

(** Not later, for items with valid dates. *)
Definition timeLe (a b : Item) : Prop :=
  match getTime (CalendarItem.date a), getTime (CalendarItem.date b) with
  | Some x, Some y => x <= y
  | _, _ => False
  end.

Definition hasValidDate (i : Item) : Prop :=
  getTime (CalendarItem.date i) <> None.

Definition atTime (t : Z) (i : Item) : bool :=
  match getTime (CalendarItem.date i) with
  | Some x => x =? t
  | None => false
  end.

(** The order that sorts by date, then by type (in the order [rank]), then
    by identifier. *)
Definition claimedOrder (rank : ItemType -> Z) (a b : Item) : Prop :=
  match getTime (CalendarItem.date a), getTime (CalendarItem.date b) with
  | Some x, Some y =>
      x < y
      \/ (x = y
          /\ (rank (CalendarItem.type a) < rank (CalendarItem.type b)
              \/ (rank (CalendarItem.type a) = rank (CalendarItem.type b)
                  /\ CalendarItem.id a <= CalendarItem.id b)))
  | _, _ => False
  end.

(** Two items of the same entity on the same calendar day, and the lists in
    which no two items are such. *)
Definition sameKey (a b : Item) : bool :=
  (CalendarItem.id a =? CalendarItem.id b)
  && ItemType_eqb (CalendarItem.type a) (CalendarItem.type b)
  && sameDateString (CalendarItem.date a) (CalendarItem.date b).

Fixpoint distinctKeys (l : list Item) : bool :=
  match l with
  | [] => true
  | a :: rest => negb (existsb (sameKey a) rest) && distinctKeys rest
  end.

(** A store that has grown from another: the objects that were there are
    unchanged, and [Date] objects were added after them. *)
Definition isDate (o : Heap.Obj) : Prop :=
  match o with Heap.ODate _ => True | _ => False end.

Definition grows (st st' : Heap.Store) : Prop :=
  exists cells, Heap.objs st' = Heap.objs st ++ cells
                /\ List.Forall isDate cells.

(** Addresses [locs], in increasing order and not below [lo], at which the
    store holds [Date] objects with the values [vals]. *)
Definition datesIn (st : Heap.Store) (lo : nat) (locs : list nat)
    (vals : list JSDate) : Prop :=
  StronglySorted lt locs
  /\ List.Forall (fun l => (lo <= l < length (Heap.objs st))%nat) locs
  /\ map (fun l => Heap.objs st !! l) locs
     = map (fun x => Some (Heap.ODate x)) vals.

(** The addresses of the [Date] objects of a list of items, and the items
    that hold [Date] objects at increasing addresses not below [lo] and that
    read as [vals]. *)
Definition itemLocs (items : list Heap.Item) : list nat :=
  concat (map Heap.itemDates items).

Definition itemsIn (st : Heap.Store) (lo : nat) (items : list Heap.Item)
    (vals : list Item) : Prop :=
  StronglySorted lt (itemLocs items)
  /\ List.Forall (fun l => (lo <= l < length (Heap.objs st))%nat)
       (itemLocs items)
  /\ map (Heap.viewItem st) items = vals.

(** A store that holds the record of the scenario show and nothing else. *)
Definition scenarioStore : Heap.Store :=
  {| Heap.objs := [Heap.OShow mondayShow]; Heap.reads := 0 |}.


(** The day indices 0..27 of the projection on which a rule matches, for
    the clock reading [now]. *)
Definition matchingDays (now : Z) (rt : option string) (k : option Z)
  : list nat :=
  List.filter
    (fun d : nat => shouldAdd rt k (Some ((dayOf now + Z.of_nat d + 4) mod 7)))
    (seq 0 28).

(** [formData.get(key)]: the value of the first entry of that name. *)
Definition formGet (key : string) (formData : FormData) : option FormValue :=
  match List.find (fun kv => (fst kv =? key)%string) formData with
  | Some kv => Some (snd kv)
  | None => None
  end.

(** No name occurs twice. *)
Fixpoint distinctNames (l : list string) : bool :=
  match l with
  | [] => true
  | x :: rest => negb (existsb (String.eqb x) rest) && distinctNames rest
  end.

(** A form that passes the checks of [handleSubmit]: an event every
    backend day [day] at 18:30, or a one-off event. *)
Definition weeklyForm (day : option JSNumber) : EditForm.t :=
  {| EditForm.title := "Meetup"; EditForm.description := "A weekly meetup";
     EditForm.banner_image := None; EditForm.venue_name := EmptyString;
     EditForm.address := EmptyString; EditForm.is_virtual := true;
     EditForm.meeting_link := EmptyString; EditForm.is_public := true;
     EditForm.is_recurring := true;
     EditForm.recurrence_type := Some "SPECIFIC_DAY";
     EditForm.day_of_week := day; EditForm.scheduled_time := "18:30";
     EditForm.start_datetime := "2024-06-01T10:00";
     EditForm.end_datetime := EmptyString |}.

Definition oneOffForm : EditForm.t :=
  {| EditForm.title := "Meetup"; EditForm.description := "A single meetup";
     EditForm.banner_image := Some (mkFile "banner.png");
     EditForm.venue_name := "Hall"; EditForm.address := EmptyString;
     EditForm.is_virtual := false; EditForm.meeting_link := EmptyString;
     EditForm.is_public := true; EditForm.is_recurring := false;
     EditForm.recurrence_type := Some "DAILY";
     EditForm.day_of_week := Some (Num 2); EditForm.scheduled_time := "18:30";
     EditForm.start_datetime := "2024-06-01T10:00";
     EditForm.end_datetime := EmptyString |}.

(** The items of one type, in their order. *)
Definition ofType (ty : ItemType) (l : list Item) : list Item :=
  List.filter (fun i => ItemType_eqb (CalendarItem.type i) ty) l.

(** * Properties *)

(** C1: for a backend day 0..6 the conversion is (backendDay + 1) mod 7,
    which sends 0 (Monday) to 1 and 6 (Sunday) to 0; it is what the test of a
    SPECIFIC_DAY rule compares the weekday of a day with, in the projection
    and in the month grid. *)
Theorem frontendDay_mod7 (backendDay : Z) :
  0 <= backendDay <= 6 ->
  frontendDay backendDay = (backendDay + 1) mod 7
  /\ frontendDay 0 = 1 /\ frontendDay 6 = 0
  /\ (forall dow : Z,
        shouldAdd (Some "SPECIFIC_DAY") (Some backendDay) (Some dow)
        = (dow =? (backendDay + 1) mod 7))
  /\ (forall dow : Z,
        recursOn (Some "SPECIFIC_DAY") (Some backendDay) (Some dow)
        = (dow =? (backendDay + 1) mod 7)).
Proof.
  intros Hr.
  assert (Hf : frontendDay backendDay = (backendDay + 1) mod 7).
  { unfold frontendDay.
    destruct (Z.eqb_spec backendDay 6) as [->|Hne]; [reflexivity|].
    rewrite Z.mod_small; lia. }
  split; [exact Hf|]. split; [reflexivity|]. split; [reflexivity|].
  split; intros dow; rewrite <- Hf; reflexivity.
Qed.

Lemma frontendDay_mod7_witness :
  frontendDay 3 = (3 + 1) mod 7
  /\ frontendDay 0 = 1 /\ frontendDay 6 = 0
  /\ (forall dow : Z,
        shouldAdd (Some "SPECIFIC_DAY") (Some 3) (Some dow)
        = (dow =? (3 + 1) mod 7))
  /\ (forall dow : Z,
        recursOn (Some "SPECIFIC_DAY") (Some 3) (Some dow)
        = (dow =? (3 + 1) mod 7)).
Proof. apply (frontendDay_mod7 3). lia. Defined.

(** ** Dates *)

(** The day numbers count from 1 January 1970; 3 June 2024 is a Monday, and
    17 June and 1 July 2024 come 14 and 28 days after it. *)
Lemma calendar_checks :
  daysFromCivil 1970 1 1 = 0
  /\ weekDay (localTime 2024 6 3 0 0) = 1
  /\ localTime 2024 6 17 0 0 = localTime 2024 6 3 0 0 + 14 * msPerDay
  /\ localTime 2024 7 1 0 0 = localTime 2024 6 3 0 0 + 28 * msPerDay
  /\ refDateParse "2024-06-03T18:30" = Some (localTime 2024 6 3 18 30)
  /\ map refNumber (split ":" "18:30") = [Some 18; Some 30].
Proof. repeat split. Qed.

Lemma msPerDay_pos : 0 < msPerDay.
Proof. reflexivity. Qed.

Lemma dayOf_plus_days (t n : Z) : dayOf (t + n * msPerDay) = dayOf t + n.
Proof. unfold dayOf. apply Z.div_add. discriminate. Qed.

Lemma dayOf_of_day (k r : Z) :
  0 <= r < msPerDay -> dayOf (k * msPerDay + r) = k.
Proof.
  intros Hr. unfold dayOf.
  rewrite Z.add_comm, Z.div_add by discriminate.
  rewrite Z.div_small by assumption. lia.
Qed.

Lemma time_split (t : Z) : t = dayOf t * msPerDay + t mod msPerDay.
Proof.
  unfold dayOf.
  pose proof (Z.div_mod t msPerDay ltac:(discriminate)). lia.
Qed.

Lemma hour_minute_in_day (u : Z) :
  0 <= hourOf u * msPerHour + minuteOf u * msPerMinute < msPerDay.
Proof.
  unfold hourOf, minuteOf.
  pose proof (Z.mod_pos_bound u msPerDay msPerDay_pos) as Hu.
  set (r := u mod msPerDay) in *.
  assert (Hh : 0 <= r / msPerHour < 24).
  { split; [apply Z.div_pos; [lia|reflexivity]|].
    apply Z.div_lt_upper_bound; [reflexivity|].
    unfold msPerDay, msPerHour in *. lia. }
  pose proof (Z.mod_pos_bound (r / msPerMinute) 60 eq_refl) as Hm.
  unfold msPerDay, msPerHour, msPerMinute in *. lia.
Qed.

Section ProjectionFacts.
Context `{JSRuntime}.

(** The loop of [projectRecurringDates], day by day. *)
Lemma projectDay_unfold (now : Z) rt k st (d : nat) :
  projectDay (Time now) rt k st d =
  if shouldAdd rt k (Some ((dayOf now + Z.of_nat d + 4) mod 7))
  then [stampTime st (Time (now + Z.of_nat d * msPerDay))]
  else [].
Proof.
  unfold projectDay, addDays, getDay, weekDay.
  now rewrite dayOf_plus_days.
Qed.

Lemma stampTime_bare (s : string) (t : Z) :
  isBareClock s = true ->
  stampTime (Some s) (Time t) =
  setHours (Time t) (fst (clockParts s)) (snd (clockParts s)).
Proof.
  unfold isBareClock, stampTime. intros Hb.
  apply andb_prop in Hb as [Hb Hlen]. apply andb_prop in Hb as [Htr Hinc].
  rewrite Htr, Hinc, Hlen. simpl. now destruct (clockParts s).
Qed.

Lemma stampTime_not_bare (s : string) (date : JSDate) :
  isBareClock s = false ->
  stampTime (Some s) date =
  if truthy (Some s) then
    match newDateOfString s with
    | Time u => setHours date (Some (hourOf u)) (Some (minuteOf u))
    | InvalidDate => date
    end
  else date.
Proof.
  unfold isBareClock, stampTime. intros Hb.
  destruct (truthy (Some s)); [|reflexivity].
  simpl in Hb. now rewrite Hb.
Qed.


Lemma shouldAdd_daily k dow : shouldAdd (Some "DAILY") k dow = true.
Proof. reflexivity. Qed.


End ProjectionFacts.





(** The dates of a projection: the matching days, each with its time of day. *)
Lemma projection_by_days `{JSRuntime} (now : Z) (rt : option string)
    (k : option Z) (st : option string) :
  projectRecurringDates now rt k st =
  map (fun d : nat =>
         let day := dayOf now + Z.of_nat d in
         match st with
         | Some s =>
             if isBareClock s then
               match mjoin (map jsNumber (split ":" s) !! 0%nat),
                     mjoin (map jsNumber (split ":" s) !! 1%nat) with
               | Some h, Some m =>
                   Time (day * msPerDay + h * msPerHour + m * msPerMinute)
               | _, _ => InvalidDate
               end
             else if truthy (Some s) then
               match dateParse s with
               | Some u => Time (day * msPerDay + hourOf u * msPerHour
                                 + minuteOf u * msPerMinute)
               | None => Time (now + Z.of_nat d * msPerDay)
               end
             else Time (now + Z.of_nat d * msPerDay)
         | None => Time (now + Z.of_nat d * msPerDay)
         end)
      (List.filter
         (fun d : nat =>
            shouldAdd rt k (Some ((dayOf now + Z.of_nat d + 4) mod 7)))
         (seq 0 28)).
Proof.
  unfold projectRecurringDates. generalize (seq 0 28). intros l.
  induction l as [|d l IH]; [reflexivity|].
  cbn [flat_map List.filter]. rewrite projectDay_unfold, IH.
  destruct (shouldAdd rt k _); [|reflexivity].
  cbn [map app]. f_equal.
  destruct st as [s|]; [|reflexivity].
  destruct (isBareClock s) eqn:Hb.
  - rewrite stampTime_bare by assumption. unfold clockParts. cbn [fst snd].
    destruct (mjoin (map jsNumber (split ":" s) !! 0%nat)) as [h|];
      [|reflexivity].
    destruct (mjoin (map jsNumber (split ":" s) !! 1%nat)) as [m|];
      [|reflexivity].
    simpl. now rewrite dayOf_plus_days.
  - rewrite stampTime_not_bare by assumption.
    destruct (truthy (Some s)); [|reflexivity].
    unfold newDateOfString. destruct (dateParse s) as [u|]; [|reflexivity].
    simpl. now rewrite dayOf_plus_days.
Qed.

(** *** The projection in a zone with daylight saving *)

Section ZonedFacts.
Context `{JSRuntime} `{Zoned.TimeZone}.

Lemma TimeClip_in_range (v : Z) :
  Z.abs v <= Zoned.maxTime -> Zoned.TimeClip v = Time v.
Proof.
  intros Hv. unfold Zoned.TimeClip.
  destruct (Z.leb_spec (Z.abs v) Zoned.maxTime); [reflexivity|lia].
Qed.

(** The date of the loop for the day [d]. *)
Lemma zoned_addDays_now (now : Z) (d : nat) :
  daysResolve now = true ->
  (d < 28)%nat ->
  let l := Zoned.LocalTime now + Z.of_nat d * msPerDay in
  Zoned.addDays (Time now) (Z.of_nat d) = Time (Zoned.UTC l)
  /\ Zoned.resolve l = Time (Zoned.UTC l)
  /\ dayOf (Zoned.LocalTime (Zoned.UTC l))
     = dayOf (Zoned.LocalTime now) + Z.of_nat d.
Proof.
  intros Hdays Hd. cbv zeta. unfold daysResolve in Hdays.
  rewrite forallb_forall in Hdays.
  specialize (Hdays d ltac:(apply in_seq; lia)). cbv zeta in Hdays.
  apply andb_prop in Hdays as [Hrange Hday].
  apply Z.leb_le in Hrange. apply Z.eqb_eq in Hday.
  rewrite dayOf_plus_days in Hday.
  unfold Zoned.addDays, Zoned.resolve.
  rewrite TimeClip_in_range by exact Hrange. auto.
Qed.

Lemma zoned_stampTime_bare (s : string) (t : Z) :
  isBareClock s = true ->
  Zoned.stampTime (Some s) (Time t) =
  Zoned.setHours (Time t) (fst (clockParts s)) (snd (clockParts s)).
Proof.
  unfold isBareClock, Zoned.stampTime. intros Hb.
  apply andb_prop in Hb as [Hb Hlen]. apply andb_prop in Hb as [Htr Hinc].
  rewrite Htr, Hinc, Hlen. simpl. now destruct (clockParts s).
Qed.

Lemma zoned_stampTime_not_bare (s : string) (date : JSDate) :
  isBareClock s = false ->
  Zoned.stampTime (Some s) date =
  if truthy (Some s) then
    match newDateOfString s with
    | Time u =>
        Zoned.setHours date (Some (Zoned.getHours u))
          (Some (Zoned.getMinutes u))
    | InvalidDate => date
    end
  else date.
Proof.
  unfold isBareClock, Zoned.stampTime. intros Hb.
  destruct (truthy (Some s)); [|reflexivity].
  simpl in Hb. now rewrite Hb.
Qed.

(** The dates of the projection: the matching days, each with the date made
    of the local time asked for. *)
Lemma zoned_projection_by_days (now : Z) (rt : option string)
    (k : option Z) (st : option string) :
  daysResolve now = true ->
  Zoned.projectRecurringDates now rt k st =
  map (fun d : nat =>
         let day := dayOf (Zoned.LocalTime now) + Z.of_nat d in
         let kept :=
           Zoned.resolve (Zoned.LocalTime now + Z.of_nat d * msPerDay) in
         match st with
         | Some s =>
             if isBareClock s then
               match mjoin (map jsNumber (split ":" s) !! 0%nat),
                     mjoin (map jsNumber (split ":" s) !! 1%nat) with
               | Some h, Some m =>
                   Zoned.resolve
                     (day * msPerDay + h * msPerHour + m * msPerMinute)
               | _, _ => InvalidDate
               end
             else if truthy (Some s) then
               match dateParse s with
               | Some u =>
                   Zoned.resolve
                     (day * msPerDay + Zoned.getHours u * msPerHour
                      + Zoned.getMinutes u * msPerMinute)
               | None => kept
               end
             else kept
         | None => kept
         end)
      (List.filter
         (fun d : nat =>
            shouldAdd rt k
              (Some ((dayOf (Zoned.LocalTime now) + Z.of_nat d + 4) mod 7)))
         (seq 0 28)).
Proof.
  intros Hdays. unfold Zoned.projectRecurringDates.
  assert (Hall : List.Forall (fun d : nat => (d < 28)%nat) (seq 0 28)).
  { apply List.Forall_forall. intros d Hd. apply in_seq in Hd. lia. }
  revert Hall. generalize (seq 0 28). intros l Hall.
  induction Hall as [|d l Hd _ IH]; [reflexivity|].
  cbn [flat_map List.filter]. rewrite IH. clear IH.
  destruct (zoned_addDays_now now d Hdays Hd) as (Hdate & Hkept & Hday).
  unfold Zoned.projectDay. rewrite Hdate. cbn [Zoned.getDay].
  unfold weekDay. rewrite Hday.
  destruct (shouldAdd rt k _); [|reflexivity].
  cbn [map app]. f_equal. cbv zeta. rewrite Hkept.
  destruct st as [s|]; [|reflexivity].
  destruct (isBareClock s) eqn:Hb.
  - rewrite zoned_stampTime_bare by assumption. unfold clockParts.
    cbn [fst snd].
    destruct (mjoin (map jsNumber (split ":" s) !! 0%nat)) as [h|];
      [|reflexivity].
    destruct (mjoin (map jsNumber (split ":" s) !! 1%nat)) as [m|];
      [|reflexivity].
    cbn [Zoned.setHours]. now rewrite Hday.
  - rewrite zoned_stampTime_not_bare by assumption.
    destruct (truthy (Some s)); [|reflexivity].
    unfold newDateOfString. destruct (dateParse s) as [u|]; [|reflexivity].
    cbn [Zoned.setHours]. now rewrite Hday.
Qed.


End ZonedFacts.




(** In a zone without offset and without changes, while the 28 days are in
    the range of time values and the clock time stays within the day, the
    projection on instants is the projection on the local time line. *)
Lemma fixed_zone_projection `{JSRuntime} (now : Z) (rt : option string)
    (k : option Z) (st : option string) :
  Z.abs now + 28 * msPerDay <= Zoned.maxTime ->
  clockInDay st = true ->
  @Zoned.projectRecurringDates _ Zoned.fixedZone now rt k st
  = projectRecurringDates now rt k st.
Proof.
  intros Hrange Hc.
  assert (Hdays : @daysResolve Zoned.fixedZone now = true).
  { unfold daysResolve. apply forallb_forall. intros d Hd.
    apply in_seq in Hd. cbn [Zoned.LocalTime Zoned.UTC Zoned.fixedZone].
    rewrite Z.eqb_refl, andb_true_r. apply Z.leb_le.
    unfold msPerDay in *. lia. }
  rewrite (@zoned_projection_by_days _ Zoned.fixedZone now rt k st Hdays).
  rewrite projection_by_days.
  cbn [Zoned.LocalTime Zoned.UTC Zoned.fixedZone].
  apply map_ext_in. intros d Hd. apply List.filter_In in Hd as [Hd _].
  apply in_seq in Hd. cbv zeta.
  pose proof (time_split now) as Hnow.
  pose proof (Z.mod_pos_bound now msPerDay msPerDay_pos) as Hmod.
  assert (Hkept : @Zoned.resolve Zoned.fixedZone
                    (now + Z.of_nat d * msPerDay)
                  = Time (now + Z.of_nat d * msPerDay)).
  { apply TimeClip_in_range. unfold msPerDay in *. lia. }
  assert (Hstamp : forall tod, 0 <= tod < msPerDay ->
            @Zoned.resolve Zoned.fixedZone
              ((dayOf now + Z.of_nat d) * msPerDay + tod)
            = Time ((dayOf now + Z.of_nat d) * msPerDay + tod)).
  { intros tod Htod. apply TimeClip_in_range.
    cbn [Zoned.UTC Zoned.fixedZone]. unfold msPerDay in *. lia. }
  destruct st as [s|]; [|exact Hkept].
  unfold clockInDay in Hc.
  destruct (isBareClock s).
  - unfold clockParts in Hc.
    destruct (mjoin (map jsNumber (split ":" s) !! 0%nat)) as [h|];
      [|reflexivity].
    destruct (mjoin (map jsNumber (split ":" s) !! 1%nat)) as [m|];
      [|reflexivity].
    apply andb_prop in Hc as [H0 H1].
    apply Z.leb_le in H0. apply Z.ltb_lt in H1.
    rewrite <- !Z.add_assoc. apply Hstamp. lia.
  - destruct (truthy (Some s)); [|exact Hkept].
    destruct (dateParse s) as [u|]; [|exact Hkept].
    unfold Zoned.getHours, Zoned.getMinutes.
    cbn [Zoned.LocalTime Zoned.fixedZone].
    rewrite <- !Z.add_assoc. apply Hstamp. apply hour_minute_in_day.
Qed.


(** C2, as amended: the scenario entity, projected when the clock shows any
    time of Monday 2024-06-03, yields four occurrences, on the four Mondays
    of the 28 days from that day, at 18:30; the two of them before
    2024-06-17 are those of 2024-06-03 and 2024-06-10. *)
Theorem monday_show_four_weeks `{JSRuntime} (clock : nat -> Z) :
  jsNumber "18" = Some 18 ->
  jsNumber "30" = Some 30 ->
  dayOf (clock 0%nat) = daysFromCivil 2024 6 3 ->
  let out :=
    map CalendarItem.date (calendarItems clock all noSearch [mondayShow] []) in
  out = [Time (localTime 2024 6 3 18 30); Time (localTime 2024 6 10 18 30);
         Time (localTime 2024 6 17 18 30); Time (localTime 2024 6 24 18 30)]
  /\ List.filter (inWindow (localTime 2024 6 3 0 0) (localTime 2024 6 17 0 0))
       out
     = [Time (localTime 2024 6 3 18 30); Time (localTime 2024 6 10 18 30)].
Proof.
  intros H18 H30 Hday.
  assert (Hdates :
    projectRecurringDates (clock 0%nat) (Some "SPECIFIC_DAY") (Some 0)
      (Some "18:30")
    = [Time (localTime 2024 6 3 18 30); Time (localTime 2024 6 10 18 30);
       Time (localTime 2024 6 17 18 30); Time (localTime 2024 6 24 18 30)]).
  { rewrite projection_by_days, Hday.
    change (split ":" "18:30") with ["18"; "30"].
    cbn [map lookup list_lookup mjoin option_join].
    rewrite H18, H30. vm_compute. reflexivity. }
  cbv zeta.
  unfold calendarItems, collectItems. cbn [fold_left fst].
  unfold showStep, mondayShow, recurringShow.
  cbn [Show.is_recurring Show.recurrence_type Show.scheduled_time
       Show.day_of_week Show.id negb andb].
  change (truthy (Some "SPECIFIC_DAY")) with true. cbn iota.
  rewrite Hdates. split; vm_compute; reflexivity.
Qed.

Lemma monday_show_four_weeks_witness :
  let out :=
    map CalendarItem.date
      (@calendarItems refRuntime (stoppedClock (localTime 2024 6 3 9 0)) all
         noSearch
         [mondayShow] []) in
  out = [Time (localTime 2024 6 3 18 30); Time (localTime 2024 6 10 18 30);
         Time (localTime 2024 6 17 18 30); Time (localTime 2024 6 24 18 30)]
  /\ List.filter (inWindow (localTime 2024 6 3 0 0) (localTime 2024 6 17 0 0))
       out
     = [Time (localTime 2024 6 3 18 30); Time (localTime 2024 6 10 18 30)].
Proof.
  apply (@monday_show_four_weeks refRuntime
           (stoppedClock (localTime 2024 6 3 9 0)));
    reflexivity.
Defined.

(** C2, as stated, fails: projected from Monday 2024-06-03 the scenario
    entity does not yield exactly the two occurrences of 2024-06-03 and
    2024-06-10. *)
Lemma monday_show_not_two_occurrences :
  map CalendarItem.date
    (@calendarItems refRuntime (stoppedClock (localTime 2024 6 3 0 0)) all
       noSearch
       [mondayShow] [])
  <> [Time (localTime 2024 6 3 18 30); Time (localTime 2024 6 10 18 30)].
Proof. vm_compute. discriminate. Qed.

(** ** The clock readings of [calendarItems] *)

Section FoldClock.
Context {A : Type}.
Variable step : (nat -> Z) -> list Item * nat -> A -> list Item * nat.
Variable cost : A -> nat.

Hypothesis step_reads : forall c items n a,
  snd (step c (items, n) a) = (n + cost a)%nat.
Hypothesis step_agree : forall c1 c2 items n1 n2 a,
  (cost a <> 0%nat -> c1 n1 = c2 n2) ->
  fst (step c1 (items, n1) a) = fst (step c2 (items, n2) a).

Lemma fold_step_reads c l items n :
  snd (fold_left (step c) l (items, n)) = (n + sum_list_with cost l)%nat.
Proof.
  revert items n. induction l as [|a l IH]; intros items n; cbn.
  - lia.
  - rewrite (surjective_pairing (step c (items, n) a)).
    rewrite IH, step_reads. lia.
Qed.

Lemma fold_step_agree c1 c2 l items n1 n2 :
  (forall j, (j < sum_list_with cost l)%nat ->
             c1 (n1 + j)%nat = c2 (n2 + j)%nat) ->
  fst (fold_left (step c1) l (items, n1))
  = fst (fold_left (step c2) l (items, n2)).
Proof.
  revert items n1 n2. induction l as [|a l IH]; intros items n1 n2 Hc; cbn.
  - reflexivity.
  - rewrite (surjective_pairing (step c1 (items, n1) a)).
    rewrite (surjective_pairing (step c2 (items, n2) a)).
    rewrite !step_reads.
    rewrite (step_agree c1 c2 items n1 n2 a).
    + apply IH. intros j Hj. cbn in Hc.
      replace (n1 + cost a + j)%nat with (n1 + (cost a + j))%nat by lia.
      replace (n2 + cost a + j)%nat with (n2 + (cost a + j))%nat by lia.
      apply Hc. lia.
    + intros Hne. specialize (Hc 0%nat). rewrite !Nat.add_0_r in Hc.
      apply Hc. cbn. lia.
Qed.

End FoldClock.

Section ClockFacts.
Context `{JSRuntime}.

Lemma showStep_reads c items n s :
  snd (showStep c (items, n) s) = (n + showReads s)%nat.
Proof.
  unfold showStep, showReads.
  destruct (Show.is_recurring s && truthy (Show.recurrence_type s));
    cbn; lia.
Qed.

Lemma showStep_agree c1 c2 items n1 n2 s :
  (showReads s <> 0%nat -> c1 n1 = c2 n2) ->
  fst (showStep c1 (items, n1) s) = fst (showStep c2 (items, n2) s).
Proof.
  unfold showStep, showReads.
  destruct (Show.is_recurring s && truthy (Show.recurrence_type s));
    intros Hc; cbn; [|reflexivity].
  rewrite Hc by discriminate. reflexivity.
Qed.

Lemma eventStep_reads c items n e :
  snd (eventStep c (items, n) e) = (n + eventReads e)%nat.
Proof.
  unfold eventStep, eventReads.
  destruct (Event.is_recurring e && truthy (Event.recurrence_type e));
    cbn; lia.
Qed.

Lemma eventStep_agree c1 c2 items n1 n2 e :
  (eventReads e <> 0%nat -> c1 n1 = c2 n2) ->
  fst (eventStep c1 (items, n1) e) = fst (eventStep c2 (items, n2) e).
Proof.
  unfold eventStep, eventReads.
  destruct (Event.is_recurring e && truthy (Event.recurrence_type e));
    intros Hc; cbn; [|reflexivity].
  rewrite Hc by discriminate. reflexivity.
Qed.

Lemma fold_shows_pair c l items n :
  fold_left (showStep c) l (items, n)
  = (fst (fold_left (showStep c) l (items, n)),
     (n + sum_list_with showReads l)%nat).
Proof.
  rewrite <- (fold_step_reads showStep showReads showStep_reads c l items n).
  apply surjective_pairing.
Qed.

Lemma fold_events_pair c l items n :
  fold_left (eventStep c) l (items, n)
  = (fst (fold_left (eventStep c) l (items, n)),
     (n + sum_list_with eventReads l)%nat).
Proof.
  rewrite <- (fold_step_reads eventStep eventReads eventStep_reads c l items n).
  apply surjective_pairing.
Qed.

Lemma collectItems_reads c f S E :
  snd (collectItems c f S E) = clockReads f S E.
Proof.
  unfold collectItems, clockReads.
  destruct f; try rewrite (fold_shows_pair c S []);
    try rewrite fold_events_pair; cbn; lia.
Qed.

(** The items collected depend on the clock through the readings made, and
    through their order only. *)
Lemma collectItems_agree c1 c2 f S E :
  (forall j, (j < clockReads f S E)%nat -> c1 j = c2 j) ->
  fst (collectItems c1 f S E) = fst (collectItems c2 f S E).
Proof.
  unfold collectItems, clockReads. intros Hc.
  assert (HS : (match f with events => True | _ =>
            fst (fold_left (showStep c1) S ([], 0%nat))
            = fst (fold_left (showStep c2) S ([], 0%nat)) end)).
  { destruct f; try exact I;
      apply (fold_step_agree showStep showReads showStep_reads showStep_agree);
      intros j Hj; apply Hc; lia. }
  destruct f.
  - rewrite (fold_shows_pair c1), (fold_shows_pair c2), HS.
    apply (fold_step_agree eventStep eventReads eventStep_reads
             eventStep_agree).
    intros j Hj. apply Hc. lia.
  - exact HS.
  - apply (fold_step_agree eventStep eventReads eventStep_reads
             eventStep_agree).
    intros j Hj. apply Hc. cbn. lia.
Qed.

End ClockFacts.

(** C3, as amended: the projection reads the system clock itself, once for
    each recurring entity it projects, and its result is a function of the
    inputs and of these readings: two calls with the same entities, filter and
    search whose clock readings are the same return the same list. *)
Theorem calendarItems_same_readings `{JSRuntime} (clock1 clock2 : nat -> Z)
    (filter : ContentFilter) (searchQuery : string)
    (showList : list Show.t) (eventList : list Event.t) :
  (forall j : nat, (j < clockReads filter showList eventList)%nat ->
                   clock1 j = clock2 j) ->
  calendarItems clock1 filter searchQuery showList eventList
  = calendarItems clock2 filter searchQuery showList eventList.
Proof.
  intros Hc. unfold calendarItems.
  now rewrite (collectItems_agree clock1 clock2) by exact Hc.
Qed.

Lemma calendarItems_same_readings_witness :
  @calendarItems refRuntime (stoppedClock (localTime 2024 6 3 9 0)) all noSearch
    [mondayShow] []
  = @calendarItems refRuntime
      (fun k => match k with
                | O => localTime 2024 6 3 9 0
                | _ => localTime 2024 6 3 9 1
                end) all noSearch [mondayShow] [].
Proof.
  apply (@calendarItems_same_readings refRuntime).
  intros j Hj. change (j < 1)%nat in Hj.
  destruct j as [|j]; [reflexivity|lia].
Defined.

(** C3, as stated, fails: the same entity, filter and search give different
    lists on two calls made on different days. *)
Lemma calendarItems_depends_on_clock :
  @calendarItems refRuntime (stoppedClock (localTime 2024 6 3 9 0)) all noSearch
    [mondayShow] []
  <> @calendarItems refRuntime (stoppedClock (localTime 2024 6 4 9 0)) all
       noSearch
       [mondayShow] [].
Proof. vm_compute. discriminate. Qed.

(** ** Malformed entities *)

Section SkipReading.
Context {A : Type}.
Variable step : (nat -> Z) -> list Item * nat -> A -> list Item * nat.
Variable cost : A -> nat.

Hypothesis step_reads : forall c items n a,
  snd (step c (items, n) a) = (n + cost a)%nat.
Hypothesis step_agree : forall c1 c2 items n1 n2 a,
  (cost a <> 0%nat -> c1 n1 = c2 n2) ->
  fst (step c1 (items, n1) a) = fst (step c2 (items, n2) a).

Lemma fold_before_skip c l items n r :
  (n + sum_list_with cost l <= r)%nat ->
  fst (fold_left (step c) l (items, n))
  = fst (fold_left (step (skipReading r c)) l (items, n)).
Proof.
  intros Hr. apply (fold_step_agree step cost step_reads step_agree).
  intros j Hj. unfold skipReading.
  destruct (Nat.ltb_spec (n + j) r); [reflexivity|lia].
Qed.

Lemma fold_after_skip c l items n r :
  (r <= n)%nat ->
  fst (fold_left (step c) l (items, S n))
  = fst (fold_left (step (skipReading r c)) l (items, n)).
Proof.
  intros Hr. apply (fold_step_agree step cost step_reads step_agree).
  intros j Hj. unfold skipReading.
  destruct (Nat.ltb_spec (n + j) r); [lia|reflexivity].
Qed.

(** An element that leaves the items alone and reads the clock once can be
    dropped, if the clock skips that reading. *)
Lemma fold_drop_reader c before a after items n :
  (forall its k, step c (its, k) a = (its, S k)) ->
  fst (fold_left (step c) (before ++ a :: after) (items, n))
  = fst (fold_left (step (skipReading (n + sum_list_with cost before) c))
           (before ++ after) (items, n))
  /\ snd (fold_left (step c) (before ++ a :: after) (items, n))
     = S (snd (fold_left (step (skipReading (n + sum_list_with cost before) c))
                 (before ++ after) (items, n))).
Proof.
  intros Ha. set (r := (n + sum_list_with cost before)%nat).
  rewrite !fold_left_app. cbn [fold_left].
  rewrite (surjective_pairing (fold_left (step c) before (items, n))).
  rewrite (surjective_pairing
             (fold_left (step (skipReading r c)) before (items, n))).
  rewrite !(fold_step_reads step cost step_reads).
  rewrite <- (fold_before_skip c before items n r) by (unfold r; lia).
  rewrite Ha. fold r. split.
  - apply fold_after_skip. lia.
  - rewrite !(fold_step_reads step cost step_reads). lia.
Qed.

(** An element that does nothing can be dropped. *)
Lemma fold_drop_idle c before a after st :
  (forall st', step c st' a = st') ->
  fold_left (step c) (before ++ a :: after) st
  = fold_left (step c) (before ++ after) st.
Proof.
  intros Ha. rewrite !fold_left_app. cbn [fold_left]. now rewrite Ha.
Qed.

End SkipReading.

Section Malformed.
Context `{JSRuntime}.

Lemma shouldAdd_off_range (day_of_week : option Z) (d : Z) :
  dayOutOfRange day_of_week = true ->
  shouldAdd (Some "SPECIFIC_DAY") day_of_week (Some (d mod 7)) = false.
Proof.
  unfold shouldAdd, dayOutOfRange. cbn [strEq].
  change ("SPECIFIC_DAY" =? "DAILY")%string with false.
  change ("SPECIFIC_DAY" =? "WEEKDAYS")%string with false.
  change ("SPECIFIC_DAY" =? "WEEKENDS")%string with false.
  change ("SPECIFIC_DAY" =? "SPECIFIC_DAY")%string with true. cbn iota.
  destruct day_of_week as [k|]; [|reflexivity].
  intros Hk. unfold numEq, frontendDay.
  pose proof (Z.mod_pos_bound d 7 eq_refl).
  apply Z.eqb_neq.
  destruct (Z.eqb_spec k 6); apply orb_prop in Hk as [Hk|Hk];
    try apply Z.ltb_lt in Hk; lia.
Qed.

Lemma projection_off_range now (rt : option string) day_of_week st :
  strEq rt "SPECIFIC_DAY" = true ->
  dayOutOfRange day_of_week = true ->
  projectRecurringDates now rt day_of_week st = [].
Proof.
  intros Hrt Hk.
  assert (rt = Some "SPECIFIC_DAY") as ->.
  { destruct rt as [r|]; [|discriminate].
    cbn in Hrt. apply String.eqb_eq in Hrt. now subst. }
  unfold projectRecurringDates. generalize (seq 0 28). intros l.
  induction l as [|d l IH]; [reflexivity|].
  cbn [flat_map]. rewrite projectDay_unfold, IH.
  now rewrite shouldAdd_off_range.
Qed.

Lemma showStep_without_rule c st s :
  showWithoutRule s = true -> showStep c st s = st.
Proof.
  unfold showWithoutRule, showStep. intros Hs. destruct st as [items n].
  apply andb_prop in Hs as [Hr Ht]. apply negb_true_iff in Ht.
  now rewrite Hr, Ht.
Qed.

Lemma strEq_truthy (v : option string) (lit : string) :
  strEq v lit = true -> lit <> EmptyString -> truthy v = true.
Proof.
  destruct v as [x|]; [|discriminate]. cbn. intros Hx Hl.
  apply String.eqb_eq in Hx. subst. apply negb_true_iff.
  now apply String.eqb_neq.
Qed.

Lemma showStep_off_range c items n s :
  showOffRange s = true -> showStep c (items, n) s = (items, S n).
Proof.
  unfold showOffRange, showStep. intros Hs.
  apply andb_prop in Hs as [Hs Hk]. apply andb_prop in Hs as [Hr Hrt].
  rewrite Hr, (strEq_truthy _ _ Hrt) by discriminate. cbn [negb andb].
  now rewrite projection_off_range.
Qed.

Lemma eventStep_without_rule c st e :
  eventWithoutRule e = true -> eventStep c st e = st.
Proof.
  unfold eventWithoutRule, eventStep. intros He. destruct st as [items n].
  apply andb_prop in He as [Hr Ht]. apply negb_true_iff in Ht.
  now rewrite Hr, Ht.
Qed.

Lemma eventStep_off_range c items n e :
  eventOffRange e = true -> eventStep c (items, n) e = (items, S n).
Proof.
  unfold eventOffRange, eventStep. intros He.
  apply andb_prop in He as [He Hk]. apply andb_prop in He as [Hr Hrt].
  rewrite Hr, (strEq_truthy _ _ Hrt) by discriminate. cbn [negb andb].
  now rewrite projection_off_range.
Qed.

End Malformed.

Section MalformedBatch.
Context `{JSRuntime}.

Lemma collect_drop_show_reader c f before s after E :
  showOffRange s = true ->
  fst (collectItems c f (before ++ s :: after) E)
  = fst (collectItems
           (match f with
            | events => c
            | _ => skipReading (sum_list_with showReads before) c
            end) f (before ++ after) E).
Proof.
  intros Hs. unfold collectItems.
  pose proof (fold_drop_reader showStep showReads showStep_reads
                showStep_agree c before s after [] 0%nat
                (fun its k => showStep_off_range c its k s Hs)) as [Hfst Hsnd].
  cbn [Nat.add] in Hfst, Hsnd.
  set (c' := skipReading (sum_list_with showReads before) c) in *.
  destruct f; [|exact Hfst|reflexivity].
  rewrite (surjective_pairing (fold_left (showStep c) _ _)).
  rewrite Hfst, Hsnd.
  rewrite (fold_shows_pair c' (before ++ after)). cbn [fst snd].
  apply (fold_after_skip eventStep eventReads eventStep_reads eventStep_agree).
  rewrite sum_list_with_app. lia.
Qed.

Lemma collect_drop_event_reader c f S before e after :
  eventOffRange e = true ->
  fst (collectItems c f S (before ++ e :: after))
  = fst (collectItems
           (match f with
            | shows => c
            | _ => skipReading (clockReads f S before) c
            end) f S (before ++ after)).
Proof.
  intros He. unfold collectItems, clockReads.
  destruct f; [| reflexivity |].
  - set (r := (sum_list_with showReads S
               + sum_list_with eventReads before)%nat).
    rewrite (fold_shows_pair c), (fold_shows_pair (skipReading r c)).
    rewrite <- (fold_before_skip showStep showReads showStep_reads
                  showStep_agree c S [] 0%nat r) by (unfold r; lia).
    cbn [Nat.add].
    apply (fold_drop_reader eventStep eventReads eventStep_reads
             eventStep_agree c before e after).
    intros its k. now apply eventStep_off_range.
  - cbn [Nat.add].
    apply (fold_drop_reader eventStep eventReads eventStep_reads
             eventStep_agree c before e after [] 0%nat).
    intros its k. now apply eventStep_off_range.
Qed.

Lemma collect_drop_idle_show c f before s after E :
  showWithoutRule s = true ->
  collectItems c f (before ++ s :: after) E
  = collectItems c f (before ++ after) E.
Proof.
  intros Hs. unfold collectItems.
  rewrite (fold_drop_idle showStep c before s after)
    by (intros st'; now apply showStep_without_rule).
  reflexivity.
Qed.

Lemma collect_drop_idle_event c f S before e after :
  eventWithoutRule e = true ->
  collectItems c f S (before ++ e :: after)
  = collectItems c f S (before ++ after).
Proof.
  intros He. unfold collectItems.
  destruct f; try reflexivity;
    apply (fold_drop_idle eventStep c before e after);
    intros st'; now apply eventStep_without_rule.
Qed.

Lemma sunday_by_minus_one now st :
  projectRecurringDates now (Some "SPECIFIC_DAY") (Some (-1)) st
  = projectRecurringDates now (Some "SPECIFIC_DAY") (Some 6) st.
Proof. reflexivity. Qed.

End MalformedBatch.

(** C8, as amended: a recurring entity without a recurrence rule, and one
    whose SPECIFIC_DAY rule has no day or an integer day below -1 or above 6,
    contribute no item, and the result is the one computed without them (the
    second kind still costs a reading of the clock, so the entities after it
    are projected from the next reading).  A day of -1 is not rejected: such
    a rule is projected as the rule of backend day 6, on Sundays. *)
Theorem malformed_entity_is_skipped `{JSRuntime} (clock : nat -> Z)
    (filter : ContentFilter) (searchQuery : string) :
  (forall before s after eventList,
      showWithoutRule s = true ->
      calendarItems clock filter searchQuery (before ++ s :: after) eventList
      = calendarItems clock filter searchQuery (before ++ after) eventList)
  /\ (forall showList before e after,
      eventWithoutRule e = true ->
      calendarItems clock filter searchQuery showList (before ++ e :: after)
      = calendarItems clock filter searchQuery showList (before ++ after))
  /\ (forall before s after eventList,
      showOffRange s = true ->
      calendarItems clock filter searchQuery (before ++ s :: after) eventList
      = calendarItems
          (match filter with
           | events => clock
           | _ => skipReading (sum_list_with showReads before) clock
           end) filter searchQuery (before ++ after) eventList)
  /\ (forall showList before e after,
      eventOffRange e = true ->
      calendarItems clock filter searchQuery showList (before ++ e :: after)
      = calendarItems
          (match filter with
           | shows => clock
           | _ => skipReading (clockReads filter showList before) clock
           end) filter searchQuery showList (before ++ after))
  /\ (forall now st,
      projectRecurringDates now (Some "SPECIFIC_DAY") (Some (-1)) st
      = projectRecurringDates now (Some "SPECIFIC_DAY") (Some 6) st).
Proof.
  unfold calendarItems. repeat split.
  - intros before s after E Hs. now rewrite collect_drop_idle_show.
  - intros S before e after He. now rewrite collect_drop_idle_event.
  - intros before s after E Hs. now rewrite collect_drop_show_reader.
  - intros S before e after He. now rewrite collect_drop_event_reader.
Qed.

Lemma malformed_entity_is_skipped_witness :
  let c := stoppedClock (localTime 2024 6 3 9 0) in
  let noRule :=
    {| Show.id := 2; Show.slug := "x"; Show.title := "X";
       Show.thumbnail := None; Show.scheduled_time := Some "18:30";
       Show.day_of_week := None; Show.is_recurring := true;
       Show.recurrence_type := None; Show.status := "published";
       Show.creator := {| Creator.id := 7; Creator.username := "host" |} |} in
  let day9 := recurringShow 3 "SPECIFIC_DAY" (Some 9) (Some "18:30") in
  @calendarItems refRuntime c all noSearch
    ([mondayShow] ++ noRule :: [mondayShow]) []
  = @calendarItems refRuntime c all noSearch ([mondayShow] ++ [mondayShow]) []
  /\ @calendarItems refRuntime c all noSearch
       ([mondayShow] ++ day9 :: [mondayShow]) []
     = @calendarItems refRuntime
         (skipReading (sum_list_with showReads [mondayShow]) c) all noSearch
         ([mondayShow] ++ [mondayShow]) [].
Proof.
  cbv zeta.
  destruct (@malformed_entity_is_skipped refRuntime
              (stoppedClock (localTime 2024 6 3 9 0)) all noSearch)
    as (Hidle & _ & Hoff & _).
  split; [apply Hidle | apply Hoff]; reflexivity.
Defined.

(** C8, as stated, fails: a SPECIFIC_DAY rule with the day -1, which is
    outside 0..6, does emit occurrences. *)
Lemma day_minus_one_emits :
  @calendarItems refRuntime (stoppedClock (localTime 2024 6 3 9 0)) all noSearch
    [recurringShow 1 "SPECIFIC_DAY" (Some (-1)) (Some "18:30")] []
  <> [].
Proof. vm_compute. discriminate. Qed.

(** ** The sort *)

Lemma insertBy_perm {A : Type} (before : A -> A -> bool) (a : A) (l : list A) :
  Permutation (a :: l) (insertBy before a l).
Proof.
  induction l as [|b l IH]; cbn; [reflexivity|].
  destruct (before a b); [reflexivity|].
  rewrite perm_swap. now constructor.
Qed.

Lemma sortBy_perm {A : Type} (before : A -> A -> bool) (l : list A) :
  Permutation l (sortBy before l).
Proof.
  induction l as [|a l IH]; cbn; [reflexivity|].
  rewrite <- insertBy_perm. now constructor.
Qed.

Lemma staysBefore_valid (a b : Item) :
  hasValidDate a -> hasValidDate b ->
  if staysBefore a b then timeLe a b else timeLe b a /\ ~ timeLe a b.
Proof.
  unfold hasValidDate, staysBefore, compareFn, timeLe.
  destruct (getTime (CalendarItem.date a)) as [x|]; [|congruence].
  destruct (getTime (CalendarItem.date b)) as [y|]; [|congruence].
  intros _ _. destruct (Z.leb_spec (x - y) 0); lia.
Qed.

Lemma timeLe_trans (a b c : Item) : timeLe a b -> timeLe b c -> timeLe a c.
Proof.
  unfold timeLe.
  destruct (getTime (CalendarItem.date a)), (getTime (CalendarItem.date b)),
    (getTime (CalendarItem.date c)); try tauto; lia.
Qed.

Lemma insert_sorted (a : Item) (l : list Item) :
  hasValidDate a -> List.Forall hasValidDate l ->
  StronglySorted timeLe l ->
  StronglySorted timeLe (insertBy staysBefore a l).
Proof.
  intros Ha Hl Hs. induction Hs as [|b l Hs IH Hb]; cbn.
  - repeat constructor.
  - apply List.Forall_cons_iff in Hl as [Hvb Hl].
    pose proof (staysBefore_valid a b Ha Hvb) as Hab.
    destruct (staysBefore a b).
    + constructor; [now constructor|].
      constructor; [exact Hab|].
      eapply List.Forall_impl; [|exact Hb].
      intros c Hbc. now apply timeLe_trans with b.
    + constructor; [now apply IH|].
      apply (Permutation_Forall (insertBy_perm staysBefore a l)).
      constructor; [apply Hab|exact Hb].
Qed.

Lemma sort_sorted (l : list Item) :
  List.Forall hasValidDate l -> StronglySorted timeLe (sort l).
Proof.
  unfold sort. induction 1 as [|a l Ha Hl IH]; cbn; [constructor|].
  apply insert_sorted; [exact Ha| |exact IH].
  apply (Permutation_Forall (sortBy_perm staysBefore l)). exact Hl.
Qed.

Lemma insert_stable (t : Z) (a : Item) (l : list Item) :
  hasValidDate a -> List.Forall hasValidDate l ->
  List.filter (atTime t) (insertBy staysBefore a l)
  = List.filter (atTime t) (a :: l).
Proof.
  intros Ha Hl. induction Hl as [|b l Hb Hl IH]; [reflexivity|].
  cbn [insertBy]. pose proof (staysBefore_valid a b Ha Hb) as Hab.
  destruct (staysBefore a b); [reflexivity|].
  cbn [List.filter] in *. rewrite IH.
  unfold atTime, timeLe, hasValidDate in *.
  destruct (getTime (CalendarItem.date a)) as [x|]; [|congruence].
  destruct (getTime (CalendarItem.date b)) as [y|]; [|congruence].
  destruct (Z.eqb_spec x t), (Z.eqb_spec y t); try reflexivity. lia.
Qed.

Lemma sort_stable (t : Z) (l : list Item) :
  List.Forall hasValidDate l ->
  List.filter (atTime t) (sort l) = List.filter (atTime t) l.
Proof.
  unfold sort. induction 1 as [|a l Ha Hl IH]; [reflexivity|].
  cbn [sortBy fold_right]. rewrite insert_stable.
  - cbn [List.filter]. fold (sortBy staysBefore l). now rewrite IH.
  - exact Ha.
  - apply (Permutation_Forall (sortBy_perm staysBefore l)). exact Hl.
Qed.

Section ValidDates.
Context `{JSRuntime}.

Lemma stampTime_valid (st : option string) (t : Z) :
  resolvable st = true -> getTime (stampTime st (Time t)) <> None.
Proof.
  unfold resolvable. destruct st as [s|]; [|discriminate].
  destruct (isBareClock s) eqn:Hb.
  - rewrite stampTime_bare by assumption.
    destruct (clockParts s) as [[h|] [m|]]; discriminate.
  - intros _. rewrite stampTime_not_bare by assumption.
    destruct (truthy (Some s)); [|discriminate].
    destruct (newDateOfString s); discriminate.
Qed.

Lemma projection_valid now rt k st :
  resolvable st = true ->
  List.Forall (fun d => getTime d <> None) (projectRecurringDates now rt k st).
Proof.
  intros Hst. unfold projectRecurringDates. generalize (seq 0 28).
  intros l. induction l as [|d l IH]; [constructor|].
  cbn [flat_map]. apply List.Forall_app. split; [|exact IH].
  rewrite projectDay_unfold. destruct (shouldAdd rt k _); [|constructor].
  constructor; [|constructor]. now apply stampTime_valid.
Qed.

Lemma fold_push_valid id ty (mk : JSDate -> Item) ds items :
  (forall d, CalendarItem.date (mk d) = d) ->
  List.Forall (fun d => getTime d <> None) ds ->
  List.Forall hasValidDate items ->
  List.Forall hasValidDate (fold_left (pushOccurrence id ty mk) ds items).
Proof.
  intros Hmk Hds. revert items.
  induction Hds as [|d ds Hd Hds IH]; intros items Hi; [exact Hi|].
  cbn [fold_left]. apply IH. unfold pushOccurrence.
  destruct (found items id ty d); [exact Hi|].
  apply List.Forall_app. split; [exact Hi|].
  constructor; [|constructor]. unfold hasValidDate. now rewrite Hmk.
Qed.

Lemma parses_valid (v : option string) :
  truthy v = true -> parses v = true ->
  getTime (newDateOfString (stringOf v)) <> None.
Proof.
  unfold parses, newDateOfString. intros ->.
  destruct (dateParse (stringOf v)); discriminate.
Qed.

Lemma showStep_valid c items n s :
  showDatesValid s = true ->
  List.Forall hasValidDate items ->
  List.Forall hasValidDate (fst (showStep c (items, n) s)).
Proof.
  unfold showDatesValid, showStep. intros Hs Hi.
  destruct (Show.is_recurring s); cbn [negb andb].
  - destruct (truthy (Show.recurrence_type s)); cbn [fst]; [|exact Hi].
    apply fold_push_valid; [reflexivity| |exact Hi].
    now apply projection_valid.
  - cbn [fst]. destruct (truthy (Show.scheduled_time s)) eqn:Ht; [|exact Hi].
    apply List.Forall_app. split; [exact Hi|].
    constructor; [|constructor]. now apply parses_valid.
Qed.

Lemma eventStep_valid c items n e :
  eventDatesValid e = true ->
  List.Forall hasValidDate items ->
  List.Forall hasValidDate (fst (eventStep c (items, n) e)).
Proof.
  unfold eventDatesValid, eventStep. intros He Hi.
  destruct (Event.is_recurring e); cbn [negb andb].
  - destruct (truthy (Event.recurrence_type e)); cbn [fst]; [|exact Hi].
    apply fold_push_valid; [reflexivity| |exact Hi].
    now apply projection_valid.
  - cbn [fst].
    destruct (truthy (orElse (Event.start_datetime e) (Event.start_date e)))
      eqn:Ht; [|exact Hi].
    apply List.Forall_app. split; [exact Hi|].
    constructor; [|constructor]. now apply parses_valid.
Qed.

Lemma fold_shows_valid c l items n :
  List.Forall (fun s => showDatesValid s = true) l ->
  List.Forall hasValidDate items ->
  List.Forall hasValidDate (fst (fold_left (showStep c) l (items, n))).
Proof.
  intros Hl. revert items n.
  induction Hl as [|s l Hs Hl IH]; intros items n Hi; [exact Hi|].
  cbn [fold_left]. rewrite (surjective_pairing (showStep c (items, n) s)).
  apply IH. now apply showStep_valid.
Qed.

Lemma fold_events_valid c l items n :
  List.Forall (fun e => eventDatesValid e = true) l ->
  List.Forall hasValidDate items ->
  List.Forall hasValidDate (fst (fold_left (eventStep c) l (items, n))).
Proof.
  intros Hl. revert items n.
  induction Hl as [|e l He Hl IH]; intros items n Hi; [exact Hi|].
  cbn [fold_left]. rewrite (surjective_pairing (eventStep c (items, n) e)).
  apply IH. now apply eventStep_valid.
Qed.

Lemma collectItems_valid c f S E :
  List.Forall (fun s => showDatesValid s = true) S ->
  List.Forall (fun e => eventDatesValid e = true) E ->
  List.Forall hasValidDate (fst (collectItems c f S E)).
Proof.
  intros HS HE. unfold collectItems. destruct f.
  - rewrite (surjective_pairing (fold_left (showStep c) S _)).
    apply fold_events_valid; [exact HE|].
    apply fold_shows_valid; [exact HS|constructor].
  - apply fold_shows_valid; [exact HS|constructor].
  - apply fold_events_valid; [exact HE|constructor].
Qed.

End ValidDates.

(** C7, as amended: without a search, and when every date is valid (the
    time of every one-off entity parses, and every bare clock time of a
    recurring entity has numbers around its first colon), the result holds
    the collected items sorted by ascending date; items with the same date
    stay in the order in which they were collected (shows in the order of
    their list, then events), whatever their types and identifiers. *)
Theorem calendarItems_sorted_by_time `{JSRuntime} (clock : nat -> Z)
    (filter : ContentFilter) (showList : list Show.t)
    (eventList : list Event.t) :
  let items := fst (collectItems clock filter showList eventList) in
  let out := calendarItems clock filter noSearch showList eventList in
  List.Forall (fun s => showDatesValid s = true) showList ->
  List.Forall (fun e => eventDatesValid e = true) eventList ->
  StronglySorted timeLe out
  /\ Permutation items out
  /\ forall t : Z, List.filter (atTime t) out = List.filter (atTime t) items.
Proof.
  cbv zeta. unfold calendarItems. cbn [noSearch truthy negb String.eqb].
  intros HS HE.
  pose proof (collectItems_valid clock filter showList eventList HS HE) as Hv.
  split; [|split].
  - now apply sort_sorted.
  - apply sortBy_perm.
  - intros t. now apply sort_stable.
Qed.

Lemma calendarItems_sorted_by_time_witness :
  let c := stoppedClock (localTime 2024 6 3 9 0) in
  let S := [mondayShow; oneOffShow 5 (Some "2024-06-05T10:00")] in
  StronglySorted timeLe (@calendarItems refRuntime c all noSearch S [])
  /\ Permutation (fst (@collectItems refRuntime c all S []))
       (@calendarItems refRuntime c all noSearch S [])
  /\ forall t : Z,
       List.filter (atTime t) (@calendarItems refRuntime c all noSearch S [])
       = List.filter (atTime t) (fst (@collectItems refRuntime c all S [])).
Proof.
  apply (@calendarItems_sorted_by_time refRuntime
           (stoppedClock (localTime 2024 6 3 9 0)) all
           [mondayShow; oneOffShow 5 (Some "2024-06-05T10:00")] []).
  - repeat constructor.
  - constructor.
Defined.

(** C7, as stated, fails: two shows at the same date and time come out in
    the order of the input list, identifier 2 before identifier 1. *)
Lemma ties_keep_input_order :
  ~ exists rank : ItemType -> Z,
      StronglySorted (claimedOrder rank)
        (@calendarItems refRuntime (stoppedClock (localTime 2024 6 3 9 0))
           all noSearch
           [oneOffShow 2 (Some "2024-06-05T10:00");
            oneOffShow 1 (Some "2024-06-05T10:00")] []).
Proof.
  intros [rank Hs].
  replace (@calendarItems refRuntime _ all noSearch _ [])
    with [showItem (oneOffShow 2 (Some "2024-06-05T10:00"))
            (Time (localTime 2024 6 5 10 0));
          showItem (oneOffShow 1 (Some "2024-06-05T10:00"))
            (Time (localTime 2024 6 5 10 0))] in Hs
    by (vm_compute; reflexivity).
  inversion Hs as [|a l _ Hall]; subst.
  inversion Hall as [|b l' Hab _]; subst.
  cbv [claimedOrder getTime CalendarItem.date CalendarItem.type
       CalendarItem.id showItem oneOffShow Show.id] in Hab.
  lia.
Qed.

(** ** One-off entities and the keys of the items *)

Section Collected.
Context `{JSRuntime}.

Lemma pushOccurrence_incl id ty mk items d (x : Item) :
  In x items -> In x (pushOccurrence id ty mk items d).
Proof.
  unfold pushOccurrence. destruct (found items id ty d); [easy|].
  intros Hx. apply in_or_app. now left.
Qed.

Lemma fold_push_incl id ty mk ds items (x : Item) :
  In x items -> In x (fold_left (pushOccurrence id ty mk) ds items).
Proof.
  revert items. induction ds as [|d ds IH]; intros items Hx; [exact Hx|].
  cbn. apply IH. now apply pushOccurrence_incl.
Qed.

Lemma showStep_incl c items n s (x : Item) :
  In x items -> In x (fst (showStep c (items, n) s)).
Proof.
  intros Hx. unfold showStep.
  assert (Hx' : In x (items ++ [showItem s (newDateOfString
                         (stringOf (Show.scheduled_time s)))]))
    by (apply in_or_app; now left).
  destruct (Show.is_recurring s && truthy (Show.recurrence_type s)),
    (negb (Show.is_recurring s) && truthy (Show.scheduled_time s));
    cbn [fst]; try assumption; now apply fold_push_incl.
Qed.

Lemma eventStep_incl c items n e (x : Item) :
  In x items -> In x (fst (eventStep c (items, n) e)).
Proof.
  intros Hx. unfold eventStep.
  set (it := eventItem e _ _).
  assert (Hx' : In x (items ++ [it])) by (apply in_or_app; now left).
  destruct (Event.is_recurring e && truthy (Event.recurrence_type e)),
    (negb (Event.is_recurring e)),
    (truthy (orElse (Event.start_datetime e) (Event.start_date e)));
    cbn [fst]; try assumption; now apply fold_push_incl.
Qed.

Lemma fold_shows_incl c l items n (x : Item) :
  In x items -> In x (fst (fold_left (showStep c) l (items, n))).
Proof.
  revert items n. induction l as [|s l IH]; intros items n Hx; [exact Hx|].
  cbn [fold_left]. rewrite (surjective_pairing (showStep c (items, n) s)).
  apply IH. now apply showStep_incl.
Qed.

Lemma fold_events_incl c l items n (x : Item) :
  In x items -> In x (fst (fold_left (eventStep c) l (items, n))).
Proof.
  revert items n. induction l as [|e l IH]; intros items n Hx; [exact Hx|].
  cbn [fold_left]. rewrite (surjective_pairing (eventStep c (items, n) e)).
  apply IH. now apply eventStep_incl.
Qed.

Lemma showStep_one_off c items n s :
  Show.is_recurring s = false ->
  truthy (Show.scheduled_time s) = true ->
  showStep c (items, n) s
  = (items ++ [showItem s (newDateOfString
                             (stringOf (Show.scheduled_time s)))], n).
Proof. unfold showStep. now intros -> ->. Qed.

Lemma fold_shows_one_off c l items n s :
  Show.is_recurring s = false ->
  truthy (Show.scheduled_time s) = true ->
  In s l ->
  In (showItem s (newDateOfString (stringOf (Show.scheduled_time s))))
     (fst (fold_left (showStep c) l (items, n))).
Proof.
  intros Hr Ht. revert items n.
  induction l as [|s' l IH]; intros items n Hin; [destruct Hin|].
  cbn [fold_left]. destruct Hin as [->|Hin].
  - rewrite showStep_one_off by assumption. apply fold_shows_incl.
    apply in_or_app. right. now left.
  - rewrite (surjective_pairing (showStep c (items, n) s')). now apply IH.
Qed.

Lemma eventStep_one_off c items n e :
  Event.is_recurring e = false ->
  truthy (orElse (Event.start_datetime e) (Event.start_date e)) = true ->
  eventStep c (items, n) e
  = (items ++ [eventItem e
                 (newDateOfString
                    (stringOf (orElse (Event.start_datetime e)
                                   (Event.start_date e))))
                 (eventEnd (orElse (Event.end_datetime e) (Event.end_date e)))],
     n).
Proof. unfold eventStep. now intros -> ->. Qed.

Lemma fold_events_one_off c l items n e :
  Event.is_recurring e = false ->
  truthy (orElse (Event.start_datetime e) (Event.start_date e)) = true ->
  In e l ->
  In (eventItem e
        (newDateOfString
           (stringOf (orElse (Event.start_datetime e) (Event.start_date e))))
        (eventEnd (orElse (Event.end_datetime e) (Event.end_date e))))
     (fst (fold_left (eventStep c) l (items, n))).
Proof.
  intros Hr Ht. revert items n.
  induction l as [|e' l IH]; intros items n Hin; [destruct Hin|].
  cbn [fold_left]. destruct Hin as [->|Hin].
  - rewrite eventStep_one_off by assumption. apply fold_events_incl.
    apply in_or_app. right. now left.
  - rewrite (surjective_pairing (eventStep c (items, n) e')). now apply IH.
Qed.

(** The recurring path checks the key of what it pushes. *)
Lemma distinctKeys_snoc (l : list Item) (x : Item) :
  distinctKeys (l ++ [x])
  = distinctKeys l && negb (existsb (fun a => sameKey a x) l).
Proof.
  induction l as [|a l IH]; [reflexivity|].
  cbn [app distinctKeys existsb]. rewrite IH, existsb_app. cbn [existsb].
  rewrite orb_false_r.
  destruct (existsb (sameKey a) l), (sameKey a x), (distinctKeys l),
    (existsb (fun a0 => sameKey a0 x) l); reflexivity.
Qed.

Lemma pushOccurrence_distinct id ty (mk : JSDate -> Item) items d :
  CalendarItem.id (mk d) = id ->
  CalendarItem.type (mk d) = ty ->
  CalendarItem.date (mk d) = d ->
  distinctKeys items = true ->
  distinctKeys (pushOccurrence id ty mk items d) = true.
Proof.
  intros Hid Hty Hd Hk. unfold pushOccurrence.
  destruct (found items id ty d) eqn:Hf; [exact Hk|].
  rewrite distinctKeys_snoc, Hk. cbn [andb]. apply negb_true_iff.
  rewrite <- Hf. unfold found, sameKey. now rewrite Hid, Hty, Hd.
Qed.

Lemma fold_push_distinct id ty (mk : JSDate -> Item) ds items :
  (forall d, CalendarItem.id (mk d) = id) ->
  (forall d, CalendarItem.type (mk d) = ty) ->
  (forall d, CalendarItem.date (mk d) = d) ->
  distinctKeys items = true ->
  distinctKeys (fold_left (pushOccurrence id ty mk) ds items) = true.
Proof.
  intros Hid Hty Hd. revert items.
  induction ds as [|d ds IH]; intros items Hk; [exact Hk|].
  cbn [fold_left]. apply IH. now apply pushOccurrence_distinct.
Qed.

(** A recurring show never adds an item with the key of an item already
    collected. *)
Lemma showStep_recurring_distinct c items n s :
  Show.is_recurring s = true ->
  distinctKeys items = true ->
  distinctKeys (fst (showStep c (items, n) s)) = true.
Proof.
  intros Hr Hk. unfold showStep. rewrite Hr. cbn [negb andb].
  destruct (truthy (Show.recurrence_type s)); cbn [fst]; [|exact Hk].
  now apply fold_push_distinct.
Qed.

(** What one entry adds to the items. *)
Lemma fold_push_adds id ty (mk : JSDate -> Item) ds :
  forall items,
    exists c,
      fold_left (pushOccurrence id ty mk) ds items = items ++ c
      /\ List.Forall (fun i => exists d, i = mk d) c.
Proof.
  induction ds as [|d ds IH]; intros items.
  - exists []. split; [now rewrite app_nil_r|constructor].
  - cbn [fold_left]. unfold pushOccurrence at 2.
    destruct (found items id ty d).
    + apply IH.
    + destruct (IH (items ++ [mk d])) as (c & Hc & Hall).
      exists (mk d :: c). split.
      * rewrite Hc, <- app_assoc. reflexivity.
      * constructor; [now exists d|exact Hall].
Qed.

Lemma showStep_adds c items n s :
  exists own,
    fst (showStep c (items, n) s) = items ++ own /\ showAdds s own.
Proof.
  unfold showStep, showAdds, oneOffShowItems.
  destruct (Show.is_recurring s); cbn [negb andb].
  - destruct (truthy (Show.recurrence_type s)); cbn [fst].
    + destruct (fold_push_adds (Show.id s) show (showItem s)
                  (projectRecurringDates (c n) (Show.recurrence_type s)
                     (Show.day_of_week s) (Show.scheduled_time s)) items)
        as (own & Hown & Hall).
      exists own. split; [exact Hown|]. split; [discriminate|now intros _].
    + exists []. split; [now rewrite app_nil_r|].
      split; [discriminate|constructor].
  - destruct (truthy (Show.scheduled_time s)); cbn [fst].
    + eexists. split; [reflexivity|]. split; [reflexivity|discriminate].
    + exists []. split; [now rewrite app_nil_r|].
      split; [reflexivity|discriminate].
Qed.

Lemma eventStep_adds c items n e :
  exists own,
    fst (eventStep c (items, n) e) = items ++ own /\ eventAdds e own.
Proof.
  unfold eventStep, eventAdds, oneOffEventItems.
  destruct (Event.is_recurring e); cbn [negb andb].
  - destruct (truthy (Event.recurrence_type e)); cbn [fst].
    + destruct (fold_push_adds (Event.id e) event
                  (fun d => eventItem e d None)
                  (projectRecurringDates (c n) (Event.recurrence_type e)
                     (Event.day_of_week e)
                     (orElse (Event.scheduled_time e)
                        (orElse (Event.start_datetime e)
                           (Event.start_date e)))) items)
        as (own & Hown & Hall).
      exists own. split; [exact Hown|]. split; [discriminate|now intros _].
    + exists []. split; [now rewrite app_nil_r|].
      split; [discriminate|constructor].
  - cbv zeta.
    destruct (truthy (orElse (Event.start_datetime e) (Event.start_date e)));
      cbn [fst].
    + eexists. split; [reflexivity|]. split; [reflexivity|discriminate].
    + exists []. split; [now rewrite app_nil_r|].
      split; [reflexivity|discriminate].
Qed.

Lemma fold_shows_adds c l :
  forall items n,
    exists cs,
      fst (fold_left (showStep c) l (items, n)) = items ++ concat cs
      /\ Forall2 showAdds l cs.
Proof.
  induction l as [|s l IH]; intros items n.
  - exists []. split; [now rewrite app_nil_r|constructor].
  - cbn [fold_left].
    rewrite (surjective_pairing (showStep c (items, n) s)).
    destruct (showStep_adds c items n s) as (own & Hown & Hadds).
    rewrite Hown.
    destruct (IH (items ++ own) (snd (showStep c (items, n) s)))
      as (cs & Hcs & Hall).
    exists (own :: cs). split.
    + rewrite Hcs, <- app_assoc. reflexivity.
    + now constructor.
Qed.

Lemma fold_events_adds c l :
  forall items n,
    exists cs,
      fst (fold_left (eventStep c) l (items, n)) = items ++ concat cs
      /\ Forall2 eventAdds l cs.
Proof.
  induction l as [|e l IH]; intros items n.
  - exists []. split; [now rewrite app_nil_r|constructor].
  - cbn [fold_left].
    rewrite (surjective_pairing (eventStep c (items, n) e)).
    destruct (eventStep_adds c items n e) as (own & Hown & Hadds).
    rewrite Hown.
    destruct (IH (items ++ own) (snd (eventStep c (items, n) e)))
      as (cs & Hcs & Hall).
    exists (own :: cs). split.
    + rewrite Hcs, <- app_assoc. reflexivity.
    + now constructor.
Qed.

(** The items collected, entry by entry. *)
Lemma collectItems_adds c f S E :
  exists cs ce,
    fst (collectItems c f S E) = concat cs ++ concat ce
    /\ Forall2 showAdds (match f with events => [] | _ => S end) cs
    /\ Forall2 eventAdds (match f with shows => [] | _ => E end) ce.
Proof.
  unfold collectItems. destruct f.
  - destruct (fold_shows_adds c S [] 0%nat) as (cs & Hcs & Hs).
    rewrite (surjective_pairing (fold_left (showStep c) S _)), Hcs.
    destruct (fold_events_adds c E ([] ++ concat cs)
                (snd (fold_left (showStep c) S ([], 0%nat))))
      as (ce & Hce & He).
    exists cs, ce. split; [exact Hce|]. now split.
  - destruct (fold_shows_adds c S [] 0%nat) as (cs & Hcs & Hs).
    exists cs, []. split; [now rewrite Hcs, app_nil_r|].
    split; [exact Hs|constructor].
  - destruct (fold_events_adds c E [] 0%nat) as (ce & Hce & He).
    exists [], ce. split; [exact Hce|]. split; [constructor|exact He].
Qed.

End Collected.

(** C6, as amended: no window is tested for an entity that does not recur.
    A show that does not recur and has a scheduled time is emitted at that
    time, once for its entry in the list, whatever the clock shows; without a
    scheduled time it is not emitted.  In the month grid such a show is
    listed on a day exactly when its scheduled time falls on that calendar
    day.  The same holds for an event and its start date.  In any lists and
    under any filter, the items collected are, entry by entry, what each
    entry adds: an entry that does not recur adds exactly one item at its
    time, or none when it has no time, whatever the other entries and the
    clock; an entry that recurs adds items of its own only.  The calendar
    shows these items, reordered. *)
Theorem one_off_is_always_emitted `{JSRuntime} (clock : nat -> Z) :
  (forall s : Show.t,
     Show.is_recurring s = false ->
     (truthy (Show.scheduled_time s) = true ->
      let it :=
        showItem s (newDateOfString (stringOf (Show.scheduled_time s))) in
      calendarItems clock all noSearch [s] [] = [it]
      /\ (forall filter showList eventList,
            filter <> events -> In s showList ->
            In it (calendarItems clock filter noSearch showList eventList))
      /\ (forall date,
            showOnDay date s
            = isSameDay (parseISODate (stringOf (Show.scheduled_time s)))
                date))
     /\ (truthy (Show.scheduled_time s) = false ->
         calendarItems clock all noSearch [s] [] = []
         /\ forall date, showOnDay date s = false))
  /\ (forall e : Event.t,
     Event.is_recurring e = false ->
     let startDate := orElse (Event.start_datetime e) (Event.start_date e) in
     (truthy startDate = true ->
      let it :=
        eventItem e (newDateOfString (stringOf startDate))
          (eventEnd (orElse (Event.end_datetime e) (Event.end_date e))) in
      calendarItems clock all noSearch [] [e] = [it]
      /\ (forall filter showList eventList,
            filter <> shows -> In e eventList ->
            In it (calendarItems clock filter noSearch showList eventList))
      /\ (forall date,
            eventOnDay date e
            = isSameDay (parseISODate (stringOf startDate)) date))
     /\ (truthy startDate = false ->
         calendarItems clock all noSearch [] [e] = []
         /\ forall date, eventOnDay date e = false))
  /\ (forall filter showList eventList,
       exists (cs ce : list (list Item)),
         fst (collectItems clock filter showList eventList)
         = concat cs ++ concat ce
         /\ Permutation (concat cs ++ concat ce)
              (calendarItems clock filter noSearch showList eventList)
         /\ Forall2 showAdds
              (match filter with events => [] | _ => showList end) cs
         /\ Forall2 eventAdds
              (match filter with shows => [] | _ => eventList end) ce).
Proof.
  split; [|split].
  - intros s Hr. split.
    + intros Ht. cbv zeta. split; [|split].
      * unfold calendarItems, collectItems. cbn [fold_left].
        now rewrite showStep_one_off.
      * intros f S E Hf Hin. unfold calendarItems.
        cbn [truthy negb String.eqb].
        apply (Permutation_in _ (sortBy_perm staysBefore _)).
        unfold collectItems.
        destruct f; [|now apply fold_shows_one_off|congruence].
        rewrite (surjective_pairing (fold_left (showStep clock) S _)).
        apply fold_events_incl. now apply fold_shows_one_off.
      * intros date. unfold showOnDay. now rewrite Hr, Ht.
    + intros Ht. split.
      * unfold calendarItems, collectItems. cbn [fold_left].
        unfold showStep. now rewrite Hr, Ht.
      * intros date. unfold showOnDay. now rewrite Hr, Ht.
  - intros e Hr. cbv zeta. split.
    + intros Ht. split; [|split].
      * unfold calendarItems, collectItems. cbn [fold_left].
        now rewrite eventStep_one_off.
      * intros f S E Hf Hin. unfold calendarItems.
        cbn [truthy negb String.eqb].
        apply (Permutation_in _ (sortBy_perm staysBefore _)).
        unfold collectItems.
        destruct f; [|congruence|now apply fold_events_one_off].
        rewrite (surjective_pairing (fold_left (showStep clock) S _)).
        now apply fold_events_one_off.
      * intros date. unfold eventOnDay. now rewrite Hr, Ht.
    + intros Ht. split.
      * unfold calendarItems, collectItems. cbn [fold_left].
        unfold eventStep. now rewrite Hr, Ht.
      * intros date. unfold eventOnDay. now rewrite Hr, Ht.
  - intros f S E.
    destruct (collectItems_adds clock f S E) as (cs & ce & Hitems & Hs & He).
    exists cs, ce. split; [exact Hitems|]. split; [|now split].
    unfold calendarItems. change (truthy (Some noSearch)) with false.
    cbv iota. rewrite Hitems. apply sortBy_perm.
Qed.

Lemma one_off_is_always_emitted_witness :
  let s := oneOffShow 5 (Some "2024-06-05T10:00") in
  let c := stoppedClock (localTime 2024 6 3 9 0) in
  @calendarItems refRuntime c all noSearch [s] []
  = [showItem s (Time (localTime 2024 6 5 10 0))]
  /\ In (showItem s (Time (localTime 2024 6 5 10 0)))
       (@calendarItems refRuntime c shows noSearch [mondayShow; s] [])
  /\ @showOnDay refRuntime (Time (localTime 2024 6 5 0 0)) s = true.
Proof.
  cbv zeta.
  destruct (@one_off_is_always_emitted refRuntime
              (stoppedClock (localTime 2024 6 3 9 0))) as [Hshow _].
  destruct (Hshow (oneOffShow 5 (Some "2024-06-05T10:00")) eq_refl)
    as [Hwith _].
  destruct (Hwith eq_refl) as (Hone & Hin & Hday).
  split; [exact Hone|]. split.
  - apply Hin; [discriminate|]. right. now left.
  - rewrite Hday. reflexivity.
Defined.

(** C6, as stated, fails: with the clock at 2024-06-03 00:00 the 28 days end
    at 2024-07-01 00:00, and a show that does not recur, scheduled at that
    instant, is emitted. *)
Lemma one_off_at_window_end_is_emitted :
  localTime 2024 7 1 0 0 = localTime 2024 6 3 0 0 + 28 * msPerDay
  /\ @calendarItems refRuntime (stoppedClock (localTime 2024 6 3 0 0)) all
       noSearch
       [oneOffShow 5 (Some "2024-07-01T00:00")] []
     <> [].
Proof. split; [reflexivity|]. vm_compute. discriminate. Qed.

(** C4, on the failing input: the same show that does not recur, reached
    through two entries of the list, is emitted twice, and the two items have
    the same identifier, type and calendar day. *)
Theorem one_off_listed_twice :
  let s := oneOffShow 5 (Some "2024-06-05T10:00") in
  let out :=
    @calendarItems refRuntime (stoppedClock (localTime 2024 6 3 9 0)) all
      noSearch
      [s; s] [] in
  out = [showItem s (Time (localTime 2024 6 5 10 0));
         showItem s (Time (localTime 2024 6 5 10 0))]
  /\ distinctKeys out = false.
Proof. split; vm_compute; reflexivity. Qed.

(** ** The run on the store *)

Lemma grows_refl st : grows st st.
Proof. exists []. split; [now rewrite app_nil_r|constructor]. Qed.

Lemma grows_trans st1 st2 st3 : grows st1 st2 -> grows st2 st3 -> grows st1 st3.
Proof.
  intros (c1 & H1 & F1) (c2 & H2 & F2). exists (c1 ++ c2). split.
  - now rewrite H2, H1, <- app_assoc.
  - apply List.Forall_app. now split.
Qed.

Lemma grows_length st st' :
  grows st st' -> (length (Heap.objs st) <= length (Heap.objs st'))%nat.
Proof. intros (c & -> & _). rewrite length_app. lia. Qed.

Lemma grows_lookup st st' (l : nat) :
  grows st st' -> (l < length (Heap.objs st))%nat ->
  Heap.objs st' !! l = Heap.objs st !! l.
Proof. intros (c & -> & _) Hl. now apply lookup_app_l. Qed.

Lemma grows_deref st st' (l : nat) :
  grows st st' -> (l < length (Heap.objs st))%nat ->
  Heap.deref st' l = Heap.deref st l.
Proof. intros Hg Hl. unfold Heap.deref. now rewrite (grows_lookup st st'). Qed.

Lemma Heap_bind_assoc_run {A B C : Type} (m : Heap.M A) (k : A -> Heap.M B)
    (k' : B -> Heap.M C) st :
  Heap.bind m (fun a => Heap.bind (k a) k') st
  = Heap.bind (Heap.bind m k) k' st.
Proof. reflexivity. Qed.

Lemma bind_run {A B : Type} (m : Heap.M A) (k : A -> Heap.M B) st a st' :
  m st = (a, st') -> Heap.bind m k st = k a st'.
Proof. unfold Heap.bind. now intros ->. Qed.

Lemma insert_at_end {A : Type} (h : list A) (x y : A) (t : list A) :
  <[length h := y]> (h ++ x :: t) = h ++ y :: t.
Proof.
  rewrite <- (Nat.add_0_r (length h)) at 1. now rewrite insert_app_r.
Qed.

Lemma lookup_at_end {A : Type} (h : list A) (x : A) (t : list A) :
  (h ++ x :: t) !! length h = Some x.
Proof. now apply list_lookup_middle. Qed.

Lemma deref_at_end (h : list Heap.Obj) (x : JSDate) (t : list Heap.Obj)
    (r l : nat) :
  l = length h ->
  Heap.deref {| Heap.objs := h ++ Heap.ODate x :: t; Heap.reads := r |} l = x.
Proof.
  intros ->. unfold Heap.deref. cbn [Heap.objs]. now rewrite lookup_at_end.
Qed.

Section HeapRun.
Context `{JSRuntime}.

(** [stampTime] on the last [Date] object but [n]: it is updated as by the
    function on values, and at most one [Date] is created. *)
Lemma heap_stampTime_run (sched : option string) (h : list Heap.Obj)
    (x : JSDate) (r : nat) :
  exists extra,
    List.Forall isDate extra
    /\ Heap.stampTime sched (length h)
         {| Heap.objs := h ++ [Heap.ODate x]; Heap.reads := r |}
       = (tt, {| Heap.objs := h ++ Heap.ODate (stampTime sched x) :: extra;
                 Heap.reads := r |}).
Proof.
  assert (Hset : forall hh mm,
    Heap.setHoursOf (length h) hh mm
      {| Heap.objs := h ++ [Heap.ODate x]; Heap.reads := r |}
    = (tt, {| Heap.objs := h ++ [Heap.ODate (setHours x hh mm)];
              Heap.reads := r |})).
  { intros hh mm. unfold Heap.setHoursOf, Heap.bind, Heap.readDate, Heap.gets,
      Heap.writeDate, Heap.deref. cbn [fst snd Heap.objs Heap.reads].
    now rewrite lookup_at_end, insert_at_end. }
  unfold Heap.stampTime, stampTime.
  destruct sched as [s|]; [|exists []; split; [constructor|reflexivity]].
  destruct (truthy (Some s)); [|exists []; split; [constructor|reflexivity]].
  destruct (includes ":" s && (String.length s <=? 8)%nat).
  - destruct (clockParts s) as [hh mm]. exists []. split; [constructor|].
    apply Hset.
  - exists [Heap.ODate (newDateOfString s)]. split; [repeat constructor|].
    unfold Heap.bind, Heap.parseDate, Heap.allocDate, Heap.readDate, Heap.gets,
      Heap.deref. cbn [fst snd Heap.objs Heap.reads].
    rewrite <- app_assoc. cbn [app].
    rewrite length_app. cbn [length].
    replace (length h + 1)%nat with (length (h ++ [Heap.ODate x]))
      by (rewrite length_app; reflexivity).
    change (h ++ [Heap.ODate x; Heap.ODate (newDateOfString s)])
      with (h ++ [Heap.ODate x] ++ [Heap.ODate (newDateOfString s)]).
    rewrite app_assoc, lookup_at_end.
    destruct (newDateOfString s) as [u|]; [|now rewrite <- app_assoc].
    unfold Heap.setHoursOf, Heap.bind, Heap.readDate, Heap.gets,
      Heap.writeDate, Heap.deref. cbn [fst snd Heap.objs Heap.reads].
    rewrite <- app_assoc. cbn [app].
    now rewrite lookup_at_end, insert_at_end.
Qed.

(** One turn of the loop: [Date] objects are added after the ones that
    exist, and the date pushed, if any, is the one the function on values
    computes. *)
Lemma heap_projectDay_run (now : nat) (t : Z) rt k sched (dates : list nat)
    (d : nat) st :
  Heap.objs st !! now = Some (Heap.ODate (Time t)) ->
  exists cells news,
    List.Forall isDate cells
    /\ Heap.projectDay now rt k sched dates d st
       = (dates ++ news,
          {| Heap.objs := Heap.objs st ++ cells; Heap.reads := Heap.reads st |})
    /\ List.Forall
         (fun l => (length (Heap.objs st) <= l
                    < length (Heap.objs st ++ cells))%nat) news
    /\ (length news <= 1)%nat
    /\ map (fun l => (Heap.objs st ++ cells) !! l) news
       = map (fun x => Some (Heap.ODate x)) (projectDay (Time t) rt k sched d).
Proof.
  intros Hnow. unfold Heap.projectDay, projectDay.
  set (x := addDays (Time t) (Z.of_nat d)).
  rewrite (bind_run _ _ st (length (Heap.objs st))
             {| Heap.objs := Heap.objs st ++ [Heap.ODate (Time t)];
                Heap.reads := Heap.reads st |}).
  2:{ unfold Heap.copyDate, Heap.bind, Heap.readDate, Heap.gets,
        Heap.allocDate, Heap.deref. cbn [fst snd]. now rewrite Hnow. }
  rewrite (bind_run _ _ _ tt
             {| Heap.objs := Heap.objs st ++ [Heap.ODate x];
                Heap.reads := Heap.reads st |}).
  2:{ unfold Heap.setDatePlus, Heap.bind, Heap.readDate, Heap.gets,
        Heap.writeDate, Heap.deref. cbn [fst snd Heap.objs Heap.reads].
      now rewrite lookup_at_end, insert_at_end. }
  rewrite (bind_run _ _ _ x
             {| Heap.objs := Heap.objs st ++ [Heap.ODate x];
                Heap.reads := Heap.reads st |}).
  2:{ unfold Heap.readDate, Heap.gets, Heap.deref. cbn [Heap.objs].
      now rewrite lookup_at_end. }
  destruct (shouldAdd rt k (getDay x)).
  - destruct (heap_stampTime_run sched (Heap.objs st) x (Heap.reads st))
      as (extra & Hextra & Hrun).
    set (y := stampTime sched x) in *.
    rewrite (bind_run _ _ _ _ _ Hrun).
    exists (Heap.ODate y :: extra ++ [Heap.ODate y]),
      [length (Heap.objs st ++ Heap.ODate y :: extra)].
    split; [|split; [|split; [|split]]].
    + constructor; [exact I|]. apply List.Forall_app. split; [exact Hextra|].
      repeat constructor.
    + unfold Heap.copyDate, Heap.bind, Heap.readDate, Heap.gets,
        Heap.allocDate, Heap.ret, Heap.deref.
      cbn [fst snd Heap.objs Heap.reads].
      rewrite lookup_at_end. rewrite <- app_assoc. reflexivity.
    + repeat constructor; rewrite !length_app; cbn [length];
        rewrite ?length_app; cbn [length]; lia.
    + cbn. lia.
    + cbn [map]. f_equal.
      change (Heap.ODate y :: extra ++ [Heap.ODate y])
        with ((Heap.ODate y :: extra) ++ [Heap.ODate y]).
      rewrite app_assoc. apply lookup_at_end.
  - exists [Heap.ODate x], []. rewrite app_nil_r.
    split; [repeat constructor|].
    split; [reflexivity|].
    split; [constructor|]. split; [cbn; lia|reflexivity].
Qed.

Lemma sorted_snoc (l : list nat) (x : nat) :
  StronglySorted lt l -> List.Forall (fun a => (a < x)%nat) l ->
  StronglySorted lt (l ++ [x]).
Proof.
  induction 1 as [|a l Hs IH Ha]; intros Hx; cbn.
  - repeat constructor.
  - apply List.Forall_cons_iff in Hx as [Hax Hx].
    constructor; [now apply IH|].
    apply List.Forall_app. split; [exact Ha|]. now repeat constructor.
Qed.

Lemma datesIn_grows st st' lo locs vals :
  grows st st' -> datesIn st lo locs vals -> datesIn st' lo locs vals.
Proof.
  intros Hg (Hs & Hr & Hv). split; [exact Hs|]. split.
  - eapply List.Forall_impl; [|exact Hr]. cbn. intros l Hl.
    pose proof (grows_length _ _ Hg). lia.
  - rewrite <- Hv. apply map_ext_in. intros l Hl.
    rewrite List.Forall_forall in Hr. specialize (Hr l Hl).
    apply grows_lookup; [exact Hg|lia].
Qed.

Lemma datesIn_deref st lo locs vals :
  datesIn st lo locs vals -> map (Heap.deref st) locs = vals.
Proof.
  intros (_ & _ & Hv). revert vals Hv.
  induction locs as [|l locs IH]; intros [|v vals] Hv; try discriminate;
    [reflexivity|].
  cbn in Hv. injection Hv as Hl Hv. cbn. unfold Heap.deref at 1.
  rewrite Hl. f_equal. now apply IH.
Qed.

(** The loop over the days. *)
Lemma heap_projectDays_run (now : nat) (t : Z) rt k sched (ds : list nat) :
  forall st lo dates vals,
    Heap.objs st !! now = Some (Heap.ODate (Time t)) ->
    (lo <= length (Heap.objs st))%nat ->
    datesIn st lo dates vals ->
    exists st' dates',
      Heap.foldM (Heap.projectDay now rt k sched) ds dates st = (dates', st')
      /\ grows st st'
      /\ Heap.reads st' = Heap.reads st
      /\ datesIn st' lo dates'
           (vals ++ flat_map (projectDay (Time t) rt k sched) ds).
Proof.
  induction ds as [|d ds IH]; intros st lo dates vals Hnow Hlo Hin.
  - exists st, dates. cbn. rewrite app_nil_r.
    split; [reflexivity|]. split; [apply grows_refl|]. now split.
  - destruct (heap_projectDay_run now t rt k sched dates d st Hnow)
      as (cells & news & Hcells & Hrun & Hrange & Hlen & Hvals).
    set (st1 := {| Heap.objs := Heap.objs st ++ cells;
                   Heap.reads := Heap.reads st |}) in *.
    assert (Hg1 : grows st st1) by (exists cells; now split).
    assert (Hin1 : datesIn st1 lo (dates ++ news)
                     (vals ++ projectDay (Time t) rt k sched d)).
    { pose proof (datesIn_grows _ _ _ _ _ Hg1 Hin) as (Hs & Hr & Hv).
      destruct Hin as (_ & Hr0 & _).
      split; [|split].
      - destruct news as [|l [|l' news]];
          [now rewrite app_nil_r| |cbn in Hlen; lia].
        apply sorted_snoc; [exact Hs|].
        apply List.Forall_cons_iff in Hrange as [Hl _].
        eapply List.Forall_impl; [|exact Hr0]. cbn. intros a Ha. lia.
      - apply List.Forall_app. split; [exact Hr|].
        eapply List.Forall_impl; [|exact Hrange]. cbn. intros a Ha.
        unfold st1. cbn [Heap.objs]. lia.
      - rewrite !map_app, Hv. f_equal. exact Hvals. }
    destruct (IH st1 lo (dates ++ news)
                (vals ++ projectDay (Time t) rt k sched d))
      as (st' & dates' & Hrun' & Hg' & Hreads' & Hin').
    + cbn [Heap.objs st1]. rewrite lookup_app_l; [exact Hnow|].
      now apply lookup_lt_Some in Hnow.
    + pose proof (grows_length _ _ Hg1). lia.
    + exact Hin1.
    + exists st', dates'. cbn [Heap.foldM flat_map].
      rewrite (bind_run _ _ _ _ _ Hrun), Hrun'.
      split; [reflexivity|]. split; [now apply grows_trans with st1|].
      split; [exact Hreads'|]. now rewrite app_assoc.
Qed.

(** [projectRecurringDates] on the store: one reading of the clock, new
    [Date] objects only, and the dates of the function on values. *)
Lemma heap_projectRecurringDates_run (clock : nat -> Z) rt k sched st :
  exists st' locs,
    Heap.projectRecurringDates clock rt k sched st = (locs, st')
    /\ grows st st'
    /\ Heap.reads st' = S (Heap.reads st)
    /\ datesIn st' (length (Heap.objs st)) locs
         (projectRecurringDates (clock (Heap.reads st)) rt k sched).
Proof.
  set (t := clock (Heap.reads st)).
  set (st1 := {| Heap.objs := Heap.objs st ++ [Heap.ODate (Time t)];
                 Heap.reads := S (Heap.reads st) |}).
  destruct (heap_projectDays_run (length (Heap.objs st)) t rt k sched
              (seq 0 28) st1 (length (Heap.objs st)) [] [])
    as (st' & locs & Hrun & Hg & Hreads & Hin).
  - apply lookup_at_end.
  - cbn [st1 Heap.objs]. rewrite length_app. lia.
  - split; [constructor|]. split; [constructor|reflexivity].
  - exists st', locs. split; [|split; [|split]].
    + unfold Heap.projectRecurringDates.
      rewrite (bind_run _ _ st (length (Heap.objs st)) st1); [exact Hrun|].
      reflexivity.
    + apply grows_trans with st1; [|exact Hg].
      exists [Heap.ODate (Time t)]. split; [reflexivity|].
      repeat constructor.
    + exact Hreads.
    + exact Hin.
Qed.

Lemma itemLocs_snoc items (i : Heap.Item) :
  itemLocs (items ++ [i]) = itemLocs items ++ Heap.itemDates i.
Proof.
  unfold itemLocs. rewrite map_app, concat_app. cbn. now rewrite app_nil_r.
Qed.

Lemma viewItem_grows st st' (i : Heap.Item) :
  grows st st' ->
  List.Forall (fun l => (l < length (Heap.objs st))%nat) (Heap.itemDates i) ->
  Heap.viewItem st' i = Heap.viewItem st i.
Proof.
  intros Hg Hl. unfold Heap.viewItem, Heap.itemDates in *.
  apply List.Forall_cons_iff in Hl as [Hd He].
  rewrite (grows_deref st st') by assumption. f_equal.
  destruct (CalendarItem.endDate i) as [l|]; [|reflexivity].
  apply List.Forall_cons_iff in He as [He _]. cbn.
  now rewrite (grows_deref st st').
Qed.

Lemma itemsIn_grows st st' lo items vals :
  grows st st' -> itemsIn st lo items vals -> itemsIn st' lo items vals.
Proof.
  intros Hg (Hs & Hr & Hv). split; [exact Hs|]. split.
  - eapply List.Forall_impl; [|exact Hr]. cbn. intros l Hl.
    pose proof (grows_length _ _ Hg). lia.
  - rewrite <- Hv. apply map_ext_in. intros i Hi.
    apply viewItem_grows; [exact Hg|].
    apply List.Forall_forall. intros l Hl.
    rewrite List.Forall_forall in Hr.
    assert (Hin : In l (itemLocs items)).
    { unfold itemLocs. apply in_concat. exists (Heap.itemDates i).
      split; [now apply in_map|exact Hl]. }
    specialize (Hr l Hin). lia.
Qed.

Lemma sorted_app (l1 l2 : list nat) :
  StronglySorted lt l1 -> StronglySorted lt l2 ->
  List.Forall (fun a => List.Forall (fun b => (a < b)%nat) l2) l1 ->
  StronglySorted lt (l1 ++ l2).
Proof.
  induction 1 as [|a l Hs IH Ha]; intros H2 Hlt; cbn; [exact H2|].
  apply List.Forall_cons_iff in Hlt as [Ha2 Hlt].
  constructor; [now apply IH|].
  apply List.Forall_app. now split.
Qed.

(** Pushing an item whose [Date] objects come after those of the items. *)
Lemma itemsIn_push st lo items vals (i : Heap.Item) :
  itemsIn st lo items vals ->
  StronglySorted lt (Heap.itemDates i) ->
  List.Forall (fun l => (lo <= l < length (Heap.objs st))%nat)
    (Heap.itemDates i) ->
  List.Forall (fun a => List.Forall (fun b => (a < b)%nat) (Heap.itemDates i))
    (itemLocs items) ->
  itemsIn st lo (items ++ [i]) (vals ++ [Heap.viewItem st i]).
Proof.
  intros (Hs & Hr & Hv) Hsi Hri Hlt. split; [|split].
  - rewrite itemLocs_snoc. now apply sorted_app.
  - rewrite itemLocs_snoc. apply List.Forall_app. now split.
  - rewrite map_app, Hv. reflexivity.
Qed.

Lemma heap_found_view st items vals id ty (d : nat) :
  map (Heap.viewItem st) items = vals ->
  Heap.found items id ty d st = (found vals id ty (Heap.deref st d), st).
Proof.
  intros <-. unfold Heap.found, Heap.gets, found. f_equal.
  induction items as [|i items IH]; [reflexivity|].
  cbn [existsb map]. now rewrite IH.
Qed.

Lemma heap_pushOccurrence_run st items vals id ty mk (d : nat) :
  map (Heap.viewItem st) items = vals ->
  Heap.pushOccurrence id ty mk items d st
  = (if found vals id ty (Heap.deref st d) then items else items ++ [mk d],
     st).
Proof.
  intros Hv. unfold Heap.pushOccurrence.
  rewrite (bind_run _ _ _ _ _ (heap_found_view st items vals id ty d Hv)).
  now destruct (found vals id ty (Heap.deref st d)).
Qed.

(** The loop that pushes the dates of a recurring entity: the store is only
    read. *)
Lemma heap_fold_push_run id ty (mk : nat -> Heap.Item)
    (mkP : JSDate -> Item) st lo (ds : list nat) :
  (forall d, Heap.itemDates (mk d) = [d]) ->
  (forall d, Heap.viewItem st (mk d) = mkP (Heap.deref st d)) ->
  forall items vals,
    itemsIn st lo items vals ->
    StronglySorted lt ds ->
    List.Forall (fun d => (lo <= d < length (Heap.objs st))%nat) ds ->
    List.Forall (fun a => List.Forall (fun b => (a < b)%nat) ds)
      (itemLocs items) ->
    exists items',
      Heap.foldM (Heap.pushOccurrence id ty mk) ds items st = (items', st)
      /\ itemsIn st lo items'
           (fold_left (pushOccurrence id ty mkP) (map (Heap.deref st) ds) vals).
Proof.
  intros Hmk Hview.
  induction ds as [|d ds IH]; intros items vals Hin Hs Hr Hlt.
  - exists items. now split.
  - apply StronglySorted_inv in Hs as [Hs Hd].
    apply List.Forall_cons_iff in Hr as [Hrd Hr].
    cbn [Heap.foldM map fold_left].
    rewrite (bind_run _ _ _ _ _
               (heap_pushOccurrence_run st items vals id ty mk d
                  (proj2 (proj2 Hin)))).
    unfold pushOccurrence at 2.
    destruct (found vals id ty (Heap.deref st d)).
    + apply IH; try assumption.
      eapply List.Forall_impl; [|exact Hlt]. cbn. intros a Ha.
      now apply List.Forall_cons_iff in Ha as [_ Ha].
    + rewrite <- Hview. apply IH; try assumption.
      * apply itemsIn_push; rewrite ?Hmk; try assumption.
        -- repeat constructor.
        -- now repeat constructor.
        -- eapply List.Forall_impl; [|exact Hlt]. cbn. intros a Ha.
           apply List.Forall_cons_iff in Ha as [Ha _]. now repeat constructor.
      * rewrite itemLocs_snoc, Hmk. apply List.Forall_app. split.
        -- eapply List.Forall_impl; [|exact Hlt]. cbn. intros a Ha.
           now apply List.Forall_cons_iff in Ha as [_ Ha].
        -- now repeat constructor.
Qed.

(** The projection of a recurring entity followed by the loop that pushes
    its dates. *)
Lemma heap_recurring_run (clock : nat -> Z) id ty (mk : nat -> Heap.Item)
    (mkP : JSDate -> Item) rt k sched st lo items vals :
  (forall d, Heap.itemDates (mk d) = [d]) ->
  (forall st' d, Heap.viewItem st' (mk d) = mkP (Heap.deref st' d)) ->
  (lo <= length (Heap.objs st))%nat ->
  itemsIn st lo items vals ->
  exists st' items',
    Heap.bind (Heap.projectRecurringDates clock rt k sched)
      (fun ds => Heap.foldM (Heap.pushOccurrence id ty mk) ds items) st
    = (items', st')
    /\ grows st st'
    /\ Heap.reads st' = S (Heap.reads st)
    /\ itemsIn st' lo items'
         (fold_left (pushOccurrence id ty mkP)
            (projectRecurringDates (clock (Heap.reads st)) rt k sched) vals).
Proof.
  intros Hmk Hview Hlo Hin.
  destruct (heap_projectRecurringDates_run clock rt k sched st)
    as (st' & locs & Hrun & Hg & Hreads & Hdates).
  pose proof (datesIn_deref _ _ _ _ Hdates) as Hderef.
  destruct Hdates as (Hs & Hr & _).
  destruct (heap_fold_push_run id ty mk mkP st' lo locs Hmk (Hview st')
              items vals) as (items' & Hfold & Hin').
  - now apply itemsIn_grows with st.
  - exact Hs.
  - eapply List.Forall_impl; [|exact Hr]. cbn. intros d Hd. lia.
  - destruct Hin as (_ & Hri & _).
    eapply List.Forall_impl; [|exact Hri]. cbn. intros a Ha.
    eapply List.Forall_impl; [|exact Hr]. cbn. intros d Hd. lia.
  - exists st', items'. rewrite (bind_run _ _ _ _ _ Hrun).
    split; [exact Hfold|]. split; [exact Hg|]. split; [exact Hreads|].
    now rewrite <- Hderef.
Qed.

(** Allocation of a [Date] object for an item pushed at the end. *)
Lemma itemsIn_alloc st lo items vals (x : JSDate) (mk : nat -> Heap.Item) :
  (lo <= length (Heap.objs st))%nat ->
  itemsIn st lo items vals ->
  Heap.itemDates (mk (length (Heap.objs st))) = [length (Heap.objs st)] ->
  let st' := {| Heap.objs := Heap.objs st ++ [Heap.ODate x];
                Heap.reads := Heap.reads st |} in
  grows st st'
  /\ itemsIn st' lo (items ++ [mk (length (Heap.objs st))])
       (vals ++ [Heap.viewItem st' (mk (length (Heap.objs st)))]).
Proof.
  intros Hlo Hin Hmk st'.
  assert (Hg : grows st st').
  { exists [Heap.ODate x]. split; [reflexivity|repeat constructor]. }
  split; [exact Hg|].
  destruct Hin as (Hs0 & Hr0 & Hv0).
  apply itemsIn_push.
  - apply itemsIn_grows with st; [exact Hg|]. now split.
  - rewrite Hmk. repeat constructor.
  - rewrite Hmk. repeat constructor; cbn [st' Heap.objs]; [exact Hlo|].
    rewrite length_app. cbn. lia.
  - rewrite Hmk. eapply List.Forall_impl; [|exact Hr0]. cbn. intros a Ha.
    repeat constructor. lia.
Qed.

Lemma heap_showStep_run (clock : nat -> Z) st lo items vals (ref : nat) :
  (lo <= length (Heap.objs st))%nat ->
  itemsIn st lo items vals ->
  exists st' items',
    Heap.showStep clock items ref st = (items', st')
    /\ grows st st'
    /\ itemsIn st' lo items'
         (fst (match Heap.showAt st ref with
               | Some s => showStep clock (vals, Heap.reads st) s
               | None => (vals, Heap.reads st)
               end))
    /\ Heap.reads st'
       = snd (match Heap.showAt st ref with
              | Some s => showStep clock (vals, Heap.reads st) s
              | None => (vals, Heap.reads st)
              end).
Proof.
  intros Hlo Hin. unfold Heap.showStep.
  rewrite (bind_run (Heap.gets (fun st0 => Heap.showAt st0 ref)) _ st
             (Heap.showAt st ref) st eq_refl).
  destruct (Heap.showAt st ref) as [s|].
  2:{ exists st, items. split; [reflexivity|].
      split; [apply grows_refl|]. now split. }
  unfold showStep.
  set (one := negb (Show.is_recurring s) && truthy (Show.scheduled_time s)).
  set (x := newDateOfString (stringOf (Show.scheduled_time s))).
  assert (Hone : exists st1 items1,
    (if one
     then Heap.bind (Heap.parseDate (stringOf (Show.scheduled_time s)))
            (fun d => Heap.ret (items ++ [showItem s d]))
     else Heap.ret items) st = (items1, st1)
    /\ grows st st1 /\ Heap.reads st1 = Heap.reads st
    /\ itemsIn st1 lo items1
         (if one then vals ++ [showItem s x] else vals)).
  { destruct one.
    - destruct (itemsIn_alloc st lo items vals x (showItem s) Hlo Hin eq_refl)
        as [Hg Hin1].
      eexists _, _. split; [reflexivity|]. split; [exact Hg|].
      split; [reflexivity|].
      replace (showItem s x) with
        (Heap.viewItem
           {| Heap.objs := Heap.objs st ++ [Heap.ODate x];
              Heap.reads := Heap.reads st |}
           (showItem s (length (Heap.objs st)))); [exact Hin1|].
      unfold Heap.viewItem, showItem, Heap.deref. cbn.
      now rewrite lookup_at_end.
    - exists st, items. split; [reflexivity|].
      split; [apply grows_refl|]. now split. }
  destruct Hone as (st1 & items1 & Hrun1 & Hg1 & Hreads1 & Hin1).
  rewrite (bind_run _ _ _ _ _ Hrun1).
  destruct (Show.is_recurring s && truthy (Show.recurrence_type s)).
  - destruct (heap_recurring_run clock (Show.id s) show (showItem s)
                (showItem s) (Show.recurrence_type s) (Show.day_of_week s)
                (Show.scheduled_time s) st1 lo items1 _
                (fun d => eq_refl) (fun st' d => eq_refl)
                ltac:(pose proof (grows_length _ _ Hg1); lia) Hin1)
      as (st' & items' & Hrun & Hg & Hreads & Hin').
    exists st', items'. split; [exact Hrun|].
    split; [now apply grows_trans with st1|].
    cbn [fst snd]. rewrite Hreads1 in *. now split.
  - exists st1, items1. split; [reflexivity|]. split; [exact Hg1|].
    cbn [fst snd]. now split.
Qed.

Lemma heap_event_one_off_run st lo items vals (e : Event.t)
    (startDate endDate : option string) :
  (lo <= length (Heap.objs st))%nat ->
  itemsIn st lo items vals ->
  exists st1 items1,
    Heap.bind (Heap.parseDate (stringOf startDate))
      (fun d => Heap.bind (Heap.eventEnd endDate)
         (fun endD => Heap.ret (items ++ [eventItem e d endD]))) st
    = (items1, st1)
    /\ grows st st1 /\ Heap.reads st1 = Heap.reads st
    /\ itemsIn st1 lo items1
         (vals ++ [eventItem e (newDateOfString (stringOf startDate))
                     (eventEnd endDate)]).
Proof.
  intros Hlo Hin.
  set (x := newDateOfString (stringOf startDate)).
  set (n := length (Heap.objs st)).
  unfold Heap.eventEnd, eventEnd.
  destruct (truthy endDate).
  - set (y := newDateOfString (stringOf endDate)).
    set (st1 := {| Heap.objs := Heap.objs st ++ [Heap.ODate x; Heap.ODate y];
                   Heap.reads := Heap.reads st |}).
    assert (Hg : grows st st1).
    { exists [Heap.ODate x; Heap.ODate y]. split; [reflexivity|].
      repeat constructor. }
    exists st1, (items ++ [eventItem e n (Some (S n))]).
    split; [|split; [exact Hg|split; [reflexivity|]]].
    + unfold Heap.bind, Heap.parseDate, Heap.allocDate, Heap.ret.
      cbn [fst snd Heap.objs Heap.reads]. unfold st1.
      rewrite <- app_assoc, length_app. cbn [app length].
      fold n. replace (n + 1)%nat with (S n) by lia. reflexivity.
    + replace (eventItem e x (Some y))
        with (Heap.viewItem st1 (eventItem e n (Some (S n)))).
      * destruct Hin as (Hs0 & Hr0 & Hv0).
        apply itemsIn_push.
        -- apply itemsIn_grows with st; [exact Hg|]. now split.
        -- cbn. repeat constructor; lia.
        -- unfold Heap.itemDates, eventItem.
           cbn [CalendarItem.date CalendarItem.endDate].
           unfold st1. cbn [Heap.objs]. rewrite length_app. cbn [length].
           subst n.
           apply List.Forall_cons;
             [|apply List.Forall_cons; [|apply List.Forall_nil]]; lia.
        -- unfold Heap.itemDates, eventItem.
           cbn [CalendarItem.date CalendarItem.endDate].
           eapply List.Forall_impl; [|exact Hr0]. cbn. intros a Ha.
           subst n.
           apply List.Forall_cons;
             [|apply List.Forall_cons; [|apply List.Forall_nil]]; lia.
      * unfold Heap.viewItem, eventItem, st1.
        cbn [CalendarItem.date CalendarItem.endDate CalendarItem.id
             CalendarItem.title CalendarItem.type CalendarItem.thumbnail
             CalendarItem.creator CalendarItem.creatorId CalendarItem.slug
             CalendarItem.isVirtual CalendarItem.location CalendarItem.status
             fmap option_fmap option_map].
        rewrite (deref_at_end (Heap.objs st) x) by reflexivity.
        change (Heap.objs st ++ [Heap.ODate x; Heap.ODate y])
          with (Heap.objs st ++ [Heap.ODate x] ++ [Heap.ODate y]).
        rewrite app_assoc.
        rewrite (deref_at_end (Heap.objs st ++ [Heap.ODate x]) y);
          [reflexivity|].
        rewrite length_app. cbn [length]. unfold n. lia.
  - destruct (itemsIn_alloc st lo items vals x (fun d => eventItem e d None)
                Hlo Hin eq_refl) as [Hg Hin1].
    eexists _, _. split; [reflexivity|]. split; [exact Hg|].
    split; [reflexivity|].
    replace (eventItem e x None) with
      (Heap.viewItem
         {| Heap.objs := Heap.objs st ++ [Heap.ODate x];
            Heap.reads := Heap.reads st |}
         (eventItem e (length (Heap.objs st)) None)); [exact Hin1|].
    unfold Heap.viewItem, eventItem, Heap.deref. cbn.
    now rewrite lookup_at_end.
Qed.

Lemma heap_eventStep_run (clock : nat -> Z) st lo items vals (ref : nat) :
  (lo <= length (Heap.objs st))%nat ->
  itemsIn st lo items vals ->
  exists st' items',
    Heap.eventStep clock items ref st = (items', st')
    /\ grows st st'
    /\ itemsIn st' lo items'
         (fst (match Heap.eventAt st ref with
               | Some e => eventStep clock (vals, Heap.reads st) e
               | None => (vals, Heap.reads st)
               end))
    /\ Heap.reads st'
       = snd (match Heap.eventAt st ref with
              | Some e => eventStep clock (vals, Heap.reads st) e
              | None => (vals, Heap.reads st)
              end).
Proof.
  intros Hlo Hin. unfold Heap.eventStep.
  rewrite (bind_run (Heap.gets (fun st0 => Heap.eventAt st0 ref)) _ st
             (Heap.eventAt st ref) st eq_refl).
  destruct (Heap.eventAt st ref) as [e|].
  2:{ exists st, items. split; [reflexivity|].
      split; [apply grows_refl|]. now split. }
  unfold eventStep.
  set (startDate := orElse (Event.start_datetime e) (Event.start_date e)).
  set (endDate := orElse (Event.end_datetime e) (Event.end_date e)).
  assert (Hone : exists st1 items1,
    (if negb (Event.is_recurring e)
     then if truthy startDate
          then Heap.bind (Heap.parseDate (stringOf startDate))
                 (fun d => Heap.bind (Heap.eventEnd endDate)
                    (fun endD => Heap.ret (items ++ [eventItem e d endD])))
          else Heap.ret items
     else Heap.ret items) st = (items1, st1)
    /\ grows st st1 /\ Heap.reads st1 = Heap.reads st
    /\ itemsIn st1 lo items1
         (if negb (Event.is_recurring e)
          then if truthy startDate
               then vals ++ [eventItem e (newDateOfString (stringOf startDate))
                               (eventEnd endDate)]
               else vals
          else vals)).
  { destruct (negb (Event.is_recurring e)), (truthy startDate);
      try (exists st, items; split; [reflexivity|];
           split; [apply grows_refl|]; now split).
    now apply heap_event_one_off_run. }
  destruct Hone as (st1 & items1 & Hrun1 & Hg1 & Hreads1 & Hin1).
  cbv zeta. rewrite (bind_run _ _ _ _ _ Hrun1).
  destruct (Event.is_recurring e && truthy (Event.recurrence_type e)).
  - destruct (heap_recurring_run clock (Event.id e) event
                (fun d => eventItem e d None) (fun d => eventItem e d None)
                (Event.recurrence_type e) (Event.day_of_week e)
                (orElse (Event.scheduled_time e) startDate) st1 lo items1 _
                (fun d => eq_refl) (fun st' d => eq_refl)
                ltac:(pose proof (grows_length _ _ Hg1); lia) Hin1)
      as (st' & items' & Hrun & Hg & Hreads & Hin').
    exists st', items'. split; [exact Hrun|].
    split; [now apply grows_trans with st1|].
    cbn [fst snd]. rewrite Hreads1 in *. now split.
  - exists st1, items1. split; [reflexivity|]. split; [exact Hg1|].
    cbn [fst snd]. now split.
Qed.

(** What an address holds as a show or an event does not change when the
    store grows. *)
Lemma showAt_grows st0 st (ref : nat) :
  grows st0 st -> Heap.showAt st ref = Heap.showAt st0 ref.
Proof.
  intros Hg. unfold Heap.showAt.
  destruct (Nat.lt_ge_cases ref (length (Heap.objs st0))) as [Hlt|Hge].
  - now rewrite (grows_lookup st0 st).
  - rewrite (lookup_ge_None_2 (Heap.objs st0)) by exact Hge.
    destruct Hg as (cells & -> & Hcells).
    rewrite lookup_app_r by exact Hge.
    destruct (cells !! (ref - length (Heap.objs st0))%nat) as [o|] eqn:Ho;
      [|reflexivity].
    apply list_elem_of_lookup_2, list_elem_of_In in Ho.
    rewrite List.Forall_forall in Hcells. specialize (Hcells o Ho).
    now destruct o.
Qed.

Lemma eventAt_grows st0 st (ref : nat) :
  grows st0 st -> Heap.eventAt st ref = Heap.eventAt st0 ref.
Proof.
  intros Hg. unfold Heap.eventAt.
  destruct (Nat.lt_ge_cases ref (length (Heap.objs st0))) as [Hlt|Hge].
  - now rewrite (grows_lookup st0 st).
  - rewrite (lookup_ge_None_2 (Heap.objs st0)) by exact Hge.
    destruct Hg as (cells & -> & Hcells).
    rewrite lookup_app_r by exact Hge.
    destruct (cells !! (ref - length (Heap.objs st0))%nat) as [o|] eqn:Ho;
      [|reflexivity].
    apply list_elem_of_lookup_2, list_elem_of_In in Ho.
    rewrite List.Forall_forall in Hcells. specialize (Hcells o Ho).
    now destruct o.
Qed.

Lemma heap_fold_shows_run (clock : nat -> Z) st0 (refs : list nat) :
  forall st items vals,
    grows st0 st ->
    itemsIn st (length (Heap.objs st0)) items vals ->
    exists st' items',
      Heap.foldM (Heap.showStep clock) refs items st = (items', st')
      /\ grows st st'
      /\ itemsIn st' (length (Heap.objs st0)) items'
           (fst (fold_left (showStep clock) (omap (Heap.showAt st0) refs)
                   (vals, Heap.reads st)))
      /\ Heap.reads st'
         = snd (fold_left (showStep clock) (omap (Heap.showAt st0) refs)
                  (vals, Heap.reads st)).
Proof.
  induction refs as [|ref refs IH]; intros st items vals Hg0 Hin.
  - exists st, items. split; [reflexivity|].
    split; [apply grows_refl|]. now split.
  - destruct (heap_showStep_run clock st (length (Heap.objs st0)) items vals
                ref (grows_length _ _ Hg0) Hin)
      as (st1 & items1 & Hrun1 & Hg1 & Hin1 & Hreads1).
    rewrite (showAt_grows st0 st ref Hg0) in Hin1, Hreads1.
    destruct (IH st1 items1 _ (grows_trans _ _ _ Hg0 Hg1) Hin1)
      as (st' & items' & Hrun & Hg & Hin' & Hreads').
    exists st', items'. cbn [Heap.foldM omap list_omap].
    rewrite (bind_run _ _ _ _ _ Hrun1).
    split; [exact Hrun|]. split; [now apply grows_trans with st1|].
    rewrite Hreads1 in Hin', Hreads'.
    destruct (Heap.showAt st0 ref) as [s|]; cbn [fold_left];
      [rewrite (surjective_pairing (showStep clock (vals, Heap.reads st) s))|];
      now split.
Qed.

Lemma heap_fold_events_run (clock : nat -> Z) st0 (refs : list nat) :
  forall st items vals,
    grows st0 st ->
    itemsIn st (length (Heap.objs st0)) items vals ->
    exists st' items',
      Heap.foldM (Heap.eventStep clock) refs items st = (items', st')
      /\ grows st st'
      /\ itemsIn st' (length (Heap.objs st0)) items'
           (fst (fold_left (eventStep clock) (omap (Heap.eventAt st0) refs)
                   (vals, Heap.reads st)))
      /\ Heap.reads st'
         = snd (fold_left (eventStep clock) (omap (Heap.eventAt st0) refs)
                  (vals, Heap.reads st)).
Proof.
  induction refs as [|ref refs IH]; intros st items vals Hg0 Hin.
  - exists st, items. split; [reflexivity|].
    split; [apply grows_refl|]. now split.
  - destruct (heap_eventStep_run clock st (length (Heap.objs st0)) items vals
                ref (grows_length _ _ Hg0) Hin)
      as (st1 & items1 & Hrun1 & Hg1 & Hin1 & Hreads1).
    rewrite (eventAt_grows st0 st ref Hg0) in Hin1, Hreads1.
    destruct (IH st1 items1 _ (grows_trans _ _ _ Hg0 Hg1) Hin1)
      as (st' & items' & Hrun & Hg & Hin' & Hreads').
    exists st', items'. cbn [Heap.foldM omap list_omap].
    rewrite (bind_run _ _ _ _ _ Hrun1).
    split; [exact Hrun|]. split; [now apply grows_trans with st1|].
    rewrite Hreads1 in Hin', Hreads'.
    destruct (Heap.eventAt st0 ref) as [e|]; cbn [fold_left];
      [rewrite (surjective_pairing (eventStep clock (vals, Heap.reads st) e))|];
      now split.
Qed.

Lemma sortBy_map {A B : Type} (f : A -> B) (before1 : A -> A -> bool)
    (before2 : B -> B -> bool) (l : list A) :
  (forall a b, before1 a b = before2 (f a) (f b)) ->
  map f (sortBy before1 l) = sortBy before2 (map f l).
Proof.
  intros Hb. induction l as [|a l IH]; [reflexivity|].
  cbn [sortBy fold_right map]. fold (sortBy before1 l).
  fold (sortBy before2 (map f l)). rewrite <- IH.
  generalize (sortBy before1 l). intros k.
  induction k as [|b k IHk]; [reflexivity|].
  cbn [insertBy map]. rewrite <- Hb.
  destruct (before1 a b); [reflexivity|]. cbn [map]. now rewrite IHk.
Qed.

Lemma filter_view (searchQuery : string) st (l : list Heap.Item) :
  map (Heap.viewItem st) (List.filter (matchesSearch searchQuery) l)
  = List.filter (matchesSearch searchQuery) (map (Heap.viewItem st) l).
Proof.
  induction l as [|i l IH]; [reflexivity|]. cbn [List.filter map].
  change (matchesSearch searchQuery (Heap.viewItem st i))
    with (matchesSearch searchQuery i).
  destruct (matchesSearch searchQuery i); cbn [map]; now rewrite IH.
Qed.

Lemma staysBefore_view st (a b : Heap.Item) :
  Heap.staysBefore st a b
  = staysBefore (Heap.viewItem st a) (Heap.viewItem st b).
Proof.
  unfold Heap.staysBefore, staysBefore, compareFn, Heap.viewItem.
  cbn [CalendarItem.date].
  now destruct (getTime (Heap.deref st (CalendarItem.date a))),
    (getTime (Heap.deref st (CalendarItem.date b))).
Qed.

Lemma itemLocs_filter_sublist (p : Heap.Item -> bool) (l : list Heap.Item) :
  itemLocs (List.filter p l) `sublist_of` itemLocs l.
Proof.
  induction l as [|i l IH]; [constructor|].
  cbn [List.filter]. destruct (p i).
  - unfold itemLocs in *. cbn [map concat]. now apply sublist_app.
  - unfold itemLocs in *. cbn [map concat]. now apply sublist_inserts_l.
Qed.

Lemma itemLocs_perm (l k : list Heap.Item) :
  Permutation l k -> Permutation (itemLocs l) (itemLocs k).
Proof.
  intros Hp. unfold itemLocs. rewrite <- !flat_map_concat_map.
  now apply Permutation_flat_map.
Qed.

Lemma sorted_NoDup (l : list nat) : StronglySorted lt l -> NoDup l.
Proof.
  induction 1 as [|a l Hs IH Ha]; constructor; [|exact IH].
  intros Hin. apply list_elem_of_In in Hin.
  rewrite List.Forall_forall in Ha. specialize (Ha a Hin). lia.
Qed.

(** The clock of a run that starts after [n] readings. *)
Lemma collect_from (clock : nat -> Z) (n : nat) (f : ContentFilter)
    (S : list Show.t) (E : list Event.t) :
  fst (match f with
       | all | events =>
           fold_left (eventStep clock) E
             (match f with
              | all | shows => fold_left (showStep clock) S ([], n)
              | events => ([], n)
              end)
       | shows => fold_left (showStep clock) S ([], n)
       end)
  = fst (collectItems (fun k => clock (n + k)%nat) f S E).
Proof.
  unfold collectItems. set (c' := fun k => clock (n + k)%nat).
  assert (HS : fst (fold_left (showStep clock) S ([], n))
               = fst (fold_left (showStep c') S ([], 0%nat))).
  { apply (fold_step_agree showStep showReads showStep_reads showStep_agree).
    reflexivity. }
  destruct f.
  - rewrite (fold_shows_pair clock), (fold_shows_pair c'), HS.
    apply (fold_step_agree eventStep eventReads eventStep_reads
             eventStep_agree).
    intros j _. unfold c'. f_equal. lia.
  - exact HS.
  - apply (fold_step_agree eventStep eventReads eventStep_reads
             eventStep_agree). reflexivity.
Qed.

(** The search and the sort only read the store and rearrange the items. *)
Lemma heap_finish_run (searchQuery : string) st lo items vals :
  itemsIn st lo items vals ->
  exists out,
    (if truthy (Some searchQuery)
     then Heap.ret (List.filter (matchesSearch searchQuery) items)
     else Heap.gets (fun st0 => sortBy (Heap.staysBefore st0) items)) st
    = (out, st)
    /\ List.Forall (fun l => (lo <= l < length (Heap.objs st))%nat)
         (itemLocs out)
    /\ NoDup (itemLocs out)
    /\ map (Heap.viewItem st) out
       = if truthy (Some searchQuery)
         then List.filter (matchesSearch searchQuery) vals
         else sort vals.
Proof.
  intros (Hs & Hr & Hv). apply sorted_NoDup in Hs.
  destruct (truthy (Some searchQuery)).
  - exists (List.filter (matchesSearch searchQuery) items).
    pose proof (itemLocs_filter_sublist (matchesSearch searchQuery) items)
      as Hsub.
    split; [reflexivity|]. split; [|split].
    + apply List.Forall_forall. intros l Hl.
      rewrite List.Forall_forall in Hr. apply Hr.
      apply list_elem_of_In. apply list_elem_of_In in Hl.
      eapply elem_of_sublist; eassumption.
    + eapply sublist_NoDup; eassumption.
    + now rewrite filter_view, Hv.
  - exists (sortBy (Heap.staysBefore st) items).
    pose proof (itemLocs_perm _ _ (sortBy_perm (Heap.staysBefore st) items))
      as Hperm.
    split; [reflexivity|]. split; [|split].
    + eapply Permutation_Forall; eassumption.
    + now rewrite <- Hperm.
    + rewrite <- Hv. unfold sort. apply sortBy_map, staysBefore_view.
Qed.

Lemma itemsIn_nil st lo : itemsIn st lo [] [].
Proof. split; [constructor|]. split; [constructor|reflexivity]. Qed.

Lemma heap_collect_run (clock : nat -> Z) (f : ContentFilter)
    (showRefs eventRefs : list nat) st :
  exists st' items,
    Heap.bind
      (match f with
       | all | shows => Heap.foldM (Heap.showStep clock) showRefs []
       | events => Heap.ret []
       end)
      (fun items =>
         match f with
         | all | events => Heap.foldM (Heap.eventStep clock) eventRefs items
         | shows => Heap.ret items
         end) st
    = (items, st')
    /\ grows st st'
    /\ itemsIn st' (length (Heap.objs st)) items
         (fst (collectItems (fun k => clock (Heap.reads st + k)%nat) f
                 (omap (Heap.showAt st) showRefs)
                 (omap (Heap.eventAt st) eventRefs))).
Proof.
  rewrite <- collect_from.
  destruct (heap_fold_shows_run clock st showRefs st [] [] (grows_refl st)
              (itemsIn_nil st _)) as (st1 & items1 & Hrun1 & Hg1 & Hin1 & Hr1).
  destruct f.
  - destruct (heap_fold_events_run clock st eventRefs st1 items1 _ Hg1 Hin1)
      as (st2 & items2 & Hrun2 & Hg2 & Hin2 & Hr2).
    exists st2, items2. rewrite (bind_run _ _ _ _ _ Hrun1).
    split; [exact Hrun2|]. split; [now apply grows_trans with st1|].
    rewrite Hr1 in Hin2.
    now rewrite <- surjective_pairing in Hin2.
  - exists st1, items1. rewrite (bind_run _ _ _ _ _ Hrun1).
    split; [reflexivity|]. now split.
  - destruct (heap_fold_events_run clock st eventRefs st [] [] (grows_refl st)
                (itemsIn_nil st _)) as (st2 & items2 & Hrun2 & Hg2 & Hin2 & _).
    exists st2, items2.
    rewrite (bind_run (Heap.ret []) _ st [] st eq_refl).
    split; [exact Hrun2|]. now split.
Qed.

End HeapRun.

(** C10: a run of [calendarItems] on a store leaves every object that was
    there as it was, the records of the shows and events among them, and only
    adds [Date] objects.  Every [Date] object of an item it returns was
    created by the run, no two items share one, and the items read as the
    value computed from the records, whose other fields are strings, numbers
    and booleans. *)
Theorem calendarItems_leaves_inputs `{JSRuntime} (clock : nat -> Z)
    (filter : ContentFilter) (searchQuery : string)
    (showRefs eventRefs : list nat) (st : Heap.Store) :
  let run :=
    Heap.calendarItems clock filter searchQuery showRefs eventRefs st in
  let out := fst run in
  let st' := snd run in
  (forall l o, Heap.objs st !! l = Some o -> Heap.objs st' !! l = Some o)
  /\ (forall l, (length (Heap.objs st) <= l)%nat ->
                forall o, Heap.objs st' !! l = Some o -> isDate o)
  /\ List.Forall
       (fun l => (length (Heap.objs st) <= l < length (Heap.objs st'))%nat)
       (itemLocs out)
  /\ NoDup (itemLocs out)
  /\ map (Heap.viewItem st') out
     = calendarItems (fun k => clock (Heap.reads st + k)%nat) filter
         searchQuery (omap (Heap.showAt st) showRefs)
         (omap (Heap.eventAt st) eventRefs).
Proof.
  cbv zeta. unfold Heap.calendarItems, calendarItems.
  destruct (heap_collect_run clock filter showRefs eventRefs st)
    as (st1 & items & Hrun & Hg & Hin).
  rewrite Heap_bind_assoc_run.
  rewrite (bind_run _ _ _ _ _ Hrun).
  destruct (heap_finish_run searchQuery st1 _ items _ Hin)
    as (out & Hfin & Hrange & Hnd & Hview).
  rewrite Hfin. cbn [fst snd].
  split; [|split; [|split; [|split]]]; try assumption.
  - intros l o Hl. rewrite (grows_lookup st st1); [exact Hl|exact Hg|].
    now apply lookup_lt_Some in Hl.
  - intros l Hl o Ho. destruct Hg as (cells & Hobjs & Hcells).
    rewrite Hobjs, lookup_app_r in Ho by exact Hl.
    apply list_elem_of_lookup_2, list_elem_of_In in Ho.
    rewrite List.Forall_forall in Hcells. now apply Hcells.
Qed.

Lemma calendarItems_leaves_inputs_witness :
  let run :=
    @Heap.calendarItems refRuntime (stoppedClock (localTime 2024 6 3 9 0))
      all noSearch [0%nat] [] scenarioStore in
  Heap.objs (snd run) !! 0%nat = Some (Heap.OShow mondayShow)
  /\ NoDup (itemLocs (fst run))
  /\ map (Heap.viewItem (snd run)) (fst run)
     = @calendarItems refRuntime
         (fun k => stoppedClock (localTime 2024 6 3 9 0)
                     (Heap.reads scenarioStore + k)%nat)
         all noSearch [mondayShow] [].
Proof.
  cbv zeta.
  destruct (@calendarItems_leaves_inputs refRuntime
              (stoppedClock (localTime 2024 6 3 9 0)) all noSearch [0%nat] []
              scenarioStore) as (Hkept & _ & _ & Hnd & Hview).
  split; [|split].
  - apply Hkept. reflexivity.
  - exact Hnd.
  - exact Hview.
Defined.



(** * Further properties of the calendars *)

(** ** The rules of the projection *)

Section Rules.
Context `{JSRuntime}.

Lemma projection_by_filter (now : Z) rt k st :
  projectRecurringDates now rt k st
  = map (fun d : nat => stampTime st (Time (now + Z.of_nat d * msPerDay)))
      (matchingDays now rt k).
Proof.
  unfold projectRecurringDates, matchingDays. generalize (seq 0 28).
  intros l. induction l as [|d l IH]; [reflexivity|].
  cbn [flat_map List.filter]. rewrite projectDay_unfold, IH.
  now destruct (shouldAdd rt k _).
Qed.

Lemma weekday_cases (D : Z) :
  let r := (D + 4) mod 7 in
  r = 0 \/ r = 1 \/ r = 2 \/ r = 3 \/ r = 4 \/ r = 5 \/ r = 6.
Proof. cbv zeta. pose proof (Z.mod_pos_bound (D + 4) 7 eq_refl). lia. Qed.

(** The days that match depend on the clock through the weekday of today
    only. *)
Lemma matchingDays_weekday (now : Z) rt k :
  matchingDays now rt k
  = List.filter
      (fun d : nat =>
         shouldAdd rt k (Some ((weekDay now + Z.of_nat d) mod 7)))
      (seq 0 28).
Proof.
  unfold matchingDays, weekDay. apply filter_ext. intros d.
  do 2 f_equal.
  replace (dayOf now + Z.of_nat d + 4) with (dayOf now + 4 + Z.of_nat d)
    by lia.
  now rewrite Z.add_mod_idemp_l by discriminate.
Qed.

Lemma filter_split {A : Type} (p q : A -> bool) (l : list A) :
  (forall a, q a = negb (p a)) ->
  Permutation (List.filter p l ++ List.filter q l) l.
Proof.
  intros Hq. induction l as [|a l IH]; [constructor|].
  cbn [List.filter]. rewrite Hq. destruct (p a); cbn [negb app].
  - now constructor.
  - rewrite <- Permutation_middle. now constructor.
Qed.

Lemma weekend_not_weekday (k k' : option Z) (w : Z) :
  shouldAdd (Some "WEEKENDS") k' (Some (w mod 7))
  = negb (shouldAdd (Some "WEEKDAYS") k (Some (w mod 7))).
Proof.
  pose proof (Z.mod_pos_bound w 7 eq_refl) as Hw.
  set (r := w mod 7) in *.
  assert (Hr : r = 0 \/ r = 1 \/ r = 2 \/ r = 3 \/ r = 4 \/ r = 5 \/ r = 6)
    by lia.
  destruct Hr as [->|[->|[->|[->|[->|[->| ->]]]]]]; reflexivity.
Qed.

End Rules.

(** X1: whatever the clock shows, the 28 days of the projection hold 20 days
    that match WEEKDAYS and 8 that match WEEKENDS; every day matches exactly
    one of the two rules, so that the two projections together are the DAILY
    one. *)
Theorem weekdays_weekends_partition `{JSRuntime} (now : Z) (k k' : option Z)
    (st : option string) :
  let wd := projectRecurringDates now (Some "WEEKDAYS") k st in
  let we := projectRecurringDates now (Some "WEEKENDS") k' st in
  length wd = 20%nat
  /\ length we = 8%nat
  /\ (forall d : nat,
        projectDay (Time now) (Some "WEEKDAYS") k st d
        ++ projectDay (Time now) (Some "WEEKENDS") k' st d
        = projectDay (Time now) (Some "DAILY") k st d)
  /\ Permutation (wd ++ we) (projectRecurringDates now (Some "DAILY") k st).
Proof.
  cbv zeta. rewrite !projection_by_filter, !length_map.
  split; [|split; [|split]].
  - rewrite matchingDays_weekday. unfold weekDay.
    destruct (weekday_cases (dayOf now)) as [Hr|[Hr|[Hr|[Hr|[Hr|[Hr|Hr]]]]]];
      rewrite Hr; reflexivity.
  - rewrite matchingDays_weekday. unfold weekDay.
    destruct (weekday_cases (dayOf now)) as [Hr|[Hr|[Hr|[Hr|[Hr|[Hr|Hr]]]]]];
      rewrite Hr; reflexivity.
  - intros d. rewrite !projectDay_unfold.
    rewrite (weekend_not_weekday k k'), shouldAdd_daily.
    now destruct (shouldAdd (Some "WEEKDAYS") k _).
  - rewrite <- map_app. apply Permutation_map.
    replace (matchingDays now (Some "DAILY") k) with (seq 0 28).
    + unfold matchingDays. apply filter_split. intros d.
      apply weekend_not_weekday.
    + unfold matchingDays. symmetry. apply forallb_filter_id.
      apply forallb_forall. intros d _. apply shouldAdd_daily.
Qed.












(** ** The items of a recurring show and the days they are listed on *)

Section RecurringItems.
Context `{JSRuntime}.

Lemma shouldAdd_recursOn rt k dow : shouldAdd rt k dow = recursOn rt k dow.
Proof. reflexivity. Qed.






Lemma filter_filter_swap {A : Type} (p q : A -> bool) (l : list A) :
  List.filter p (List.filter q l) = List.filter q (List.filter p l).
Proof.
  induction l as [|a l IH]; [reflexivity|]. cbn [List.filter].
  destruct (q a) eqn:Hq, (p a) eqn:Hp; cbn [List.filter];
    rewrite ?Hq, ?Hp, IH; reflexivity.
Qed.



End RecurringItems.






(** ** The week view and the navigation *)

Lemma weekDay_range (t : Z) : 0 <= weekDay t <= 6.
Proof.
  unfold weekDay. pose proof (Z.mod_pos_bound (dayOf t + 4) 7 eq_refl). lia.
Qed.

Lemma weekDay_plus_days (t n : Z) :
  weekDay (t + n * msPerDay) = (weekDay t + n) mod 7.
Proof.
  unfold weekDay. rewrite dayOf_plus_days.
  replace (dayOf t + n + 4) with (dayOf t + 4 + n) by lia.
  now rewrite Z.add_mod_idemp_l by discriminate.
Qed.

Lemma time_of_day_plus_days (t n : Z) :
  (t + n * msPerDay) mod msPerDay = t mod msPerDay.
Proof. apply Z.mod_add. discriminate. Qed.





Lemma lookup_repeat {A : Type} (x : A) (n p : nat) :
  (p < n)%nat -> repeat x n !! p = Some x.
Proof.
  revert p. induction n as [|n IH]; intros p Hp; [lia|].
  destruct p as [|p]; [reflexivity|]. cbn. apply IH. lia.
Qed.

(** X8: in the month view the cell in position [p] of the grid of seven
    columns is empty before the first day of the month; the cell of the day
    [i + 1] of the month is in position [firstDay + i], holds the date [i]
    days after the first day, and its column, the position modulo 7, is the
    weekday of that date. *)
Theorem monthCells_columns `{JSCalendar} (currentDate : Z) :
  let first :=
    newDateYMD (getFullYear currentDate) (getMonth currentDate) 1 in
  (forall p : nat, (p < Z.to_nat (firstDay currentDate))%nat ->
     monthCells currentDate !! p = Some None)
  /\ (forall i : nat, (i < Z.to_nat (daysInMonth currentDate))%nat ->
        monthCells currentDate !! (Z.to_nat (firstDay currentDate) + i)%nat
        = Some (Some (first + Z.of_nat i * msPerDay))
        /\ weekDay (first + Z.of_nat i * msPerDay)
           = Z.of_nat (Z.to_nat (firstDay currentDate) + i) mod 7).
Proof.
  cbv zeta. unfold monthCells. split.
  - intros p Hp. rewrite lookup_app_l by now rewrite repeat_length.
    now apply lookup_repeat.
  - intros i Hi. split.
    + rewrite lookup_app_r by (rewrite repeat_length; lia).
      rewrite repeat_length.
      replace (Z.to_nat (firstDay currentDate) + i
               - Z.to_nat (firstDay currentDate))%nat with i by lia.
      rewrite list_lookup_fmap, lookup_seq_lt by exact Hi. cbn.
      unfold newDateYMD. do 2 f_equal. lia.
    + rewrite weekDay_plus_days. unfold firstDay.
      pose proof (weekDay_range
                    (newDateYMD (getFullYear currentDate)
                       (getMonth currentDate) 1)).
      rewrite Nat2Z.inj_add, Z2Nat.id by lia. reflexivity.
Qed.

Lemma monthCells_columns_witness :
  let t := localTime 2024 6 15 9 0 in
  @monthCells refCalendar t !! 2%nat = Some None
  /\ @monthCells refCalendar t !! (Z.to_nat (@firstDay refCalendar t) + 4)%nat
     = Some (Some (localTime 2024 6 5 0 0))
  /\ weekDay (localTime 2024 6 5 0 0) = 3.
Proof.
  cbv zeta.
  destruct (@monthCells_columns refCalendar (localTime 2024 6 15 9 0))
    as [Hblank Hday].
  split; [apply Hblank; vm_compute; lia|].
  destruct (Hday 4%nat ltac:(vm_compute; lia)) as [Hcell Hcol].
  split; [exact Hcell|exact Hcol].
Defined.

(** ** The grid of the month calendar *)

Lemma weekRows_run (n : nat) :
  forall (fuel : nat) (day stop : Z),
    (n <= fuel)%nat ->
    (forall k : Z, 0 <= k < Z.of_nat n -> day + 7 * k * msPerDay <= stop) ->
    stop < day + 7 * Z.of_nat n * msPerDay ->
    weekRows fuel day stop
    = Some (map (fun w : nat =>
                   map (fun i : nat =>
                          day + (7 * Z.of_nat w + Z.of_nat i) * msPerDay)
                     (seq 0 7))
              (seq 0 n)).
Proof.
  induction n as [|n IH]; intros fuel day stop Hfuel Hin Hout.
  - destruct fuel; cbn [weekRows];
      destruct (Z.leb_spec day stop); try reflexivity; lia.
  - destruct fuel as [|fuel]; [lia|]. cbn [weekRows].
    specialize (Hin 0 ltac:(lia)) as H0.
    destruct (Z.leb_spec day stop); [|unfold msPerDay in *; lia].
    rewrite (IH fuel (day + 7 * msPerDay) stop).
    + cbn [seq map]. f_equal. apply (f_equal2 cons).
      * repeat (apply (f_equal2 cons); [unfold msPerDay; lia|]).
        reflexivity.
      * rewrite <- seq_shift, map_map. apply map_ext. intros w.
        repeat (apply (f_equal2 cons); [unfold msPerDay; lia|]).
        reflexivity.
    + lia.
    + intros k Hk. specialize (Hin (k + 1) ltac:(lia)).
      unfold msPerDay in *. lia.
    + unfold msPerDay in *. lia.
Qed.

Lemma week_of_day (d : Z) :
  d - (d + 4) mod 7 + 4 = 7 * ((d + 4) / 7).
Proof. pose proof (Z.div_mod (d + 4) 7 ltac:(discriminate)). lia. Qed.

(** X9: when the month starts before it ends, the grid of the month
    calendar is built in as many turns as it has rows: at least one row, each
    of seven days; the day in column [i] of the row [w] falls on the calendar
    day [7 w + i] days after the Sunday of the week in which the month
    starts, a day of weekday [i]; the first row holds the first day of the
    month and the last row its last day. *)
Theorem weekRows_grid (monthStart monthEnd : Z) :
  monthStart <= monthEnd ->
  let start := startOfWeek monthStart in
  let stop := endOfWeek monthEnd in
  exists n : nat,
    (1 <= n)%nat
    /\ (forall fuel : nat, (n <= fuel)%nat ->
          exists rows,
            weekRows fuel start stop = Some rows
            /\ length rows = n
            /\ forall w i : nat, (w < n)%nat -> (i < 7)%nat ->
                 exists row u,
                   rows !! w = Some row
                   /\ length row = 7%nat
                   /\ row !! i = Some u
                   /\ dayOf u
                      = dayOf start + 7 * Z.of_nat w + Z.of_nat i
                   /\ weekDay u = Z.of_nat i)
    /\ weekDay start = 0
    /\ dayOf start <= dayOf monthStart < dayOf start + 7
    /\ dayOf start + 7 * (Z.of_nat n - 1) <= dayOf monthEnd
       < dayOf start + 7 * Z.of_nat n.
Proof.
  intros Hle. cbv zeta.
  assert (Hdays : dayOf monthStart <= dayOf monthEnd).
  { unfold dayOf. apply Z.div_le_mono; [reflexivity|exact Hle]. }
  pose proof (week_of_day (dayOf monthStart)) as H0.
  pose proof (week_of_day (dayOf monthEnd)) as H1.
  pose proof (weekDay_range monthStart) as Hw0.
  pose proof (weekDay_range monthEnd) as Hw1.
  fold (weekDay monthStart) in H0. fold (weekDay monthEnd) in H1.
  set (q0 := (dayOf monthStart + 4) / 7) in *.
  set (q1 := (dayOf monthEnd + 4) / 7) in *.
  assert (Hq : q0 <= q1).
  { unfold q0, q1. apply Z.div_le_mono; lia. }
  assert (Hstart : dayOf (startOfWeek monthStart)
                   = dayOf monthStart - weekDay monthStart).
  { unfold startOfWeek. rewrite <- (Z.add_0_r (_ * msPerDay)).
    apply dayOf_of_day. unfold msPerDay. lia. }
  assert (Hweek : forall j : Z,
            weekDay (startOfWeek monthStart + j * msPerDay) = j mod 7).
  { intros j. rewrite weekDay_plus_days. unfold weekDay at 1.
    rewrite Hstart.
    replace (dayOf monthStart - weekDay monthStart + 4) with (0 + q0 * 7)
      by lia.
    rewrite Z.mod_add by discriminate. reflexivity. }
  exists (Z.to_nat (q1 - q0 + 1)).
  split; [lia|]. split; [|split; [|split]].
  - intros fuel Hfuel. eexists. split; [|split].
    + apply weekRows_run; [exact Hfuel| |].
      * intros k Hk. unfold startOfWeek, endOfWeek, msPerDay. lia.
      * unfold startOfWeek, endOfWeek, msPerDay. lia.
    + now rewrite length_map, length_seq.
    + intros w i Hw Hi. eexists _, _. split; [|split; [|split; [|split]]].
      * rewrite list_lookup_fmap, lookup_seq_lt by exact Hw. reflexivity.
      * now rewrite length_map, length_seq.
      * rewrite list_lookup_fmap, lookup_seq_lt by exact Hi. reflexivity.
      * cbn [Nat.add]. rewrite dayOf_plus_days. lia.
      * cbn [Nat.add]. rewrite Hweek.
        replace (7 * Z.of_nat w + Z.of_nat i) with (Z.of_nat i + Z.of_nat w * 7)
          by lia.
        rewrite Z.mod_add by discriminate. apply Z.mod_small. lia.
  - specialize (Hweek 0). rewrite Z.add_0_r in Hweek. exact Hweek.
  - rewrite Hstart. lia.
  - rewrite Hstart. lia.
Qed.

Lemma weekRows_grid_witness :
  exists n : nat,
    (1 <= n)%nat
    /\ exists rows,
         @calendarRows refCalendar n (localTime 2024 6 15 9 0) = Some rows
         /\ length rows = n.
Proof.
  destruct (weekRows_grid
              (@startOfMonth refCalendar (localTime 2024 6 15 9 0))
              (@endOfMonth refCalendar
                 (@startOfMonth refCalendar (localTime 2024 6 15 9 0))))
    as (n & Hn & Hrows & _).
  - vm_compute. discriminate.
  - exists n. split; [exact Hn|].
    destruct (Hrows n ltac:(lia)) as (rows & Hgrid & Hlen & _).
    exists rows. split; [exact Hgrid | exact Hlen].
Defined.

(** ** What a cell of the month calendar lists *)

(** X10: a cell lists the first two shows of its day.  With at most two
    shows, events fill the lines that are left, two lines are drawn at most
    and the indicator counts the entries that are not drawn.  With more than
    two shows the events are cut from the end instead: all but
    [shows - 2] of them are drawn, below the two shows, and the indicator
    still counts all entries but two. *)
Theorem cellEntries_lines (dayShows : list Show.t) (dayEvents : list Event.t) :
  let shows := fst (fst (cellEntries dayShows dayEvents)) in
  let events := snd (fst (cellEntries dayShows dayEvents)) in
  let more := snd (cellEntries dayShows dayEvents) in
  let total := (length dayShows + length dayEvents)%nat in
  let drawn := (length shows + length events)%nat in
  shows = firstn 2 dayShows
  /\ ((length dayShows <= 2)%nat ->
        events = firstn (2 - length dayShows) dayEvents
        /\ drawn = Nat.min 2 total
        /\ more = if (2 <? total)%nat
                  then Some (Z.of_nat (total - drawn)) else None)
  /\ ((2 < length dayShows)%nat ->
        events
        = firstn (length dayEvents - (length dayShows - 2)) dayEvents
        /\ drawn = (2 + (length dayEvents - (length dayShows - 2)))%nat
        /\ more = Some (Z.of_nat total - 2)).
Proof.
  cbv zeta. unfold cellEntries, slice0. cbn [fst snd].
  change (0 <=? 2) with true. cbv iota. change (Z.to_nat 2) with 2%nat.
  split; [reflexivity|]. split.
  - intros Hs.
    destruct (Z.leb_spec 0 (2 - Z.of_nat (length dayShows))) as [_|]; [|lia].
    replace (Z.to_nat (2 - Z.of_nat (length dayShows)))
      with (2 - length dayShows)%nat by lia.
    split; [reflexivity|].
    rewrite !List.length_firstn. split; [lia|].
    destruct (Z.ltb_spec 2 (Z.of_nat (length dayShows)
                            + Z.of_nat (length dayEvents)));
      destruct (Nat.ltb_spec 2 (length dayShows + length dayEvents));
      try lia; [|reflexivity].
    f_equal. lia.
  - intros Hs.
    destruct (Z.leb_spec 0 (2 - Z.of_nat (length dayShows))) as [|_]; [lia|].
    replace (Z.to_nat (Z.max (Z.of_nat (length dayEvents)
                              + (2 - Z.of_nat (length dayShows))) 0))
      with (length dayEvents - (length dayShows - 2))%nat by lia.
    split; [reflexivity|].
    rewrite !List.length_firstn. split; [lia|].
    destruct (Z.ltb_spec 2 (Z.of_nat (length dayShows)
                            + Z.of_nat (length dayEvents))); [|lia].
    f_equal. lia.
Qed.

Lemma cellEntries_lines_witness :
  let dayShows := [mondayShow; mondayShow; mondayShow] in
  let dayEvents :=
    [recurringEvent 1 "DAILY" None None; recurringEvent 2 "DAILY" None None;
     recurringEvent 3 "DAILY" None None] in
  (length (fst (fst (cellEntries (firstn 1 dayShows) dayEvents)))
   + length (snd (fst (cellEntries (firstn 1 dayShows) dayEvents))))%nat
  = 2%nat
  /\ snd (cellEntries (firstn 1 dayShows) dayEvents) = Some 2
  /\ snd (fst (cellEntries dayShows dayEvents)) = firstn 2 dayEvents
  /\ snd (cellEntries dayShows dayEvents) = Some 4.
Proof.
  cbv zeta.
  destruct (cellEntries_lines
              (firstn 1 [mondayShow; mondayShow; mondayShow])
              [recurringEvent 1 "DAILY" None None;
               recurringEvent 2 "DAILY" None None;
               recurringEvent 3 "DAILY" None None])
    as (_ & Hfew & _).
  destruct (cellEntries_lines
              [mondayShow; mondayShow; mondayShow]
              [recurringEvent 1 "DAILY" None None;
               recurringEvent 2 "DAILY" None None;
               recurringEvent 3 "DAILY" None None])
    as (_ & _ & Hmany).
  destruct Hfew as (_ & Hdrawn & Hmore); [cbn; lia|].
  destruct Hmany as (Hevents & _ & Hmore'); [cbn; lia|].
  split; [exact Hdrawn|]. split; [exact Hmore|].
  split; [exact Hevents | exact Hmore'].
Defined.

(** ** The views of the list calendar *)

Section Views.
Context `{JSRuntime}.

Lemma found_ofType (items : list Item) id ty d :
  found (ofType ty items) id ty d = found items id ty d.
Proof.
  unfold found, ofType. induction items as [|a items IH]; [reflexivity|].
  cbn [List.filter existsb].
  destruct (ItemType_eqb (CalendarItem.type a) ty) eqn:Hty.
  - cbn [existsb]. rewrite Hty, IH. reflexivity.
  - rewrite IH, andb_false_r. reflexivity.
Qed.

Lemma ItemType_eqb_refl ty : ItemType_eqb ty ty = true.
Proof. destruct ty; reflexivity. Qed.

Lemma ofType_snoc ty (items : list Item) (x : Item) :
  ofType ty (items ++ [x])
  = if ItemType_eqb (CalendarItem.type x) ty
    then ofType ty items ++ [x] else ofType ty items.
Proof.
  unfold ofType. rewrite List.filter_app. cbn [List.filter].
  destruct (ItemType_eqb (CalendarItem.type x) ty);
    [reflexivity | apply app_nil_r].
Qed.

Lemma fold_push_same id ty (mk : JSDate -> Item) ds :
  (forall d, CalendarItem.type (mk d) = ty) ->
  forall items,
    ofType ty (fold_left (pushOccurrence id ty mk) ds items)
    = fold_left (pushOccurrence id ty mk) ds (ofType ty items).
Proof.
  intros Hmk. induction ds as [|d ds IH]; intros items; [reflexivity|].
  cbn [fold_left]. rewrite IH. f_equal.
  unfold pushOccurrence. rewrite found_ofType.
  destruct (found items id ty d); [reflexivity|].
  rewrite ofType_snoc, Hmk, ItemType_eqb_refl. reflexivity.
Qed.

Lemma fold_push_other id ty ty' (mk : JSDate -> Item) ds :
  (forall d, CalendarItem.type (mk d) = ty) ->
  ItemType_eqb ty ty' = false ->
  forall items,
    ofType ty' (fold_left (pushOccurrence id ty mk) ds items)
    = ofType ty' items.
Proof.
  intros Hmk Hne. induction ds as [|d ds IH]; intros items; [reflexivity|].
  cbn [fold_left]. rewrite IH.
  unfold pushOccurrence.
  destruct (found items id ty d); [reflexivity|].
  rewrite ofType_snoc, Hmk, Hne. reflexivity.
Qed.

Lemma showStep_shows c items n s :
  ofType show (fst (showStep c (items, n) s))
  = fst (showStep c (ofType show items, n) s).
Proof.
  unfold showStep.
  destruct (Show.is_recurring s && truthy (Show.recurrence_type s));
    destruct (negb (Show.is_recurring s) && truthy (Show.scheduled_time s));
    cbn [fst]; try rewrite fold_push_same by reflexivity;
    try rewrite ofType_snoc; reflexivity.
Qed.

Lemma showStep_events c items n s :
  ofType event (fst (showStep c (items, n) s)) = ofType event items.
Proof.
  unfold showStep.
  destruct (Show.is_recurring s && truthy (Show.recurrence_type s));
    destruct (negb (Show.is_recurring s) && truthy (Show.scheduled_time s));
    cbn [fst];
    try rewrite (fold_push_other _ show event) by reflexivity;
    try rewrite ofType_snoc; reflexivity.
Qed.

Lemma eventStep_events c items n e :
  ofType event (fst (eventStep c (items, n) e))
  = fst (eventStep c (ofType event items, n) e).
Proof.
  unfold eventStep.
  destruct (Event.is_recurring e && truthy (Event.recurrence_type e));
    destruct (negb (Event.is_recurring e));
    try destruct (truthy (orElse (Event.start_datetime e)
                            (Event.start_date e)));
    cbn [fst]; try rewrite fold_push_same by reflexivity;
    try rewrite ofType_snoc; reflexivity.
Qed.

Lemma eventStep_shows c items n e :
  ofType show (fst (eventStep c (items, n) e)) = ofType show items.
Proof.
  unfold eventStep.
  destruct (Event.is_recurring e && truthy (Event.recurrence_type e));
    destruct (negb (Event.is_recurring e));
    try destruct (truthy (orElse (Event.start_datetime e)
                            (Event.start_date e)));
    cbn [fst];
    try rewrite (fold_push_other _ event show) by reflexivity;
    try rewrite ofType_snoc; reflexivity.
Qed.

Lemma fold_shows_shows c l :
  forall items n,
    ofType show (fst (fold_left (showStep c) l (items, n)))
    = fst (fold_left (showStep c) l (ofType show items, n)).
Proof.
  induction l as [|s l IH]; intros items n; [reflexivity|].
  cbn [fold_left].
  rewrite (surjective_pairing (showStep c (items, n) s)).
  rewrite (surjective_pairing (showStep c (ofType show items, n) s)).
  rewrite !showStep_reads, IH, showStep_shows. reflexivity.
Qed.

Lemma fold_shows_events c l :
  forall items n,
    ofType event (fst (fold_left (showStep c) l (items, n)))
    = ofType event items.
Proof.
  induction l as [|s l IH]; intros items n; [reflexivity|].
  cbn [fold_left].
  rewrite (surjective_pairing (showStep c (items, n) s)).
  rewrite IH. apply showStep_events.
Qed.

Lemma fold_events_events c l :
  forall items n,
    ofType event (fst (fold_left (eventStep c) l (items, n)))
    = fst (fold_left (eventStep c) l (ofType event items, n)).
Proof.
  induction l as [|e l IH]; intros items n; [reflexivity|].
  cbn [fold_left].
  rewrite (surjective_pairing (eventStep c (items, n) e)).
  rewrite (surjective_pairing (eventStep c (ofType event items, n) e)).
  rewrite !eventStep_reads, IH, eventStep_events. reflexivity.
Qed.

Lemma fold_events_shows c l :
  forall items n,
    ofType show (fst (fold_left (eventStep c) l (items, n)))
    = ofType show items.
Proof.
  induction l as [|e l IH]; intros items n; [reflexivity|].
  cbn [fold_left].
  rewrite (surjective_pairing (eventStep c (items, n) e)).
  rewrite IH. apply eventStep_shows.
Qed.

Lemma collected_shows c S E :
  ofType show (fst (collectItems c all S E)) = fst (collectItems c shows S E).
Proof.
  unfold collectItems. rewrite (fold_shows_pair c S []).
  rewrite fold_events_shows. apply (fold_shows_shows c S [] 0%nat).
Qed.

Lemma collected_events c S E :
  ofType event (fst (collectItems c all S E))
  = fst (collectItems (fun n => c (sum_list_with showReads S + n)%nat)
           events S E).
Proof.
  unfold collectItems. rewrite (fold_shows_pair c S []).
  rewrite fold_events_events, fold_shows_events.
  change (ofType event []) with (@nil Item).
  apply (fold_step_agree eventStep eventReads eventStep_reads
           eventStep_agree).
  intros j _. f_equal.
Qed.

Lemma filter_perm {A : Type} (p : A -> bool) (l k : list A) :
  Permutation l k -> Permutation (List.filter p l) (List.filter p k).
Proof.
  induction 1 as [|x l k _ IH|x y l|l k m _ IH1 _ IH2]; cbn [List.filter].
  - constructor.
  - destruct (p x); [constructor|]; exact IH.
  - destruct (p x), (p y); try reflexivity. constructor.
  - etransitivity; eassumption.
Qed.

Lemma finish_ofType ty (searchQuery : string) (l k : list Item) :
  ofType ty l = k ->
  Permutation
    (ofType ty (if truthy (Some searchQuery)
                then List.filter (matchesSearch searchQuery) l else sort l))
    (if truthy (Some searchQuery)
     then List.filter (matchesSearch searchQuery) k else sort k).
Proof.
  intros <-. destruct (truthy (Some searchQuery)).
  - unfold ofType. rewrite filter_filter_swap. reflexivity.
  - etransitivity; [|apply sortBy_perm].
    apply filter_perm. symmetry. apply sortBy_perm.
Qed.

End Views.

(** X11: shows and events never hide one another.  The shows of the view
    of everything are the items of the view of the shows, and its events are
    the items of the view of the events when that view reads the clock as the
    events do in the view of everything, after the readings of the shows;
    this holds in the order of collection, and up to the order once the items
    are searched or sorted. *)
Theorem all_view_splits `{JSRuntime} (clock : nat -> Z) (searchQuery : string)
    (showList : list Show.t) (eventList : list Event.t) :
  let later := fun n => clock (sum_list_with showReads showList + n)%nat in
  ofType show (fst (collectItems clock all showList eventList))
  = fst (collectItems clock shows showList eventList)
  /\ ofType event (fst (collectItems clock all showList eventList))
     = fst (collectItems later events showList eventList)
  /\ Permutation
       (ofType show (calendarItems clock all searchQuery showList eventList))
       (calendarItems clock shows searchQuery showList eventList)
  /\ Permutation
       (ofType event (calendarItems clock all searchQuery showList eventList))
       (calendarItems later events searchQuery showList eventList)
  /\ Permutation
       (ofType show (calendarItems clock all searchQuery showList eventList)
        ++ ofType event
             (calendarItems clock all searchQuery showList eventList))
       (calendarItems clock all searchQuery showList eventList).
Proof.
  cbv zeta. split; [apply collected_shows|].
  split; [apply collected_events|].
  unfold calendarItems.
  split; [apply finish_ofType, collected_shows|].
  split; [apply finish_ofType, collected_events|].
  unfold ofType. apply filter_split. intros x.
  destruct (CalendarItem.type x); reflexivity.
Qed.

(** ** The requests of the edit form *)

Lemma truthy_nonempty (s : string) :
  truthy (Some s) = true <-> s <> EmptyString.
Proof.
  unfold truthy. destruct (String.eqb_spec s EmptyString); cbn; split;
    congruence.
Qed.

(** X12: a request made by the edit form carries the schedule of one kind
    only.  For a recurring event it has the rule and the time, both not
    empty, the day of the week exactly when the rule is SPECIFIC_DAY (as the
    string of the number in the form, day 0 included) and no start or end;
    for a one-off event it has the start, the end when one is given, and
    nothing of a recurrence that the form may still hold. *)
Theorem edit_request_schedule (accessToken : option string) (eventId : Z)
    (formData : EditForm.t) (request : Request.t) :
  handleSubmit accessToken eventId formData = Requested request ->
  let body := Request.body request in
  if EditForm.is_recurring formData then
    (exists rule,
        EditForm.recurrence_type formData = Some rule
        /\ rule <> EmptyString
        /\ formGet "recurrence_type" body = Some (FText rule)
        /\ formGet "day_of_week" body
           = (if (rule =? "SPECIFIC_DAY")%string
              then option_map (fun n => FText (jsString (VNumber n)))
                     (EditForm.day_of_week formData)
              else None)
        /\ (rule = "SPECIFIC_DAY" -> EditForm.day_of_week formData <> None))
    /\ EditForm.scheduled_time formData <> EmptyString
    /\ formGet "scheduled_time" body
       = Some (FText (EditForm.scheduled_time formData))
    /\ formGet "start_datetime" body = None
    /\ formGet "end_datetime" body = None
  else
    EditForm.start_datetime formData <> EmptyString
    /\ formGet "start_datetime" body
       = Some (FText (EditForm.start_datetime formData))
    /\ formGet "end_datetime" body
       = (if truthy (Some (EditForm.end_datetime formData))
          then Some (FText (EditForm.end_datetime formData)) else None)
    /\ formGet "recurrence_type" body = None
    /\ formGet "day_of_week" body = None
    /\ formGet "scheduled_time" body = None.
Proof.
  unfold handleSubmit.
  destruct formData as [ti de ba ve ad iv ml ip ir rt dw st sd ed].
  cbn [EditForm.title EditForm.description EditForm.banner_image
       EditForm.venue_name EditForm.address EditForm.is_virtual
       EditForm.meeting_link EditForm.is_public EditForm.is_recurring
       EditForm.recurrence_type EditForm.day_of_week EditForm.scheduled_time
       EditForm.start_datetime EditForm.end_datetime].
  destruct (negb (truthy accessToken)); [discriminate|].
  destruct (_ || _); [discriminate|].
  destruct (_ || _); [discriminate|].
  destruct ir.
  - destruct rt as [rule|]; [|discriminate].
    destruct (truthy (Some rule)) eqn:Hrule; [|discriminate]. cbn [negb].
    destruct (truthy (Some st)) eqn:Hst;
      [|destruct (_ && _); discriminate].
    apply truthy_nonempty in Hrule, Hst.
    unfold strEq. destruct (String.eqb_spec rule "SPECIFIC_DAY") as [->|Hne].
    + destruct dw as [n|]; [|discriminate]. cbn [andb negb].
      intros [= <-]. cbv zeta. split; [|split; [exact Hst|]].
      * exists "SPECIFIC_DAY". split; [reflexivity|]. split; [exact Hrule|].
        destruct ba, ml; (split; [reflexivity|]);
          (split; [reflexivity|discriminate]).
      * destruct ba, ml; repeat split; reflexivity.
    + cbn [andb negb]. intros [= <-]. cbv zeta.
      split; [|split; [exact Hst|]].
      * exists rule. split; [reflexivity|]. split; [exact Hrule|].
        rewrite (proj2 (String.eqb_neq _ _) Hne).
        destruct ba, ml; (split; [reflexivity|]);
          (split; [reflexivity|congruence]).
      * destruct ba, ml; repeat split; reflexivity.
  - destruct (truthy (Some sd)) eqn:Hsd; [|discriminate]. cbn [negb].
    intros [= <-]. cbv zeta. split; [apply truthy_nonempty, Hsd|].
    destruct sd as [|c sd]; [discriminate|].
    destruct ba, ml, ed;
      repeat split; reflexivity.
Qed.

Lemma edit_request_schedule_witness :
  exists request,
    handleSubmit (Some "token") 9 (weeklyForm (Some (Num 0)))
    = Requested request
    /\ formGet "recurrence_type" (Request.body request)
       = Some (FText "SPECIFIC_DAY")
    /\ formGet "day_of_week" (Request.body request) = Some (FText "0")
    /\ formGet "start_datetime" (Request.body request) = None.
Proof.
  eexists. split; [reflexivity|].
  destruct (edit_request_schedule (Some "token") 9
              (weeklyForm (Some (Num 0))) _ eq_refl)
    as ((rule & Hrule & _ & Htype & Hday & _) & _ & _ & Hstart & _).
  injection Hrule as <-.
  split; [exact Htype|]. split; [exact Hday | exact Hstart].
Defined.

Lemma distinctNames_NoDup (l : list string) :
  distinctNames l = true -> NoDup l.
Proof.
  induction l as [|x l IH]; cbn [distinctNames]; intros Hl.
  - apply NoDup_nil_2.
  - apply andb_prop in Hl as [Hx Hl]. apply NoDup_cons_2; [|auto].
    intros Hin. apply negb_true_iff in Hx.
    apply not_true_iff_false in Hx. apply Hx.
    apply existsb_exists. exists x. split; [|apply String.eqb_refl].
    apply list_elem_of_In. exact Hin.
Qed.

(** X13: a request made by the edit form is authorised with the token, is
    for the event edited and names no field twice.  The title has three
    characters at least and the description ten, white space around them
    counted, and neither is blank.  Title, description, venue, address and
    the three flags are always sent, the venue and the address also when
    empty; the meeting link is sent when it is not empty and the banner when
    a file was chosen. *)
Theorem edit_request_fields (accessToken : option string) (eventId : Z)
    (formData : EditForm.t) (request : Request.t) :
  handleSubmit accessToken eventId formData = Requested request ->
  let body := Request.body request in
  let text := fun s : string => Some (FText s) in
  let flag := fun b : bool => Some (FText (if b then "true" else "false")) in
  (exists token,
      accessToken = Some token /\ token <> EmptyString
      /\ Request.authorization request = ("Bearer " ++ token)%string)
  /\ Request.eventId request = eventId
  /\ NoDup (map fst body)
  /\ (3 <= String.length (EditForm.title formData))%nat
  /\ trim (EditForm.title formData) <> EmptyString
  /\ (10 <= String.length (EditForm.description formData))%nat
  /\ trim (EditForm.description formData) <> EmptyString
  /\ formGet "title" body = text (EditForm.title formData)
  /\ formGet "description" body = text (EditForm.description formData)
  /\ formGet "venue_name" body = text (EditForm.venue_name formData)
  /\ formGet "address" body = text (EditForm.address formData)
  /\ formGet "meeting_link" body
     = (if truthy (Some (EditForm.meeting_link formData))
        then text (EditForm.meeting_link formData) else None)
  /\ formGet "is_virtual" body = flag (EditForm.is_virtual formData)
  /\ formGet "is_public" body = flag (EditForm.is_public formData)
  /\ formGet "is_recurring" body = flag (EditForm.is_recurring formData)
  /\ formGet "banner_image" body
     = option_map FBlob (EditForm.banner_image formData).
Proof.
  unfold handleSubmit.
  destruct formData as [ti de ba ve ad iv ml ip ir rt dw st sd ed].
  cbn [EditForm.title EditForm.description EditForm.banner_image
       EditForm.venue_name EditForm.address EditForm.is_virtual
       EditForm.meeting_link EditForm.is_public EditForm.is_recurring
       EditForm.recurrence_type EditForm.day_of_week EditForm.scheduled_time
       EditForm.start_datetime EditForm.end_datetime].
  destruct accessToken as [token|]; [|discriminate].
  destruct (truthy (Some token)) eqn:Htoken; [|discriminate]. cbn [negb].
  apply truthy_nonempty in Htoken.
  destruct (truthy (Some (trim ti))) eqn:Hti; [|discriminate]. cbn [negb orb].
  destruct (Nat.ltb_spec (String.length ti) 3) as [|Hlen]; [discriminate|].
  destruct (truthy (Some (trim de))) eqn:Hde; [|discriminate]. cbn [negb orb].
  destruct (Nat.ltb_spec (String.length de) 10) as [|Hlen']; [discriminate|].
  apply truthy_nonempty in Hti, Hde.
  intros Hreq. cbv zeta.
  assert (Hcases :
    exists payload rest,
      request = updateEvent eventId payload token
      /\ payload
         = [("title", VString ti); ("description", VString de);
            ("venue_name", VString ve); ("address", VString ad);
            ("is_virtual", VBool iv); ("meeting_link", orUndefined ml);
            ("is_public", VBool ip); ("is_recurring", VBool ir)]
           ++ match ba with
              | Some file => [("banner_image", VFile file)]
              | None => []
              end
           ++ rest
      /\ (exists a b c,
            rest = [("recurrence_type", VString a);
                    ("day_of_week", VNumber b);
                    ("scheduled_time", VString c)]
            \/ rest = [("recurrence_type", VString a);
                       ("scheduled_time", VString c)]
            \/ rest = [("start_datetime", VString a);
                       ("end_datetime", VUndefined)]
            \/ rest = [("start_datetime", VString a);
                       ("end_datetime", VString c)])).
  { destruct ir.
    - destruct rt as [rule|]; [|discriminate Hreq].
      destruct (negb (truthy (Some rule))); [discriminate Hreq|].
      destruct (strEq (Some rule) "SPECIFIC_DAY").
      + destruct dw as [n|]; [|discriminate Hreq]. cbn [andb] in Hreq.
        destruct (negb (truthy (Some st))); [discriminate Hreq|].
        injection Hreq as <-. eexists _, _. split; [reflexivity|].
        split; [destruct ba; reflexivity|].
        exists rule, n, st. left. reflexivity.
      + cbn [andb] in Hreq.
        destruct (negb (truthy (Some st))); [discriminate Hreq|].
        injection Hreq as <-. eexists _, _. split; [reflexivity|].
        split; [destruct ba; reflexivity|].
        exists rule, NaN, st. right. left. reflexivity.
    - destruct sd as [|c sd]; [discriminate Hreq|].
      injection Hreq as <-. eexists _, _. split; [reflexivity|].
      split; [destruct ba; reflexivity|].
      destruct ed as [|c' ed].
      + exists (String c sd), NaN, EmptyString. right. right. left.
        reflexivity.
      + exists (String c sd), NaN, (String c' ed). right. right. right.
        reflexivity. }
  destruct Hcases as (payload & rest & Hrequest & Hpayload & a & b & c & Hrest).
  subst request payload.
  split; [exists token; split; [reflexivity|]; split; [exact Htoken|];
          reflexivity|].
  split; [reflexivity|].
  split; [destruct Hrest as [-> | [-> | [-> | ->]]]; destruct ba, ml;
          apply distinctNames_NoDup; vm_compute; reflexivity|].
  do 4 (split; [assumption|]).
  destruct Hrest as [-> | [-> | [-> | ->]]]; destruct ba, ml;
    repeat split; reflexivity.
Qed.

Lemma edit_request_fields_witness :
  exists request,
    handleSubmit (Some "token") 9 oneOffForm = Requested request
    /\ formGet "venue_name" (Request.body request) = Some (FText "Hall")
    /\ formGet "address" (Request.body request) = Some (FText EmptyString)
    /\ formGet "meeting_link" (Request.body request) = None
    /\ formGet "banner_image" (Request.body request)
       = Some (FBlob (mkFile "banner.png")).
Proof.
  eexists. split; [reflexivity|].
  destruct (edit_request_fields (Some "token") 9 oneOffForm _ eq_refl)
    as (_ & _ & _ & _ & _ & _ & _ & _ & _ & Hvenue & Haddress & Hlink & _ & _
        & _ & Hbanner).
  split; [exact Hvenue|]. split; [exact Haddress|].
  split; [exact Hlink | exact Hbanner].
Defined.

(** ** The days of the month calendar *)

(** X14: the month calendar has no horizon.  A recurring show or event is
    listed on a day exactly when it is listed any number of weeks later or
    earlier; a one-off show is listed on no other day than the one its time
    parses to. *)
Theorem month_calendar_days `{JSRuntime} (t n : Z) (s : Show.t) (e : Event.t) :
  (Show.is_recurring s = true ->
   showOnDay (Time (t + n * 7 * msPerDay)) s = showOnDay (Time t) s)
  /\ (Event.is_recurring e = true ->
      eventOnDay (Time (t + n * 7 * msPerDay)) e = eventOnDay (Time t) e)
  /\ (Show.is_recurring s = false ->
      showOnDay (Time t) s = true ->
      exists u, parseISO (stringOf (Show.scheduled_time s)) = Some u
                /\ dayOf u = dayOf t).
Proof.
  assert (Hday : getDay (Time (t + n * 7 * msPerDay)) = getDay (Time t)).
  { cbn [getDay]. f_equal.
    replace (n * 7 * msPerDay) with ((n * 7) * msPerDay) by lia.
    rewrite weekDay_plus_days, Z.mod_add by discriminate.
    pose proof (weekDay_range t). apply Z.mod_small. lia. }
  split; [|split].
  - intros Hs. unfold showOnDay. rewrite Hs. cbn [negb].
    rewrite Hday. reflexivity.
  - intros He. unfold eventOnDay. rewrite He. cbn [negb].
    rewrite Hday. reflexivity.
  - intros Hs. unfold showOnDay. rewrite Hs. cbn [negb].
    destruct (negb (truthy (Show.scheduled_time s))); [discriminate|].
    unfold parseISODate, isSameDay.
    destruct (parseISO (stringOf (Show.scheduled_time s))) as [u|];
      [|discriminate].
    intros Hu. exists u. split; [reflexivity|]. apply Z.eqb_eq, Hu.
Qed.

Lemma month_calendar_days_witness :
  @showOnDay refRuntime (Time (localTime 2024 6 3 9 0 + 52 * 7 * msPerDay))
    mondayShow
  = @showOnDay refRuntime (Time (localTime 2024 6 3 9 0)) mondayShow.
Proof.
  apply (@month_calendar_days refRuntime (localTime 2024 6 3 9 0) 52
           mondayShow (recurringEvent 1 "DAILY" None None)).
  reflexivity.
Defined.

(** ** The search of the list calendar *)

Lemma lowerChar_idem (c : ascii) : lowerChar (lowerChar c) = lowerChar c.
Proof.
  destruct c as [[] [] [] [] [] [] [] []]; vm_compute; reflexivity.
Qed.

Lemma toLowerCase_idem (s : string) :
  toLowerCase (toLowerCase s) = toLowerCase s.
Proof.
  induction s as [|c s IH]; [reflexivity|].
  cbn [toLowerCase]. rewrite lowerChar_idem, IH. reflexivity.
Qed.

Lemma toLowerCase_truthy (s : string) :
  truthy (Some (toLowerCase s)) = truthy (Some s).
Proof. destruct s; reflexivity. Qed.

(** X15: a search returns the items of the unsearched calendar that match
    the query, each as often as there, in the order of collection rather
    than of time; the case of the letters of the query does not matter. *)
Theorem search_selects `{JSRuntime} (clock : nat -> Z) (filter : ContentFilter)
    (searchQuery : string) (showList : list Show.t)
    (eventList : list Event.t) :
  searchQuery <> noSearch ->
  Permutation
    (List.filter (matchesSearch searchQuery)
       (calendarItems clock filter noSearch showList eventList))
    (calendarItems clock filter searchQuery showList eventList)
  /\ calendarItems clock filter searchQuery showList eventList
     = List.filter (matchesSearch searchQuery)
         (fst (collectItems clock filter showList eventList))
  /\ calendarItems clock filter (toLowerCase searchQuery) showList eventList
     = calendarItems clock filter searchQuery showList eventList.
Proof.
  intros Hq. unfold calendarItems, noSearch.
  rewrite toLowerCase_truthy.
  assert (Htruthy : truthy (Some searchQuery) = true).
  { destruct searchQuery; [contradiction|reflexivity]. }
  rewrite Htruthy. change (truthy (Some EmptyString)) with false. cbv iota.
  split; [|split; [reflexivity|]].
  - apply filter_perm. symmetry. apply sortBy_perm.
  - apply List.filter_ext. intros i. unfold matchesSearch.
    rewrite toLowerCase_idem. reflexivity.
Qed.

Lemma search_selects_witness :
  @calendarItems refRuntime (stoppedClock (localTime 2024 6 3 9 0)) all
    (toLowerCase "WEEK") [mondayShow] []
  = @calendarItems refRuntime (stoppedClock (localTime 2024 6 3 9 0)) all
      "WEEK" [mondayShow] [].
Proof.
  apply (@search_selects refRuntime (stoppedClock (localTime 2024 6 3 9 0))
           all "WEEK" [mondayShow] []).
  discriminate.
Defined.
